(** * Verification of the [monitor] package of the OPC-UA client

    The package exists in two revisions that live side by side in the
    sources: [monitor.go] (the first design: a node-string index, a channel
    stored in the subscription) and [subscription.go] (the later design: an
    item index, callback or channel given to the pump).  Each revision is
    embedded in a module of its own, [MonitorGo] and [SubscriptionGo]; the
    value types they share come first.

    Conventions of the embedding:
    - [uint32] and [uint64] are [Z] with the wrap-around written out;
    - Go maps are [gmap]s; a [nil] slice and an empty slice are both [[]];
    - a pointer to an immutable value is the value, a pointer that the code
      leaves [nil] is an [option]; a pointer that the package writes through
      ([*ua.MonitoringParameters]) is an address in a memory of such objects,
      so that two requests holding the same pointer share one object;
    - the transport ([opcua.Subscription], [opcua.Client]) and
      [ua.ParseNodeID] are outside the package: their answers are the fields
      of an [Env] record, and every function returns the list of the
      transport calls it made;
    - the mutex is not modelled: every operation is one atomic step. *)

From Stdlib Require Import ZArith List Lia.
From stdpp Require Import base gmap list strings fin_maps.

Local Open Scope Z_scope.

(** ** Machine integers *)

Definition wrap32 (z : Z) : Z := z mod 2 ^ 32.
Definition wrap64 (z : Z) : Z := z mod 2 ^ 64.

(** [atomic.AddUint32(&x, d)] and [atomic.AddUint64(&x, d)]: the new value. *)
Definition atomic_AddUint32 (x d : Z) : Z := wrap32 (x + d).
Definition atomic_AddUint64 (x d : Z) : Z := wrap64 (x + d).

(** ** Values of package [ua] *)

(** Modelled from the spec: [ua.NodeID] is declared in package [ua]; a node
    identifier is immutable and compared by its canonical string form, so
    it is represented by that form. *)
Record NodeID := mkNodeID { NodeID_String : string }.

(** Modelled from the spec: [ua.DataValue] is declared in package [ua]; the
    decoded value payload is opaque to this package. *)
Record DataValue := mkDataValue { dv_payload : Z }.

(** [ua.StatusCode] is a [uint32] that is also an [error]. *)
Definition StatusOK : Z := 0.

(** The errors the package builds or passes on. *)
Inductive error : Type :=
| ErrSlowConsumer
| ErrSubIDMismatch (got want : Z)      (* "message sub id %v does not match sub id %v" *)
| ErrUnknownMessageType (ty : string)  (* "unknown message type: %T" *)
| ErrHandleNotFound (h : Z)            (* "handle %d not found" *)
| ErrItemNotFound (id : Z)             (* "item not found: %s" *)
| ErrNodeNotFound (sid : string)       (* "node not found: %s" *)
| ErrResponseLength (op : string)      (* "... response length mismatch" *)
| ErrStatus (code : Z)                 (* a ua.StatusCode returned as error *)
| ErrExternal (msg : string).          (* an error made by the transport or the parser *)

(** The not-found class of errors. *)
Definition is_not_found (e : error) : bool :=
  match e with
  | ErrHandleNotFound _ | ErrItemNotFound _ | ErrNodeNotFound _ => true
  | _ => false
  end.

(** [DataChangeMessage]: the embedded [*ua.DataValue], [Error], [NodeID]. *)
Record DataChangeMessage := mkDataChangeMessage {
  msg_DataValue : option DataValue;
  msg_Error : option error;
  msg_NodeID : option NodeID
}.

(** [&DataChangeMessage{}] *)
Definition emptyMessage : DataChangeMessage :=
  {| msg_DataValue := None; msg_Error := None; msg_NodeID := None |}.

(** [ua.MonitoredItemNotification] *)
Record MonitoredItemNotification := mkMonitoredItemNotification {
  min_ClientHandle : Z;
  min_Value : option DataValue
}.

(** The dynamic type of [PublishNotificationData.Value]. *)
Inductive NotificationValue : Type :=
| DataChangeNotification (MonitoredItems : list MonitoredItemNotification)
| OtherNotification (ty : string).

(** [opcua.PublishNotificationData] *)
Record PublishNotificationData := mkPublishNotificationData {
  pnd_SubscriptionID : Z;
  pnd_Error : option error;
  pnd_Value : NotificationValue
}.

(** ** Requests and responses of the transport *)

(** Constants of package [ua] that the requests carry. *)
Definition AttributeIDValue : Z := 13.
Definition MonitoringModeReporting : Z := 2.
Definition TimestampsToReturnBoth : Z := 2.

(** Modelled from the spec: [ua.MonitoringParameters] is declared in package
    [ua]; of its fields the package writes [ClientHandle] and passes the
    others (sampling interval, queue size, ...) through opaquely. *)
Record MonitoringParameters := mkMonitoringParameters {
  mp_ClientHandle : Z;
  mp_settings : Z
}.

(** A [*ua.MonitoringParameters] that is not [nil] is the address of an
    object, and a caller may put one address into several requests.
    [ParamsMem] is the memory that holds the caller's objects: what is at
    each address. *)
Definition ParamsPtr : Type := positive.
Definition ParamsMem : Type := ParamsPtr -> MonitoringParameters.

(** [p.ClientHandle = handle], through the pointer [p]. *)
Definition write_ClientHandle (mem : ParamsMem) (p : ParamsPtr) (handle : Z) : ParamsMem :=
  fun q =>
    if (q =? p)%positive
    then {| mp_ClientHandle := handle; mp_settings := mp_settings (mem p) |}
    else mem q.

(** The [RequestedParameters] of a request that is being built: a pointer to
    the object that the constructor of the request made, which nothing else
    points to and which is therefore held by value, or a pointer to an
    object of the caller. *)
Inductive ParamsRef : Type :=
| OwnParams (params : MonitoringParameters)
| CallerParams (p : ParamsPtr).

(** [*r], read in the memory [mem]. *)
Definition deref (mem : ParamsMem) (r : ParamsRef) : MonitoringParameters :=
  match r with
  | OwnParams params => params
  | CallerParams p => mem p
  end.

(** Modelled from the spec: [ua.MonitoredItemCreateRequest], with
    [ItemToMonitor.NodeID] and [ItemToMonitor.AttributeID] flattened; this is
    the request as the transport reads it when the RPC is made. *)
Record MonitoredItemCreateRequest := mkMonitoredItemCreateRequest {
  mcr_NodeID : NodeID;
  mcr_AttributeID : Z;
  mcr_MonitoringMode : Z;
  mcr_RequestedParameters : MonitoringParameters
}.

(** Modelled from the spec: [ua.MonitoredItemModifyRequest], as the transport
    reads it when the RPC is made. *)
Record MonitoredItemModifyRequest := mkMonitoredItemModifyRequest {
  mmr_MonitoredItemID : Z;
  mmr_RequestedParameters : MonitoringParameters
}.

(** Modelled from the spec: the responses of the transport carry a top-level
    service result and a per-item result list (status code, and for monitor
    the assigned server item id). *)
Record MonitoredItemCreateResult := mkMonitoredItemCreateResult {
  res_StatusCode : Z;
  res_MonitoredItemID : Z
}.

Record CreateMonitoredItemsResponse := mkCreateMonitoredItemsResponse {
  create_ServiceResult : Z;
  create_Results : list MonitoredItemCreateResult
}.

(** The responses to unmonitor, modify and set-mode: a service result and one
    status code per item. *)
Record StatusListResponse := mkStatusListResponse {
  ServiceResult : Z;
  Results : list Z
}.

(** Modelled from the spec: [opcua.NewMonitoredItemCreateRequestWithDefaults]
    is declared in package [opcua]; it builds the create request of one
    node with the given attribute and client handle, reporting mode and
    default parameters. *)
Definition NewMonitoredItemCreateRequestWithDefaults
    (defaults : Z) (nodeID : NodeID) (attributeID : Z) (clientHandle : Z)
  : MonitoredItemCreateRequest :=
  {| mcr_NodeID := nodeID;
     mcr_AttributeID := attributeID;
     mcr_MonitoringMode := MonitoringModeReporting;
     mcr_RequestedParameters :=
       {| mp_ClientHandle := clientHandle; mp_settings := defaults |} |}.

(** A [*ua.MonitoredItemCreateRequest] while the package holds it in
    [toAdd]: [RequestedParameters] is a pointer. *)
Record PendingCreateRequest := mkPendingCreateRequest {
  pcr_NodeID : NodeID;
  pcr_AttributeID : Z;
  pcr_MonitoringMode : Z;
  pcr_RequestedParameters : ParamsRef
}.

(** A [*ua.MonitoredItemModifyRequest] while the package holds it in
    [toModify]: [RequestedParameters] is the caller's pointer. *)
Record PendingModifyRequest := mkPendingModifyRequest {
  pmr_MonitoredItemID : Z;
  pmr_RequestedParameters : ParamsPtr
}.

(** What the transport reads from a request when the RPC is made with the
    memory in the state [mem]. *)
Definition read_create (mem : ParamsMem) (r : PendingCreateRequest)
  : MonitoredItemCreateRequest :=
  {| mcr_NodeID := pcr_NodeID r;
     mcr_AttributeID := pcr_AttributeID r;
     mcr_MonitoringMode := pcr_MonitoringMode r;
     mcr_RequestedParameters := deref mem (pcr_RequestedParameters r) |}.

Definition read_modify (mem : ParamsMem) (r : PendingModifyRequest)
  : MonitoredItemModifyRequest :=
  {| mmr_MonitoredItemID := pmr_MonitoredItemID r;
     mmr_RequestedParameters := mem (pmr_RequestedParameters r) |}.

(** The calls made to the transport. *)
Inductive Call : Type :=
| CallSubscribe
| CallCancel
| CallMonitor (reqs : list MonitoredItemCreateRequest)
| CallUnmonitor (ids : list Z)
| CallModifyMonitoredItems (reqs : list MonitoredItemModifyRequest)
| CallSetMonitoringMode (mode : Z) (ids : list Z).

(** ** Outcomes and effects *)

(** A Go call either comes back or panics. *)
Inductive Outcome (A : Type) : Type :=
| Normal (a : A)
| Panicked (msg : string).
Arguments Normal {A} a.
Arguments Panicked {A} msg.

(** What the pump does to the world outside the subscription. *)
Inductive Effect : Type :=
| ErrHandlerCalled (e : error)            (* errHandlerCB(client, s, e) *)
| CallbackCalled (m : DataChangeMessage)  (* cb(s, out) *)
| ChanSent (m : DataChangeMessage).       (* notifyCh <- out went through *)

(** ** The consumer's channel

    A Go channel of capacity [ch_cap] holding [ch_buf], with [ch_recvq]
    receivers parked on it (receivers park only on an empty buffer). *)
Record Chan := mkChan {
  ch_cap : nat;
  ch_buf : list DataChangeMessage;
  ch_recvq : nat
}.

(** The [case notifyCh <- out:] arm of a [select] with a [default]: the send
    goes through when a receiver is parked or a slot is free. *)
Definition try_send (c : Chan) (m : DataChangeMessage) : option Chan :=
  match ch_recvq c with
  | S k => Some {| ch_cap := ch_cap c; ch_buf := ch_buf c; ch_recvq := k |}
  | O =>
      if (length (ch_buf c) <? ch_cap c)%nat
      then Some {| ch_cap := ch_cap c; ch_buf := ch_buf c ++ [m]; ch_recvq := O |}
      else None
  end.

(** A consumer's [<-ch]: takes the oldest message, or parks. *)
Definition chan_receive (c : Chan) : Chan :=
  match ch_buf c with
  | _ :: rest => {| ch_cap := ch_cap c; ch_buf := rest; ch_recvq := ch_recvq c |}
  | [] => {| ch_cap := ch_cap c; ch_buf := []; ch_recvq := S (ch_recvq c) |}
  end.

(** [make(chan *DataChangeMessage, n)] *)
Definition make_chan (n : nat) : Chan :=
  {| ch_cap := n; ch_buf := []; ch_recvq := O |}.

(** One turn of the environment of a pump. *)
Inductive PumpInput : Type :=
| CtxDone                                               (* <-ctx.Done() *)
| ClosedSignal                                          (* <-s.closed *)
| Notification (queued : nat) (msg : PublishNotificationData)
    (* msg := <-s.internalNotifyCh, with len(s.internalNotifyCh) = queued after it *)
| ConsumerReceive.                                      (* the consumer reads notifyCh *)

Inductive PumpStatus : Type :=
| Returned   (* the pump's goroutine has ended *)
| Waiting.   (* the pump is blocked in its select *)

(** * [subscription.go] *)

Module SubscriptionGo.

(** [DefaultCallbackBufferLen] *)
Definition DefaultCallbackBufferLen : nat := Z.to_nat 8192.

(** ** Data *)

(** [NodeMonitor]; the client is the transport, and of the error handler
    only its presence matters ([errHandlerCB != nil]). *)
Record NodeMonitor := mkNodeMonitor {
  nextClientHandle : Z;
  errHandlerCB : bool
}.

(** [Item] *)
Record Item := mkItem {
  item_id : Z;          (* from server *)
  item_nodeID : NodeID; (* from request *)
  item_handle : Z       (* client provided *)
}.

(** [Request]; [MonitoringParameters] is a pointer, [None] when [nil]. *)
Record Request := mkRequest {
  req_NodeID : NodeID;
  req_MonitoringMode : Z;
  req_MonitoringParameters : option ParamsPtr;
  req_handle : Z
}.

(** [Subscription].  The value exists for callers only once
    [client.Subscribe] has succeeded, so the transport subscription is
    represented by its id.  [closed] is [true] once the channel
    [s.closed] has been closed; of [internalNotifyCh] the capacity is
    state, its content arrives as [PumpInput]. *)
Record Subscription := mkSubscription {
  delivered : Z;
  dropped : Z;
  SubscriptionID : Z;
  internalNotifyCh_cap : nat;
  closed : bool;
  handles : gmap Z NodeID;
  itemLookup : gmap Z Item
}.

(** Everything the package asks of the outside: the answers of the
    transport and of [ua.ParseNodeID], the default parameters of
    [opcua.NewMonitoredItemCreateRequestWithDefaults], and the order in
    which the Go runtime walks [itemLookup] in a [range]. *)
Record Env := mkEnv {
  ParseNodeID : string -> error + NodeID;
  client_Subscribe : error + Z;
  sub_Cancel : option error;
  sub_Monitor : list MonitoredItemCreateRequest -> error + CreateMonitoredItemsResponse;
  sub_Unmonitor : list Z -> error + StatusListResponse;
  sub_ModifyMonitoredItems : list MonitoredItemModifyRequest -> error + StatusListResponse;
  sub_SetMonitoringMode : Z -> list Z -> error + StatusListResponse;
  default_settings : Z;
  range_itemLookup : gmap Z Item -> list Item
}.

(** ** Small setters *)

Definition set_indices (s : Subscription) (hs : gmap Z NodeID) (il : gmap Z Item) : Subscription :=
  {| delivered := delivered s; dropped := dropped s;
     SubscriptionID := SubscriptionID s;
     internalNotifyCh_cap := internalNotifyCh_cap s; closed := closed s;
     handles := hs; itemLookup := il |}.

Definition add_delivered (s : Subscription) : Subscription :=
  {| delivered := atomic_AddUint64 (delivered s) 1; dropped := dropped s;
     SubscriptionID := SubscriptionID s;
     internalNotifyCh_cap := internalNotifyCh_cap s; closed := closed s;
     handles := handles s; itemLookup := itemLookup s |}.

Definition add_dropped (s : Subscription) : Subscription :=
  {| delivered := delivered s; dropped := atomic_AddUint64 (dropped s) 1;
     SubscriptionID := SubscriptionID s;
     internalNotifyCh_cap := internalNotifyCh_cap s; closed := closed s;
     handles := handles s; itemLookup := itemLookup s |}.

Definition set_closed (s : Subscription) : Subscription :=
  {| delivered := delivered s; dropped := dropped s;
     SubscriptionID := SubscriptionID s;
     internalNotifyCh_cap := internalNotifyCh_cap s; closed := true;
     handles := handles s; itemLookup := itemLookup s |}.

Definition set_nextClientHandle (m : NodeMonitor) (h : Z) : NodeMonitor :=
  {| nextClientHandle := h; errHandlerCB := errHandlerCB m |}.

(** ** Registry *)

(** [NewNodeMonitor] *)
Definition NewNodeMonitor : NodeMonitor :=
  {| nextClientHandle := 100; errHandlerCB := false |}.

(** [SetErrorHandler] with a handler that is not [nil]. *)
Definition SetErrorHandler (m : NodeMonitor) : NodeMonitor :=
  {| nextClientHandle := nextClientHandle m; errHandlerCB := true |}.

(** [Subscribed] *)
Definition Subscribed (s : Subscription) : nat := size (handles s).

(** [Delivered] and [Dropped] *)
Definition Delivered (s : Subscription) : Z := delivered s.
Definition Dropped (s : Subscription) : Z := dropped s.

(** [parseNodeSlice] *)
Fixpoint parseNodeSlice (env : Env) (nodes : list string) : list NodeID * option error :=
  match nodes with
  | [] => ([], None)
  | node :: rest =>
      match ParseNodeID env node with
      | inl err => ([], Some err)
      | inr nid =>
          match parseNodeSlice env rest with
          | (ids, None) => (nid :: ids, None)
          | (_, Some err) => ([], Some err)
          end
      end
  end.

(** ** Adding *)

(** The body of the first loop of [AddMonitorItems] for one node: the fresh
    handle, the memory after the write through the caller's pointer, the
    request as stored back in [nodes[i]], the create request.  When the
    caller gave parameters the create request holds the caller's pointer,
    and the handle is written into the caller's object. *)
Definition reserve_node (env : Env) (next : Z) (mem : ParamsMem) (node : Request)
  : Z * ParamsMem * Request * PendingCreateRequest :=
  let handle := atomic_AddUint32 next 1 in
  let node' := {| req_NodeID := req_NodeID node;
                  req_MonitoringMode := req_MonitoringMode node;
                  req_MonitoringParameters := req_MonitoringParameters node;
                  req_handle := handle |} in
  let request := NewMonitoredItemCreateRequestWithDefaults (default_settings env) (req_NodeID node) AttributeIDValue handle in
  let request := {| pcr_NodeID := mcr_NodeID request;
                    pcr_AttributeID := mcr_AttributeID request;
                    pcr_MonitoringMode := req_MonitoringMode node;
                    pcr_RequestedParameters :=
                      match req_MonitoringParameters node with
                      | Some p => CallerParams p
                      | None => OwnParams (mcr_RequestedParameters request)
                      end |} in
  let mem' :=
    match req_MonitoringParameters node with
    | Some p => write_ClientHandle mem p handle
    | None => mem
    end in
  (handle, mem', node', request).

(** The first loop of [AddMonitorItems]: "Add handles and make requests". *)
Fixpoint reserve (env : Env) (next : Z) (hs : gmap Z NodeID) (mem : ParamsMem)
    (nodes : list Request)
  : Z * gmap Z NodeID * ParamsMem * list Request * list PendingCreateRequest :=
  match nodes with
  | [] => (next, hs, mem, [], [])
  | node :: rest =>
      let '(handle, mem1, node', request) := reserve_node env next mem node in
      let '(next', hs', mem', nodes', toAdd) :=
        reserve env handle (<[handle := req_NodeID node]> hs) mem1 rest in
      (next', hs', mem', node' :: nodes', request :: toAdd)
  end.

(** The second loop of [AddMonitorItems], from index [i] on: record the
    items of the results until one is not OK. *)
Fixpoint commit (i : nat) (results : list MonitoredItemCreateResult)
    (nodes : list Request) (toAdd : list PendingCreateRequest)
    (il : gmap Z Item) (monitoredItems : list Item)
  : Outcome (list Item * option error) * gmap Z Item :=
  match results with
  | [] => (Normal (monitoredItems, None), il)
  | res :: rest =>
      if negb (res_StatusCode res =? StatusOK)
      then (Normal ([], Some (ErrStatus (res_StatusCode res))), il)
      else
        match nodes !! i, toAdd !! i with
        | Some n, Some rq =>
            let mn := {| item_id := res_MonitoredItemID res;
                         item_handle := req_handle n;
                         item_nodeID := pcr_NodeID rq |} in
            commit (S i) rest nodes toAdd
                   (<[res_MonitoredItemID res := mn]> il) (monitoredItems ++ [mn])
        | _, _ => (Panicked "index out of range", il)
        end
  end.

(** [AddMonitorItems], with the caller's parameter objects in [mem]: the
    outcome, the caller's objects, the registry and the subscription after
    the call, and the transport calls made.  The transport reads the
    requests when the RPC is made, after the first loop has ended. *)
Definition AddMonitorItems (env : Env) (m : NodeMonitor) (s : Subscription)
    (mem : ParamsMem) (nodes : list Request)
  : Outcome (list Item * option error) * ParamsMem * NodeMonitor * Subscription * list Call :=
  match nodes with
  | [] => (Normal ([], None), mem, m, s, [])
  | _ :: _ =>
      let '(next, hs, mem1, nodes', toAdd) :=
        reserve env (nextClientHandle m) (handles s) mem nodes in
      let m1 := set_nextClientHandle m next in
      let s1 := set_indices s hs (itemLookup s) in
      let sent := map (read_create mem1) toAdd in
      match sub_Monitor env sent with
      | inl err => (Normal ([], Some err), mem1, m1, s1, [CallMonitor sent])
      | inr resp =>
          if negb (create_ServiceResult resp =? StatusOK)
          then (Normal ([], Some (ErrStatus (create_ServiceResult resp))), mem1, m1, s1,
                [CallMonitor sent])
          else if negb (length (create_Results resp) =? length toAdd)%nat
          then (Normal ([], Some (ErrResponseLength "monitor items")), mem1, m1, s1,
                [CallMonitor sent])
          else
            let '(out, il) := commit 0 (create_Results resp) nodes' toAdd (itemLookup s) [] in
            (out, mem1, m1, set_indices s hs il, [CallMonitor sent])
      end
  end.

(** A memory for calls that pass no parameters: the zero value at every
    address. *)
Definition no_params : ParamsMem :=
  fun _ => {| mp_ClientHandle := 0; mp_settings := 0 |}.

(** [AddNodeIDs]: none of its requests has parameters, so that no object
    of the caller is read or written. *)
Definition AddNodeIDs (env : Env) (m : NodeMonitor) (s : Subscription)
    (nodes : list NodeID)
  : Outcome (option error) * NodeMonitor * Subscription * list Call :=
  let requests :=
    map (fun node => {| req_NodeID := node;
                        req_MonitoringMode := MonitoringModeReporting;
                        req_MonitoringParameters := None;
                        req_handle := 0 |}) nodes in
  let '(out, _, m', s', calls) := AddMonitorItems env m s no_params requests in
  (match out with
   | Normal (_, err) => Normal err
   | Panicked msg => Panicked msg
   end, m', s', calls).

(** [AddNodes] *)
Definition AddNodes (env : Env) (m : NodeMonitor) (s : Subscription)
    (nodes : list string)
  : Outcome (option error) * NodeMonitor * Subscription * list Call :=
  match parseNodeSlice env nodes with
  | (_, Some err) => (Normal (Some err), m, s, [])
  | (nodeIDs, None) => AddNodeIDs env m s nodeIDs
  end.

(** ** Removing *)

(** The scan [for _, item := range s.itemLookup { if item.nodeID.String() ==
    node.String() { ...; break } }]: the first item, in the order of the
    walk, whose node has the same canonical form. *)
Definition find_item (env : Env) (il : gmap Z Item) (node : NodeID) : option Item :=
  find (fun item => bool_decide (NodeID_String (item_nodeID item) = NodeID_String node))
       (range_itemLookup env il).

(** The outer loop of [RemoveNodeIDs] and of [SetMonitoringModeForNodeIDs]:
    the found items, in the order of [nodes]; a node that no item matches
    adds nothing. *)
Fixpoint resolve_nodes (env : Env) (il : gmap Z Item) (nodes : list NodeID) : list Item :=
  match nodes with
  | [] => []
  | node :: rest =>
      match find_item env il node with
      | Some item => item :: resolve_nodes env il rest
      | None => resolve_nodes env il rest
      end
  end.

(** The first loop of [RemoveMonitorItems]. *)
Fixpoint remove_loop (items : list Item) (hs : gmap Z NodeID) (il : gmap Z Item)
    (toRemove : list Z)
  : option error * gmap Z NodeID * gmap Z Item * list Z :=
  match items with
  | [] => (None, hs, il, toRemove)
  | item :: rest =>
      match il !! item_id item with
      | None => (Some (ErrItemNotFound (item_id item)), hs, il, toRemove)
      | Some _ =>
          remove_loop rest (delete (item_handle item) hs) (delete (item_id item) il)
                      (toRemove ++ [item_id item])
      end
  end.

(** [for _, res := range results { if res != ua.StatusOK { return res } }] *)
Fixpoint first_bad_status (results : list Z) : option error :=
  match results with
  | [] => None
  | res :: rest =>
      if negb (res =? StatusOK) then Some (ErrStatus res) else first_bad_status rest
  end.

(** What every mutation does with the answer of the transport: the RPC
    error, the service result, the number of results, each result. *)
Definition check_response (op : string) (expected : nat)
    (resp : error + StatusListResponse) : option error :=
  match resp with
  | inl err => Some err
  | inr r =>
      if negb (ServiceResult r =? StatusOK) then Some (ErrStatus (ServiceResult r))
      else if negb (length (Results r) =? expected)%nat then Some (ErrResponseLength op)
      else first_bad_status (Results r)
  end.

(** [RemoveMonitorItems] *)
Definition RemoveMonitorItems (env : Env) (s : Subscription) (items : list Item)
  : option error * Subscription * list Call :=
  match items with
  | [] => (None, s, [])
  | _ :: _ =>
      let '(err, hs, il, toRemove) := remove_loop items (handles s) (itemLookup s) [] in
      let s1 := set_indices s hs il in
      match err with
      | Some e => (Some e, s1, [])
      | None =>
          (check_response "unmonitor items" (length toRemove) (sub_Unmonitor env toRemove),
           s1, [CallUnmonitor toRemove])
      end
  end.

(** [RemoveNodeIDs] *)
Definition RemoveNodeIDs (env : Env) (s : Subscription) (nodes : list NodeID)
  : option error * Subscription * list Call :=
  match nodes with
  | [] => (None, s, [])
  | _ :: _ => RemoveMonitorItems env s (resolve_nodes env (itemLookup s) nodes)
  end.

(** [RemoveNodes] *)
Definition RemoveNodes (env : Env) (s : Subscription) (nodes : list string)
  : option error * Subscription * list Call :=
  match parseNodeSlice env nodes with
  | (_, Some err) => (Some err, s, [])
  | (nodeIDs, None) => RemoveNodeIDs env s nodeIDs
  end.

(** ** Modifying and setting the mode *)

(** The two loops of [ModifyMonitorItems]: one request for each node that an
    item matches and that brings parameters.  The request holds the
    caller's pointer, and the handle of the item is written into the
    caller's object. *)
Fixpoint modify_requests (env : Env) (il : gmap Z Item) (mem : ParamsMem)
    (nodes : list Request)
  : ParamsMem * list PendingModifyRequest :=
  match nodes with
  | [] => (mem, [])
  | node :: rest =>
      match find_item env il (req_NodeID node), req_MonitoringParameters node with
      | Some item, Some p =>
          let request := {| pmr_MonitoredItemID := item_id item;
                            pmr_RequestedParameters := p |} in
          let '(mem', toModify) :=
            modify_requests env il (write_ClientHandle mem p (item_handle item)) rest in
          (mem', request :: toModify)
      | _, _ => modify_requests env il mem rest
      end
  end.

(** [ModifyMonitorItems], with the caller's parameter objects in [mem]; the
    transport reads the requests when the RPC is made. *)
Definition ModifyMonitorItems (env : Env) (s : Subscription) (mem : ParamsMem)
    (nodes : list Request)
  : option error * ParamsMem * Subscription * list Call :=
  match nodes with
  | [] => (None, mem, s, [])
  | _ :: _ =>
      let '(mem1, toModify) := modify_requests env (itemLookup s) mem nodes in
      let sent := map (read_modify mem1) toModify in
      (check_response "modify monitored items" (length toModify)
                      (sub_ModifyMonitoredItems env sent),
       mem1, s, [CallModifyMonitoredItems sent])
  end.

(** [SetMonitoringMode] *)
Definition SetMonitoringMode (env : Env) (s : Subscription) (monitoringMode : Z)
    (items : list Item)
  : option error * Subscription * list Call :=
  match items with
  | [] => (None, s, [])
  | _ :: _ =>
      let toSet := map item_id items in
      (check_response "set monitoring mode" (length toSet)
                      (sub_SetMonitoringMode env monitoringMode toSet),
       s, [CallSetMonitoringMode monitoringMode toSet])
  end.

(** [SetMonitoringModeForNodeIDs] *)
Definition SetMonitoringModeForNodeIDs (env : Env) (s : Subscription)
    (monitoringMode : Z) (nodes : list NodeID)
  : option error * Subscription * list Call :=
  match nodes with
  | [] => (None, s, [])
  | _ :: _ => SetMonitoringMode env s monitoringMode (resolve_nodes env (itemLookup s) nodes)
  end.

(** [SetMonitoringModeForNodes] *)
Definition SetMonitoringModeForNodes (env : Env) (s : Subscription)
    (monitoringMode : Z) (nodes : list string)
  : option error * Subscription * list Call :=
  match parseNodeSlice env nodes with
  | (_, Some err) => (Some err, s, [])
  | (nodeIDs, None) => SetMonitoringModeForNodeIDs env s monitoringMode nodeIDs
  end.

(** ** Opening and closing *)

(** The struct that [newSubscription] builds, once the transport has opened
    the subscription of id [id]. *)
Definition emptySubscription (id : Z) (notifyChanLength : nat) : Subscription :=
  {| delivered := 0; dropped := 0; SubscriptionID := id;
     internalNotifyCh_cap := notifyChanLength; closed := false;
     handles := ∅; itemLookup := ∅ |}.

(** [newSubscription]: the subscription (or [nil]), the error, the registry
    after the call and the transport calls made. *)
Definition newSubscription (env : Env) (m : NodeMonitor) (notifyChanLength : nat)
    (nodes : list string)
  : Outcome (option Subscription * option error) * NodeMonitor * list Call :=
  match client_Subscribe env with
  | inl err => (Normal (None, Some err), m, [CallSubscribe])
  | inr id =>
      let s := emptySubscription id notifyChanLength in
      let '(out, m', s', calls) := AddNodes env m s nodes in
      (match out with
       | Panicked msg => Panicked msg
       | Normal (Some err) => Normal (None, Some err)
       | Normal None => Normal (Some s', None)
       end, m', CallSubscribe :: calls)
  end.

(** A subscription handed to the caller together with the arguments of the
    pump goroutine started on it: [go sub.pump(ctx, notifyCh, cb)]. *)
Record Started := mkStarted {
  st_sub : Subscription;
  st_notifyCh : option Chan;
  st_cb : bool
}.

Definition start (notifyCh : option Chan) (cb : bool)
    (r : Outcome (option Subscription * option error) * NodeMonitor * list Call)
  : Outcome (option Started * option error) * NodeMonitor * list Call :=
  let '(out, m, calls) := r in
  (match out with
   | Panicked msg => Panicked msg
   | Normal (Some sub, None) =>
       Normal (Some {| st_sub := sub; st_notifyCh := notifyCh; st_cb := cb |}, None)
   | Normal (_, err) => Normal (None, err)
   end, m, calls).

(** [Subscribe]; [cb] tells whether the callback is not [nil]. *)
Definition Subscribe (env : Env) (m : NodeMonitor) (cb : bool) (nodes : list string)
  : Outcome (option Started * option error) * NodeMonitor * list Call :=
  start None cb (newSubscription env m DefaultCallbackBufferLen nodes).

(** [ChanSubscribe]; [ch] is [None] for a [nil] channel. *)
Definition ChanSubscribe (env : Env) (m : NodeMonitor) (ch : option Chan)
    (nodes : list string)
  : Outcome (option Started * option error) * NodeMonitor * list Call :=
  start ch false (newSubscription env m 16%nat nodes).

(** [Unsubscribe]: [close(s.closed)] panics on a channel that is closed
    already. *)
Definition Unsubscribe (env : Env) (s : Subscription)
  : Outcome (option error) * Subscription * list Call :=
  if closed s then (Panicked "close of closed channel", s, [])
  else (Normal (sub_Cancel env), set_closed s, [CallCancel]).

(** ** The pump *)

(** [sendError] *)
Definition sendError (m : NodeMonitor) (err : option error) : list Effect :=
  match err with
  | Some e => if errHandlerCB m then [ErrHandlerCalled e] else []
  | None => []
  end.

(** The message built for one record of a data change notification. *)
Definition message_of (hs : gmap Z NodeID) (item : MonitoredItemNotification)
  : DataChangeMessage :=
  match hs !! min_ClientHandle item with
  | None =>
      {| msg_DataValue := msg_DataValue emptyMessage;
         msg_Error := Some (ErrHandleNotFound (min_ClientHandle item));
         msg_NodeID := msg_NodeID emptyMessage |}
  | Some nid =>
      {| msg_DataValue := min_Value item;
         msg_Error := msg_Error emptyMessage;
         msg_NodeID := Some nid |}
  end.

Definition PumpResult : Type := Outcome (Subscription * option Chan * list Effect).

(** The delivery of one message: channel, else callback, else panic. *)
Definition deliver (m : NodeMonitor) (s : Subscription) (notifyCh : option Chan)
    (cb : bool) (out : DataChangeMessage) : PumpResult :=
  match notifyCh with
  | Some ch =>
      match try_send ch out with
      | Some ch' => Normal (add_delivered s, Some ch', [ChanSent out])
      | None => Normal (add_dropped s, Some ch, sendError m (Some ErrSlowConsumer))
      end
  | None =>
      if cb then Normal (add_delivered s, None, [CallbackCalled out])
      else Panicked "notifyCh or cb must be set"
  end.

(** [for _, item := range v.MonitoredItems { ... }] *)
Fixpoint dispatch_items (m : NodeMonitor) (s : Subscription) (notifyCh : option Chan)
    (cb : bool) (items : list MonitoredItemNotification) : PumpResult :=
  match items with
  | [] => Normal (s, notifyCh, [])
  | item :: rest =>
      match deliver m s notifyCh cb (message_of (handles s) item) with
      | Panicked msg => Panicked msg
      | Normal (s1, ch1, eff1) =>
          match dispatch_items m s1 ch1 cb rest with
          | Panicked msg => Panicked msg
          | Normal (s2, ch2, eff2) => Normal (s2, ch2, eff1 ++ eff2)
          end
      end
  end.

(** The [case msg := <-s.internalNotifyCh:] arm of the pump. *)
Definition pump_notification (m : NodeMonitor) (s : Subscription)
    (notifyCh : option Chan) (cb : bool) (queued : nat) (msg : PublishNotificationData)
  : PumpResult :=
  match pnd_Error msg with
  | Some err => Normal (s, notifyCh, sendError m (Some err))
  | None =>
      if negb (pnd_SubscriptionID msg =? SubscriptionID s)
      then Normal (s, notifyCh,
                   sendError m (Some (ErrSubIDMismatch (pnd_SubscriptionID msg) (SubscriptionID s))))
      else if cb && (0 <? internalNotifyCh_cap s)%nat && (queued =? internalNotifyCh_cap s)%nat
      then Normal (add_dropped s, notifyCh, sendError m (Some ErrSlowConsumer))
      else
        match pnd_Value msg with
        | DataChangeNotification items => dispatch_items m s notifyCh cb items
        | OtherNotification ty => Normal (s, notifyCh, sendError m (Some (ErrUnknownMessageType ty)))
        end
  end.

(** [pump], run on the turns of its environment. *)
Fixpoint pump (m : NodeMonitor) (s : Subscription) (notifyCh : option Chan) (cb : bool)
    (inputs : list PumpInput)
  : Outcome (PumpStatus * Subscription * option Chan * list Effect) :=
  match inputs with
  | [] => Normal (Waiting, s, notifyCh, [])
  | CtxDone :: _ => Normal (Returned, s, notifyCh, [])
  | ClosedSignal :: _ => Normal (Returned, s, notifyCh, [])
  | ConsumerReceive :: rest => pump m s (chan_receive <$> notifyCh) cb rest
  | Notification queued msg :: rest =>
      match pump_notification m s notifyCh cb queued msg with
      | Panicked p => Panicked p
      | Normal (s1, ch1, eff1) =>
          match pump m s1 ch1 cb rest with
          | Panicked p => Panicked p
          | Normal (st, s2, ch2, eff2) => Normal (st, s2, ch2, eff1 ++ eff2)
          end
      end
  end.

End SubscriptionGo.

(** * [monitor.go] *)

Module MonitorGo.

(** [DefaultMaxChanLen] *)
Definition DefaultMaxChanLen : nat := Z.to_nat 8192.

(** ** Data *)

(** [NodeMonitor] *)
Record NodeMonitor := mkNodeMonitor {
  nextClientHandle : Z;
  errHandlerCB : bool
}.

(** [Subscription]; [notifyCh] is [None] while the field is [nil].  As in
    [SubscriptionGo] the transport subscription is its id and [closed]
    tells whether the channel [s.closed] has been closed. *)
Record Subscription := mkSubscription {
  SubscriptionID : Z;
  notifyCh : option Chan;
  delivered : Z;
  dropped : Z;
  closed : bool;
  handles : gmap Z NodeID;
  nodeLookup : gmap string Z
}.

(** The answers of the transport and of [ua.ParseNodeID]. *)
Record Env := mkEnv {
  ParseNodeID : string -> error + NodeID;
  client_Subscribe : error + Z;
  sub_Cancel : option error;
  sub_Monitor : list MonitoredItemCreateRequest -> error + CreateMonitoredItemsResponse;
  sub_Unmonitor : list Z -> error + StatusListResponse;
  default_settings : Z
}.

Definition set_indices (s : Subscription) (hs : gmap Z NodeID) (nl : gmap string Z)
  : Subscription :=
  {| SubscriptionID := SubscriptionID s; notifyCh := notifyCh s;
     delivered := delivered s; dropped := dropped s; closed := closed s;
     handles := hs; nodeLookup := nl |}.

Definition set_notifyCh (s : Subscription) (ch : option Chan) : Subscription :=
  {| SubscriptionID := SubscriptionID s; notifyCh := ch;
     delivered := delivered s; dropped := dropped s; closed := closed s;
     handles := handles s; nodeLookup := nodeLookup s |}.

Definition add_delivered (s : Subscription) (ch : option Chan) : Subscription :=
  {| SubscriptionID := SubscriptionID s; notifyCh := ch;
     delivered := atomic_AddUint64 (delivered s) 1; dropped := dropped s;
     closed := closed s; handles := handles s; nodeLookup := nodeLookup s |}.

Definition add_dropped (s : Subscription) : Subscription :=
  {| SubscriptionID := SubscriptionID s; notifyCh := notifyCh s;
     delivered := delivered s; dropped := atomic_AddUint64 (dropped s) 1;
     closed := closed s; handles := handles s; nodeLookup := nodeLookup s |}.

Definition set_closed (s : Subscription) : Subscription :=
  {| SubscriptionID := SubscriptionID s; notifyCh := notifyCh s;
     delivered := delivered s; dropped := dropped s; closed := true;
     handles := handles s; nodeLookup := nodeLookup s |}.

Definition set_nextClientHandle (m : NodeMonitor) (h : Z) : NodeMonitor :=
  {| nextClientHandle := h; errHandlerCB := errHandlerCB m |}.

(** [New] *)
Definition New : NodeMonitor :=
  {| nextClientHandle := 100; errHandlerCB := false |}.

(** [SetErrorHandler] with a handler that is not [nil]. *)
Definition SetErrorHandler (m : NodeMonitor) : NodeMonitor :=
  {| nextClientHandle := nextClientHandle m; errHandlerCB := true |}.

(** [Delivered] and [Dropped] *)
Definition Delivered (s : Subscription) : Z := delivered s.
Definition Dropped (s : Subscription) : Z := dropped s.

(** [parseNodeSlice] *)
Fixpoint parseNodeSlice (env : Env) (nodes : list string) : list NodeID * option error :=
  match nodes with
  | [] => ([], None)
  | node :: rest =>
      match ParseNodeID env node with
      | inl err => ([], Some err)
      | inr nid =>
          match parseNodeSlice env rest with
          | (ids, None) => (nid :: ids, None)
          | (_, Some err) => ([], Some err)
          end
      end
  end.

(** ** Adding and removing *)

(** The loop of [AddNodeIDs]. *)
Fixpoint reserve (env : Env) (next : Z) (hs : gmap Z NodeID) (nl : gmap string Z)
    (nodes : list NodeID)
  : Z * gmap Z NodeID * gmap string Z * list MonitoredItemCreateRequest :=
  match nodes with
  | [] => (next, hs, nl, [])
  | node :: rest =>
      let handle := atomic_AddUint32 next 1 in
      let '(next', hs', nl', toAdd) :=
        reserve env handle (<[handle := node]> hs) (<[NodeID_String node := handle]> nl) rest in
      (next', hs', nl',
       NewMonitoredItemCreateRequestWithDefaults (default_settings env) node AttributeIDValue handle
       :: toAdd)
  end.

(** [AddNodeIDs] *)
Definition AddNodeIDs (env : Env) (m : NodeMonitor) (s : Subscription) (nodes : list NodeID)
  : option error * NodeMonitor * Subscription * list Call :=
  let '(next, hs, nl, toAdd) :=
    reserve env (nextClientHandle m) (handles s) (nodeLookup s) nodes in
  let m1 := set_nextClientHandle m next in
  let s1 := set_indices s hs nl in
  (match sub_Monitor env toAdd with
   | inl err => Some err
   | inr resp =>
       if negb (create_ServiceResult resp =? StatusOK)
       then Some (ErrStatus (create_ServiceResult resp))
       else None
   end, m1, s1, [CallMonitor toAdd]).

(** [AddNodes] *)
Definition AddNodes (env : Env) (m : NodeMonitor) (s : Subscription) (nodes : list string)
  : option error * NodeMonitor * Subscription * list Call :=
  match parseNodeSlice env nodes with
  | (_, Some err) => (Some err, m, s, [])
  | (nodeIDs, None) => AddNodeIDs env m s nodeIDs
  end.

(** The loop of [RemoveNodeIDs]; [toRemove] was made with [len(nodes)]
    zeroes and is filled by index. *)
Fixpoint remove_loop (i : nat) (nodes : list NodeID) (hs : gmap Z NodeID)
    (nl : gmap string Z) (toRemove : list Z)
  : option error * gmap Z NodeID * gmap string Z * list Z :=
  match nodes with
  | [] => (None, hs, nl, toRemove)
  | node :: rest =>
      let sid := NodeID_String node in
      match nl !! sid with
      | None => (Some (ErrNodeNotFound sid), hs, nl, toRemove)
      | Some handle =>
          remove_loop (S i) rest (delete handle hs) (delete sid nl) (<[i := handle]> toRemove)
      end
  end.

(** [RemoveNodeIDs] *)
Definition RemoveNodeIDs (env : Env) (s : Subscription) (nodes : list NodeID)
  : option error * Subscription * list Call :=
  let '(err, hs, nl, toRemove) :=
    remove_loop 0 nodes (handles s) (nodeLookup s) (replicate (length nodes) 0) in
  let s1 := set_indices s hs nl in
  match err with
  | Some e => (Some e, s1, [])
  | None =>
      (match sub_Unmonitor env toRemove with
       | inl e => Some e
       | inr resp =>
           if negb (ServiceResult resp =? StatusOK)
           then Some (ErrStatus (ServiceResult resp))
           else None
       end, s1, [CallUnmonitor toRemove])
  end.

(** [RemoveNodes] *)
Definition RemoveNodes (env : Env) (s : Subscription) (nodes : list string)
  : option error * Subscription * list Call :=
  match parseNodeSlice env nodes with
  | (_, Some err) => (Some err, s, [])
  | (nodeIDs, None) => RemoveNodeIDs env s nodeIDs
  end.

(** ** Opening and closing *)

(** The struct that [newSubscription] builds, with [s.notifyCh = ch] and the
    transport subscription of id [id]. *)
Definition emptySubscription (id : Z) (ch : option Chan) : Subscription :=
  {| SubscriptionID := id; notifyCh := ch; delivered := 0; dropped := 0;
     closed := false; handles := ∅; nodeLookup := ∅ |}.

(** [ChanSubscribe]; the goroutines [s.pump(ctx)] and [s.sub.Run(ctx)] are
    started on the subscription that is returned. *)
Definition ChanSubscribe (env : Env) (m : NodeMonitor) (ch : option Chan)
    (nodes : list string)
  : (option Subscription * option error) * NodeMonitor * list Call :=
  match client_Subscribe env with
  | inl err => ((None, Some err), m, [CallSubscribe])
  | inr id =>
      let s := emptySubscription id ch in
      let '(err, m', s', calls) := AddNodes env m s nodes in
      (match err with
       | Some e => (None, Some e)
       | None => (Some s', None)
       end, m', CallSubscribe :: calls)
  end.

(** [Subscribe]: a channel of [DefaultMaxChanLen] slots between the pump and
    the goroutine that calls the callback. *)
Definition Subscribe (env : Env) (m : NodeMonitor) (nodes : list string)
  : (option Subscription * option error) * NodeMonitor * list Call :=
  ChanSubscribe env m (Some (make_chan DefaultMaxChanLen)) nodes.

(** [Unsubscribe] *)
Definition Unsubscribe (env : Env) (s : Subscription)
  : Outcome (option error) * Subscription * list Call :=
  if closed s then (Panicked "close of closed channel", s, [])
  else (Normal (sub_Cancel env), set_closed s, [CallCancel]).

(** ** The pump *)

(** [sendError] *)
Definition sendError (m : NodeMonitor) (err : option error) : list Effect :=
  match err with
  | Some e => if errHandlerCB m then [ErrHandlerCalled e] else []
  | None => []
  end.



(** The message built for one record of a data change notification. *)
Definition message_of (hs : gmap Z NodeID) (item : MonitoredItemNotification)
  : DataChangeMessage :=
  match hs !! min_ClientHandle item with
  | None =>
      {| msg_DataValue := msg_DataValue emptyMessage;
         msg_Error := Some (ErrHandleNotFound (min_ClientHandle item));
         msg_NodeID := msg_NodeID emptyMessage |}
  | Some nid =>
      {| msg_DataValue := min_Value item;
         msg_Error := msg_Error emptyMessage;
         msg_NodeID := Some nid |}
  end.

(** The [select] on [s.notifyCh <- out]; a send on a [nil] channel never
    goes through. *)
Definition deliver (m : NodeMonitor) (s : Subscription) (out : DataChangeMessage)
  : Subscription * list Effect :=
  match notifyCh s with
  | Some ch =>
      match try_send ch out with
      | Some ch' => (add_delivered s (Some ch'), [ChanSent out])
      | None => (add_dropped s, sendError m (Some ErrSlowConsumer))
      end
  | None => (add_dropped s, sendError m (Some ErrSlowConsumer))
  end.

(** [for _, item := range v.MonitoredItems { ... }] *)
Fixpoint dispatch_items (m : NodeMonitor) (s : Subscription)
    (items : list MonitoredItemNotification) : Subscription * list Effect :=
  match items with
  | [] => (s, [])
  | item :: rest =>
      let '(s1, eff1) := deliver m s (message_of (handles s) item) in
      let '(s2, eff2) := dispatch_items m s1 rest in
      (s2, eff1 ++ eff2)
  end.

(** The [case msg := <-s.internalNotifyCh:] arm of the pump. *)
Definition pump_notification (m : NodeMonitor) (s : Subscription)
    (msg : PublishNotificationData) : Outcome (Subscription * list Effect) :=
  match pnd_Error msg with
  | Some err => Normal (s, sendError m (Some err))
  | None =>
      if negb (pnd_SubscriptionID msg =? SubscriptionID s)
      then Panicked "wtf!?"
      else
        match pnd_Value msg with
        | DataChangeNotification items => Normal (dispatch_items m s items)
        | OtherNotification ty => Normal (s, sendError m (Some (ErrUnknownMessageType ty)))
        end
  end.

(** [pump], run on the turns of its environment. *)
Fixpoint pump (m : NodeMonitor) (s : Subscription) (inputs : list PumpInput)
  : Outcome (PumpStatus * Subscription * list Effect) :=
  match inputs with
  | [] => Normal (Waiting, s, [])
  | CtxDone :: _ => Normal (Returned, s, [])
  | ClosedSignal :: _ => Normal (Returned, s, [])
  | ConsumerReceive :: rest => pump m (set_notifyCh s (chan_receive <$> notifyCh s)) rest
  | Notification _ msg :: rest =>
      match pump_notification m s msg with
      | Panicked p => Panicked p
      | Normal (s1, eff1) =>
          match pump m s1 rest with
          | Panicked p => Panicked p
          | Normal (st, s2, eff2) => Normal (st, s2, eff1 ++ eff2)
          end
      end
  end.

End MonitorGo.

(** * Vocabulary of the statements *)

(** The handles that [n] successive [atomic.AddUint32(&next, 1)] return. *)
Fixpoint alloc_handles (next : Z) (n : nat) : list Z :=
  match n with
  | O => []
  | S k => let h := atomic_AddUint32 next 1 in h :: alloc_handles h k
  end.

(** The counter after [n] allocations. *)
Fixpoint advance (next : Z) (n : nat) : Z :=
  match n with
  | O => next
  | S k => advance (atomic_AddUint32 next 1) k
  end.

(** A result is accepted when its status is OK. *)
Definition accepted (res : MonitoredItemCreateResult) : Prop :=
  res_StatusCode res = StatusOK.


(** The states that a registry and one of its subscriptions go through,
    together with the handles that the registry has handed out so far,
    oldest first.  The handles of a call are read off the requests that
    the first loop of [AddMonitorItems] stamps: [nodes[i].handle]. *)
Inductive reachable :
  list Z -> SubscriptionGo.NodeMonitor -> SubscriptionGo.Subscription -> Prop :=
| reach_open (id : Z) (notifyChanLength : nat) :
    (* NewNodeMonitor, then the struct that newSubscription builds *)
    reachable [] SubscriptionGo.NewNodeMonitor
      (SubscriptionGo.emptySubscription id notifyChanLength)
| reach_add hist m s env mem nodes out mem' m' s' calls next' hs' mem1 nodes' toAdd :
    (* this subscription adds a batch *)
    reachable hist m s ->
    SubscriptionGo.AddMonitorItems env m s mem nodes = (out, mem', m', s', calls) ->
    SubscriptionGo.reserve env (SubscriptionGo.nextClientHandle m)
      (SubscriptionGo.handles s) mem nodes = (next', hs', mem1, nodes', toAdd) ->
    reachable (hist ++ map SubscriptionGo.req_handle nodes') m' s'
| reach_add_elsewhere hist m s env other mem nodes out mem' m' other' calls
    next' hs' mem1 nodes' toAdd :
    (* another subscription of the same registry adds a batch *)
    reachable hist m s ->
    SubscriptionGo.AddMonitorItems env m other mem nodes = (out, mem', m', other', calls) ->
    SubscriptionGo.reserve env (SubscriptionGo.nextClientHandle m)
      (SubscriptionGo.handles other) mem nodes = (next', hs', mem1, nodes', toAdd) ->
    reachable (hist ++ map SubscriptionGo.req_handle nodes') m' s
| reach_remove hist m s env items err s' calls :
    (* this subscription removes items *)
    reachable hist m s ->
    SubscriptionGo.RemoveMonitorItems env s items = (err, s', calls) ->
    reachable hist m s'
| reach_other hist m s m' s' :
    (* the pump, Unsubscribe, SetErrorHandler, modify and set-mode touch
       neither the counter nor the indices *)
    reachable hist m s ->
    SubscriptionGo.nextClientHandle m' = SubscriptionGo.nextClientHandle m ->
    SubscriptionGo.handles s' = SubscriptionGo.handles s ->
    SubscriptionGo.itemLookup s' = SubscriptionGo.itemLookup s ->
    reachable hist m' s'.

(** The counter after [n] calls of [atomic.AddUint64(&x, 1)]. *)
Fixpoint bump (x : Z) (n : nat) : Z :=
  match n with
  | O => x
  | S k => bump (atomic_AddUint64 x 1) k
  end.

(** The inputs that a pump works through: those before the first signal
    to stop. *)
Fixpoint processed (inputs : list PumpInput) : list PumpInput :=
  match inputs with
  | [] => []
  | CtxDone :: _ => []
  | ClosedSignal :: _ => []
  | input :: rest => input :: processed rest
  end.

(** The per-item change records that a notification contains. *)
Definition records_of (msg : PublishNotificationData) : list MonitoredItemNotification :=
  match pnd_Value msg with
  | DataChangeNotification items => items
  | OtherNotification _ => []
  end.

(** The per-item change records that a sequence of inputs contains. *)
Fixpoint total_records (inputs : list PumpInput) : nat :=
  match inputs with
  | [] => O
  | Notification _ msg :: rest => (length (records_of msg) + total_records rest)%nat
  | _ :: rest => total_records rest
  end.

(** A notification is well addressed when it carries no transport error and
    the id of the subscription that receives it. *)
Definition well_addressed (s : SubscriptionGo.Subscription) (msg : PublishNotificationData)
  : bool :=
  match pnd_Error msg with
  | Some _ => false
  | None => pnd_SubscriptionID msg =? SubscriptionGo.SubscriptionID s
  end.

(** The emulated slow-consumer condition: a callback is set and the
    internal buffer, of capacity above zero, is full. *)
Definition slow_consumer (s : SubscriptionGo.Subscription) (cb : bool) (queued : nat) : bool :=
  cb && (0 <? SubscriptionGo.internalNotifyCh_cap s)%nat
     && (queued =? SubscriptionGo.internalNotifyCh_cap s)%nat.

(** What one input adds to [delivered + dropped]: the records of a well
    addressed notification that is dispatched, one for a well addressed
    notification that is discarded whole, nothing otherwise. *)
Definition counted (s : SubscriptionGo.Subscription) (cb : bool) (input : PumpInput) : nat :=
  match input with
  | Notification queued msg =>
      if well_addressed s msg
      then if slow_consumer s cb queued then 1%nat else length (records_of msg)
      else O
  | _ => O
  end.

Definition total_counted (s : SubscriptionGo.Subscription) (cb : bool)
    (inputs : list PumpInput) : nat :=
  foldr (fun input acc => (counted s cb input + acc)%nat) O inputs.

(** Two subscription values that differ in their counters at most. *)
Definition same_frame (s s' : SubscriptionGo.Subscription) : Prop :=
  SubscriptionGo.SubscriptionID s' = SubscriptionGo.SubscriptionID s /\
  SubscriptionGo.internalNotifyCh_cap s' = SubscriptionGo.internalNotifyCh_cap s /\
  SubscriptionGo.closed s' = SubscriptionGo.closed s /\
  SubscriptionGo.handles s' = SubscriptionGo.handles s /\
  SubscriptionGo.itemLookup s' = SubscriptionGo.itemLookup s.

(** What a run of the pump leaves: [a] more delivered, [b] more dropped,
    nothing else of the subscription touched, and the consumer's channel
    still there when there was one. *)
Definition counts (s s' : SubscriptionGo.Subscription) (ch ch' : option Chan) (a b : nat)
  : Prop :=
  SubscriptionGo.delivered s' = bump (SubscriptionGo.delivered s) a /\
  SubscriptionGo.dropped s' = bump (SubscriptionGo.dropped s) b /\
  same_frame s s' /\
  (is_Some ch' <-> is_Some ch).

(** The handler invocations among the effects of a pump. *)
Definition handler_calls (effects : list Effect) : list error :=
  omap (fun e => match e with ErrHandlerCalled err => Some err | _ => None end) effects.

(** The messages handed to the consumer among the effects of a pump. *)
Definition consumer_messages (effects : list Effect) : list DataChangeMessage :=
  omap (fun e => match e with
                 | CallbackCalled m | ChanSent m => Some m
                 | ErrHandlerCalled _ => None
                 end) effects.

(** The message for a record whose handle is unknown, and for one whose
    handle is mapped to [nid]. *)
Definition miss_message (h : Z) : DataChangeMessage :=
  {| msg_DataValue := None; msg_Error := Some (ErrHandleNotFound h); msg_NodeID := None |}.

Definition hit_message (nid : NodeID) (value : option DataValue) : DataChangeMessage :=
  {| msg_DataValue := value; msg_Error := None; msg_NodeID := Some nid |}.


(** The free slots of a channel. *)
Definition free_slots (c : Chan) : nat := (ch_cap c - length (ch_buf c))%nat.

(** A channel that nobody drains: no receiver is parked on it. *)
Definition undrained (c : Chan) : Prop := ch_recvq c = O.

(** An input is a plain data change for the subscription of id [id]: a
    notification without transport error, with that id, whose payload is a
    data change notification. *)
Definition is_data_change (id : Z) (input : PumpInput) : bool :=
  match input with
  | Notification _ msg =>
      match pnd_Error msg, pnd_Value msg with
      | None, DataChangeNotification _ => pnd_SubscriptionID msg =? id
      | _, _ => false
      end
  | _ => false
  end.

(** The records of a sequence of inputs, in order. *)
Fixpoint all_records (inputs : list PumpInput) : list MonitoredItemNotification :=
  match inputs with
  | [] => []
  | Notification _ msg :: rest => records_of msg ++ all_records rest
  | _ :: rest => all_records rest
  end.

(** ** Concrete inputs *)

Module Examples.
Import SubscriptionGo.

Definition nodeA : NodeID := mkNodeID "ns=2;s=A".
Definition nodeB : NodeID := mkNodeID "ns=2;s=B".
Definition nodeC : NodeID := mkNodeID "ns=2;s=C".

(** A status code that is not OK (BadNodeIdUnknown). *)
Definition BadNodeIDUnknown : Z := 2150891520.

Definition watch (node : NodeID) : Request :=
  {| req_NodeID := node; req_MonitoringMode := MonitoringModeReporting;
     req_MonitoringParameters := None; req_handle := 0 |}.

(** A parser that refuses the empty string only. *)
Definition parse (s : string) : error + NodeID :=
  if bool_decide (s = "") then inl (ErrExternal "invalid node id") else inr (mkNodeID s).

(** A server that gives the item of client handle [h] the id [h - 100] and
    accepts every item of a batch but those at the positions listed in
    [rejected]. *)
Definition monitor_answer (rejected : list nat) (reqs : list MonitoredItemCreateRequest)
  : error + CreateMonitoredItemsResponse :=
  inr {| create_ServiceResult := StatusOK;
         create_Results :=
           imap (fun i req =>
                   if bool_decide (i ∈ rejected)
                   then {| res_StatusCode := BadNodeIDUnknown; res_MonitoredItemID := 0 |}
                   else {| res_StatusCode := StatusOK;
                           res_MonitoredItemID :=
                             mp_ClientHandle (mcr_RequestedParameters req) - 100 |}) reqs |}.

Definition all_ok (ids : list Z) : error + StatusListResponse :=
  inr {| ServiceResult := StatusOK; Results := map (fun _ => StatusOK) ids |}.

(** A transport whose server rejects the listed positions of an add. *)
Definition env_rejecting (rejected : list nat) : Env :=
  {| ParseNodeID := parse;
     client_Subscribe := inr 7;
     sub_Cancel := None;
     sub_Monitor := monitor_answer rejected;
     sub_Unmonitor := all_ok;
     sub_ModifyMonitoredItems := fun reqs => all_ok (map mmr_MonitoredItemID reqs);
     sub_SetMonitoringMode := fun _ ids => all_ok ids;
     default_settings := 0;
     range_itemLookup := fun il => (map_to_list il).*2 |}.

(** A transport whose monitor RPC fails. *)
Definition env_monitor_down : Env :=
  {| ParseNodeID := parse;
     client_Subscribe := inr 7;
     sub_Cancel := None;
     sub_Monitor := fun _ => inl (ErrExternal "EOF");
     sub_Unmonitor := all_ok;
     sub_ModifyMonitoredItems := fun reqs => all_ok (map mmr_MonitoredItemID reqs);
     sub_SetMonitoringMode := fun _ ids => all_ok ids;
     default_settings := 0;
     range_itemLookup := fun il => (map_to_list il).*2 |}.

(** The subscription that [newSubscription] builds before it adds nodes. *)
Definition sub0 : Subscription := emptySubscription 7 16.

(** [sub0] after a successful add of A and B. *)
Definition subAB : Subscription :=
  set_indices sub0
    (<[101 := nodeA]> (<[102 := nodeB]> ∅))
    (<[1 := {| item_id := 1; item_nodeID := nodeA; item_handle := 101 |}]>
       (<[2 := {| item_id := 2; item_nodeID := nodeB; item_handle := 102 |}]> ∅)).

(** [subAB] as [Subscribe] opens it: the internal buffer has
    [DefaultCallbackBufferLen] slots. *)
Definition subAB_callback : Subscription :=
  {| delivered := 0; dropped := 0; SubscriptionID := 7;
     internalNotifyCh_cap := DefaultCallbackBufferLen; closed := false;
     handles := handles subAB; itemLookup := itemLookup subAB |}.

(** A registry with an error handler installed. *)
Definition monitor_with_handler : NodeMonitor := SetErrorHandler NewNodeMonitor.

(** A data change notification for the handles of A and B. *)
Definition changeA : MonitoredItemNotification :=
  {| min_ClientHandle := 101; min_Value := Some (mkDataValue 11) |}.
Definition changeB : MonitoredItemNotification :=
  {| min_ClientHandle := 102; min_Value := Some (mkDataValue 22) |}.
Definition notifyAB : PublishNotificationData :=
  {| pnd_SubscriptionID := 7; pnd_Error := None;
     pnd_Value := DataChangeNotification [changeA; changeB] |}.

(** The same notification, addressed to another subscription. *)
Definition notify_foreign : PublishNotificationData :=
  {| pnd_SubscriptionID := 8; pnd_Error := None;
     pnd_Value := DataChangeNotification [changeA; changeB] |}.

End Examples.

Module ExamplesV1.
Import MonitorGo.

(** A transport that answers every call with success. *)
Definition env_ok : Env :=
  {| ParseNodeID := Examples.parse;
     client_Subscribe := inr 7;
     sub_Cancel := None;
     sub_Monitor := Examples.monitor_answer [];
     sub_Unmonitor := Examples.all_ok;
     default_settings := 0 |}.

(** A transport whose monitor RPC fails. *)
Definition env_monitor_down : Env :=
  {| ParseNodeID := Examples.parse;
     client_Subscribe := inr 7;
     sub_Cancel := None;
     sub_Monitor := fun _ => inl (ErrExternal "EOF");
     sub_Unmonitor := Examples.all_ok;
     default_settings := 0 |}.

(** A subscription that watches A and B and sends to a channel of [n]
    slots. *)
Definition subAB (n : nat) : Subscription :=
  {| SubscriptionID := 7; notifyCh := Some (make_chan n);
     delivered := 0; dropped := 0; closed := false;
     handles := <[101 := Examples.nodeA]> (<[102 := Examples.nodeB]> ∅);
     nodeLookup := <["ns=2;s=A" := 101]> (<["ns=2;s=B" := 102]> ∅) |}.

Definition monitor_with_handler : NodeMonitor := SetErrorHandler New.


End ExamplesV1.

(** Runs of the examples. *)
Module Runs.
Import SubscriptionGo Examples.

(** A, B and C are added and the server rejects the second of them. *)
Definition add_item2_rejected :=
  AddMonitorItems (env_rejecting [1%nat]) NewNodeMonitor sub0 no_params
    [watch nodeA; watch nodeB; watch nodeC].


(** A and B are added, B is removed, C is added. *)
Definition reserve_AB :=
  reserve (env_rejecting []) 100 ∅ no_params [watch nodeA; watch nodeB].
Definition add_AB :=
  AddMonitorItems (env_rejecting []) NewNodeMonitor sub0 no_params [watch nodeA; watch nodeB].
Definition remove_B := RemoveNodeIDs (env_rejecting []) add_AB.1.2 [nodeB].
Definition add_C :=
  AddMonitorItems (env_rejecting []) add_AB.1.1.2 remove_B.1.2 no_params [watch nodeC].


(** Callback mode: a notification of two records arrives while the internal
    buffer is full. *)
Definition pump_full_buffer :=
  pump monitor_with_handler subAB_callback None true
    [Notification DefaultCallbackBufferLen notifyAB].

(** Callback mode: a notification of two records is dispatched, the next
    one arrives while the internal buffer is full. *)
Definition pump_then_full_buffer :=
  pump monitor_with_handler subAB_callback None true
    [Notification 0 notifyAB; Notification DefaultCallbackBufferLen notifyAB].


(** The initial add of A while the monitor RPC is down. *)
Definition initial_add_monitor_down :=
  AddNodes env_monitor_down NewNodeMonitor (emptySubscription 7 16) ["ns=2;s=A"].
Definition initial_add_monitor_down_v1 :=
  MonitorGo.AddNodes ExamplesV1.env_monitor_down MonitorGo.New
    (MonitorGo.emptySubscription 7 (Some (make_chan 1))) ["ns=2;s=A"].

(** Opening a subscription on A while the monitor RPC is down. *)
Definition open_monitor_down :=
  newSubscription env_monitor_down NewNodeMonitor 16 ["ns=2;s=A"].
Definition open_monitor_down_v1 :=
  MonitorGo.ChanSubscribe ExamplesV1.env_monitor_down MonitorGo.New
    (Some (make_chan 1)) ["ns=2;s=A"].

End Runs.

(** ** Vocabulary of the further properties *)

(** The indices of a subscription agree with each other and with the
    registry: the counter is not negative, no handle of the handles index
    lies above it, every item is stored under its own id and its handle
    maps to its node in the handles index, and two items never share a
    handle. *)
Definition consistent (m : SubscriptionGo.NodeMonitor) (s : SubscriptionGo.Subscription)
  : Prop :=
  0 <= SubscriptionGo.nextClientHandle m /\
  (forall h, h ∈ dom (SubscriptionGo.handles s) -> h <= SubscriptionGo.nextClientHandle m) /\
  (forall id item,
      SubscriptionGo.itemLookup s !! id = Some item ->
      SubscriptionGo.item_id item = id /\
      SubscriptionGo.handles s !! SubscriptionGo.item_handle item
        = Some (SubscriptionGo.item_nodeID item)) /\
  (forall id1 id2 item1 item2,
      SubscriptionGo.itemLookup s !! id1 = Some item1 ->
      SubscriptionGo.itemLookup s !! id2 = Some item2 ->
      SubscriptionGo.item_handle item1 = SubscriptionGo.item_handle item2 ->
      id1 = id2).

(** The walk of [itemLookup] visits the items of the map, each once, in
    some order. *)
Definition walks_the_map (env : SubscriptionGo.Env) : Prop :=
  forall il, SubscriptionGo.range_itemLookup env il ≡ₚ (map_to_list il).*2.

(** A response that lets a mutation of [expected] items succeed. *)
Definition all_accepted (expected : nat) (r : StatusListResponse) : Prop :=
  ServiceResult r = StatusOK /\
  length (Results r) = expected /\
  Forall (fun status => status = StatusOK) (Results r).

(** An input that makes the pump return. *)
Definition is_stop (input : PumpInput) : bool :=
  match input with
  | CtxDone | ClosedSignal => true
  | _ => false
  end.

(** The map after the deletions [delete(m, k)] for the keys of [ks], first
    to last, and after the writes [m[k] = v] for the pairs of [kvs], first
    to last. *)
Definition delete_all {V : Type} (ks : list Z) (m : gmap Z V) : gmap Z V :=
  foldl (fun acc k => delete k acc) m ks.

Definition insert_all {V : Type} (kvs : list (Z * V)) (m : gmap Z V) : gmap Z V :=
  foldl (fun acc kv => <[kv.1 := kv.2]> acc) m kvs.

(** The writes [p.ClientHandle = h] of a batch, first to last: per request
    its parameters pointer, if it has one, and the handle.  The handle that
    the writes leave in the object at [q] is the handle of the last write
    through [q], if there is one. *)
Fixpoint last_write (q : ParamsPtr) (writes : list (option ParamsPtr * Z)) : option Z :=
  match writes with
  | [] => None
  | (p, h) :: rest =>
      match last_write q rest with
      | Some h' => Some h'
      | None => if decide (p = Some q) then Some h else None
      end
  end.

(** The object at [q] after the writes: the handle of the last write
    through [q], the settings untouched. *)
Definition written (writes : list (option ParamsPtr * Z)) (mem : ParamsMem) (q : ParamsPtr)
  : MonitoringParameters :=
  match last_write q writes with
  | Some h => {| mp_ClientHandle := h; mp_settings := mp_settings (mem q) |}
  | None => mem q
  end.

(** The modify requests that [ModifyMonitorItems] sends for [nodes], as the
    transport reads them when the RPC is made. *)
Definition modify_sent (env : SubscriptionGo.Env) (il : gmap Z SubscriptionGo.Item)
    (mem : ParamsMem) (nodes : list SubscriptionGo.Request)
  : list MonitoredItemModifyRequest :=
  map (read_modify (SubscriptionGo.modify_requests env il mem nodes).1)
      (SubscriptionGo.modify_requests env il mem nodes).2.

(** A string that [ua.ParseNodeID] accepts. *)
Definition parses (env : SubscriptionGo.Env) (node : string) : Prop :=
  exists nid, SubscriptionGo.ParseNodeID env node = inr nid.

(** ** Further concrete inputs *)

Module MoreExamples.
Import SubscriptionGo.

(** The items of [Examples.subAB]. *)
Definition itemA : Item := {| item_id := 1; item_nodeID := Examples.nodeA; item_handle := 101 |}.
Definition itemB : Item := {| item_id := 2; item_nodeID := Examples.nodeB; item_handle := 102 |}.

(** A transport whose unmonitor RPC fails. *)
Definition env_unmonitor_down : Env :=
  {| ParseNodeID := Examples.parse;
     client_Subscribe := inr 7;
     sub_Cancel := None;
     sub_Monitor := Examples.monitor_answer [];
     sub_Unmonitor := fun _ => inl (ErrExternal "EOF");
     sub_ModifyMonitoredItems := fun reqs => Examples.all_ok (map mmr_MonitoredItemID reqs);
     sub_SetMonitoringMode := fun _ ids => Examples.all_ok ids;
     default_settings := 0;
     range_itemLookup := fun il => (map_to_list il).*2 |}.

End MoreExamples.

Module MoreRuns.
Import SubscriptionGo.

(** The caller's parameter objects: at every address an object that names
    client handle 999 and the settings 5. *)
Definition params999 : ParamsMem :=
  fun _ => {| mp_ClientHandle := 999; mp_settings := 5 |}.

(** A request for [node] with the parameters at the address [p]. *)
Definition watch_with (node : NodeID) (p : ParamsPtr) : Request :=
  {| req_NodeID := node; req_MonitoringMode := MonitoringModeReporting;
     req_MonitoringParameters := Some p; req_handle := 0 |}.

(** A request for A whose caller-supplied parameters name client handle
    999. *)
Definition watchA_with_parameters : Request := watch_with Examples.nodeA 1%positive.

Definition add_with_parameters :=
  AddMonitorItems Examples.env_monitor_down NewNodeMonitor Examples.sub0 params999
    [watchA_with_parameters].

(** A and B are added with one parameters object for both. *)
Definition add_shared_parameters :=
  AddMonitorItems Examples.env_monitor_down NewNodeMonitor Examples.sub0 params999
    [watch_with Examples.nodeA 1%positive; watch_with Examples.nodeB 1%positive].

(** C is added to a subscription that watches A and B. *)
Definition add_C_to_AB :=
  AddMonitorItems (Examples.env_rejecting [])
    (set_nextClientHandle NewNodeMonitor 102) Examples.subAB no_params
    [Examples.watch Examples.nodeC].

End MoreRuns.

(** A notification that the pump of [monitor.go] can work on: one that
    carries a transport error, or the id of the subscription. *)
Definition safe_for_monitor_go (id : Z) (input : PumpInput) : Prop :=
  match input with
  | Notification _ msg =>
      match pnd_Error msg with
      | Some _ => True
      | None => pnd_SubscriptionID msg = id
      end
  | _ => True
  end.

(** No notification of the inputs arrives on a full internal buffer. *)
Definition never_full (s : SubscriptionGo.Subscription) (input : PumpInput) : bool :=
  match input with
  | Notification queued _ => negb (slow_consumer s true queued)
  | _ => true
  end.
(** * Facts about machine integers and handle allocation *)

Lemma wrap32_small (z : Z) : 0 <= z < 2 ^ 32 -> wrap32 z = z.
Proof. intros H. unfold wrap32. apply Z.mod_small. exact H. Qed.

Lemma wrap64_small (z : Z) : 0 <= z < 2 ^ 64 -> wrap64 z = z.
Proof. intros H. unfold wrap64. apply Z.mod_small. exact H. Qed.

Lemma wrap64_range (z : Z) : 0 <= wrap64 z < 2 ^ 64.
Proof. unfold wrap64. apply Z.mod_pos_bound. lia. Qed.

Lemma wrap64_add_l (a b : Z) : wrap64 (wrap64 a + b) = wrap64 (a + b).
Proof. unfold wrap64. apply Zplus_mod_idemp_l. Qed.

Lemma wrap64_add_r (a b : Z) : wrap64 (a + wrap64 b) = wrap64 (a + b).
Proof. unfold wrap64. apply Zplus_mod_idemp_r. Qed.

Lemma alloc_handles_length (next : Z) (n : nat) : length (alloc_handles next n) = n.
Proof. revert next. induction n as [|n IH]; intros next; simpl; [reflexivity|]. by rewrite IH. Qed.

Lemma alloc_handles_snoc (next : Z) (n : nat) :
  alloc_handles next (S n) = alloc_handles next n ++ [atomic_AddUint32 (advance next n) 1].
Proof.
  revert next. induction n as [|n IH]; intros next; [reflexivity|].
  change (alloc_handles next (S (S n)))
    with (atomic_AddUint32 next 1 :: alloc_handles (atomic_AddUint32 next 1) (S n)).
  rewrite IH. reflexivity.
Qed.

Lemma alloc_handles_app (next : Z) (n k : nat) :
  alloc_handles next (n + k) = alloc_handles next n ++ alloc_handles (advance next n) k.
Proof.
  revert next. induction n as [|n IH]; intros next; [reflexivity|].
  simpl. by rewrite IH.
Qed.

Lemma advance_add (next : Z) (n k : nat) : advance next (n + k) = advance (advance next n) k.
Proof. revert next. induction n as [|n IH]; intros next; [reflexivity|]. simpl. apply IH. Qed.

(** Without wrap-around the counter is the sum. *)
Lemma advance_no_wrap (next : Z) (n : nat) :
  0 <= next -> next + Z.of_nat n < 2 ^ 32 -> advance next n = next + Z.of_nat n.
Proof.
  revert next. induction n as [|n IH]; intros next H0 H; simpl advance.
  - lia.
  - unfold atomic_AddUint32. rewrite wrap32_small by lia. rewrite IH by lia. lia.
Qed.

(** Without wrap-around the handles of a batch lie strictly above the
    counter they start from. *)
Lemma alloc_handles_above (next : Z) (n : nat) (h : Z) :
  0 <= next -> next + Z.of_nat n < 2 ^ 32 ->
  h ∈ alloc_handles next n -> next < h <= next + Z.of_nat n.
Proof.
  revert next. induction n as [|n IH]; intros next H0 H Hin; simpl in Hin.
  - by apply elem_of_nil in Hin.
  - unfold atomic_AddUint32 in Hin. rewrite wrap32_small in Hin by lia.
    apply elem_of_cons in Hin as [-> | Hin]; [lia|].
    apply IH in Hin; lia.
Qed.

Lemma alloc_handles_NoDup (next : Z) (n : nat) :
  0 <= next -> next + Z.of_nat n < 2 ^ 32 -> NoDup (alloc_handles next n).
Proof.
  revert next. induction n as [|n IH]; intros next H0 H; simpl.
  - constructor.
  - unfold atomic_AddUint32. rewrite wrap32_small by lia. constructor.
    + intros Hin. apply alloc_handles_above in Hin; lia.
    + apply IH; lia.
Qed.

(** * Facts about the loops of [AddMonitorItems] *)

Section AddLoops.
Import SubscriptionGo.

(** What the first loop leaves behind: the counter advanced by the batch
    size, one handle per node, in order, and all of them in the index. *)
Lemma reserve_shape (env : Env) (nodes : list Request) :
  forall next hs mem next' hs' mem' nodes' toAdd,
    reserve env next hs mem nodes = (next', hs', mem', nodes', toAdd) ->
    next' = advance next (length nodes) /\
    map req_handle nodes' = alloc_handles next (length nodes) /\
    map pcr_NodeID toAdd = map req_NodeID nodes /\
    length toAdd = length nodes /\
    length nodes' = length nodes /\
    dom hs' = list_to_set (alloc_handles next (length nodes)) ∪ dom hs.
Proof.
  induction nodes as [|node rest IH]; intros next hs mem next' hs' mem' nodes' toAdd H.
  - simpl in H. injection H as <- <- <- <- <-. simpl. repeat split; try reflexivity.
    set_solver.
  - simpl in H.
    destruct (reserve env (atomic_AddUint32 next 1)
                (<[atomic_AddUint32 next 1 := req_NodeID node]> hs) _ rest)
      as [[[[n2 h2] mem2] ns2] ta2] eqn:E.
    injection H as <- <- <- <- <-.
    destruct (IH _ _ _ _ _ _ _ _ E) as (Hn & Hh & Hid & Hl1 & Hl2 & Hdom).
    simpl. repeat split; try congruence.
    rewrite Hdom, dom_insert_L. set_solver.
Qed.

(** Fresh, pairwise distinct handles make the index grow by the batch size. *)
Lemma reserve_size (env : Env) (nodes : list Request) :
  forall next hs mem next' hs' mem' nodes' toAdd,
    reserve env next hs mem nodes = (next', hs', mem', nodes', toAdd) ->
    NoDup (alloc_handles next (length nodes)) ->
    (forall h, h ∈ alloc_handles next (length nodes) -> hs !! h = None) ->
    size hs' = (size hs + length nodes)%nat.
Proof.
  induction nodes as [|node rest IH]; intros next hs mem next' hs' mem' nodes' toAdd H Hnd Hfresh.
  - simpl in H. injection H as <- <- <- <- <-. simpl. lia.
  - simpl in H.
    destruct (reserve env (atomic_AddUint32 next 1)
                (<[atomic_AddUint32 next 1 := req_NodeID node]> hs) _ rest)
      as [[[[n2 h2] mem2] ns2] ta2] eqn:E.
    injection H as <- <- <- <- <-.
    simpl in Hnd, Hfresh. apply NoDup_cons in Hnd as [Hnotin Hnd].
    rewrite (IH _ _ _ _ _ _ _ _ E Hnd).
    + rewrite map_size_insert_None; [simpl; lia|].
      apply Hfresh. by left.
    + intros h Hh. rewrite lookup_insert_ne.
      * apply Hfresh. by right.
      * intros <-. contradiction.
Qed.

(** With one request per result the second loop stays in range. *)
Lemma commit_in_range (results : list MonitoredItemCreateResult) :
  forall i nodes toAdd il acc,
    (i + length results <= length nodes)%nat ->
    (i + length results <= length toAdd)%nat ->
    exists r il', commit i results nodes toAdd il acc = (Normal r, il').
Proof.
  induction results as [|res rest IH]; intros i nodes toAdd il acc Hn Ht; simpl.
  - eauto.
  - destruct (negb (res_StatusCode res =? StatusOK)); [eauto|].
    simpl in Hn, Ht.
    destruct (lookup_lt_is_Some_2 nodes i) as [n ->]; [lia|].
    destruct (lookup_lt_is_Some_2 toAdd i) as [rq ->]; [lia|].
    apply IH; lia.
Qed.

(** A second loop that comes back without error accepted every result and
    recorded one item per result, with the handle reserved for it. *)
Lemma commit_success (results : list MonitoredItemCreateResult) :
  forall i nodes toAdd il acc items il',
    commit i results nodes toAdd il acc = (Normal (items, None), il') ->
    Forall accepted results /\
    map item_handle items =
      map item_handle acc ++ map req_handle (take (length results) (drop i nodes)) /\
    dom il' = list_to_set (map res_MonitoredItemID results) ∪ dom il.
Proof.
  induction results as [|res rest IH]; intros i nodes toAdd il acc items il' H; simpl in H.
  - injection H as <- <-. simpl. rewrite app_nil_r. repeat split; [constructor|set_solver].
  - destruct (res_StatusCode res =? StatusOK) eqn:Hok; simpl in H; [|discriminate].
    destruct (nodes !! i) as [n|] eqn:Hn; [|discriminate].
    destruct (toAdd !! i) as [rq|] eqn:Hrq; [|discriminate].
    apply IH in H as (Hall & Hh & Hdom).
    repeat split.
    + constructor; [|exact Hall]. unfold accepted. lia.
    + rewrite Hh. rewrite map_app. simpl.
      rewrite (drop_S _ _ _ Hn). simpl. by rewrite <- app_assoc.
    + rewrite Hdom, dom_insert_L. set_solver.
Qed.

(** A second loop that comes back with an error stopped at the first
    result that is not OK, with the items of the results before it recorded. *)
Lemma commit_failure (results : list MonitoredItemCreateResult) :
  forall i nodes toAdd il acc items err il',
    commit i results nodes toAdd il acc = (Normal (items, Some err), il') ->
    items = [] /\
    exists pre bad post,
      results = pre ++ bad :: post /\
      Forall accepted pre /\
      res_StatusCode bad <> StatusOK /\
      err = ErrStatus (res_StatusCode bad) /\
      dom il' = list_to_set (map res_MonitoredItemID pre) ∪ dom il.
Proof.
  induction results as [|res rest IH]; intros i nodes toAdd il acc items err il' H; simpl in H.
  - discriminate.
  - destruct (res_StatusCode res =? StatusOK) eqn:Hok; simpl in H.
    + destruct (nodes !! i) as [n|] eqn:Hn; [|discriminate].
      destruct (toAdd !! i) as [rq|] eqn:Hrq; [|discriminate].
      apply IH in H as (-> & pre & bad & post & -> & Hall & Hbad & -> & Hdom).
      split; [reflexivity|].
      exists (res :: pre), bad, post. repeat split; try done.
      * constructor; [|exact Hall]. unfold accepted. lia.
      * rewrite Hdom, dom_insert_L. simpl. set_solver.
    + injection H as <- <- <-. split; [reflexivity|].
      exists [], res, rest. repeat split; try done.
      * lia.
      * simpl. set_solver.
Qed.


End AddLoops.

Section AddLoopsV1.
Import MonitorGo.


End AddLoopsV1.

(** * [AddMonitorItems] as a whole *)

Section AddFacts.
Import SubscriptionGo.

(** Whatever the transport answers, a call advances the counter by the size
    of the batch and leaves every reserved handle in the index. *)
Lemma AddMonitorItems_reserves env m s mem nodes out mem' m' s' calls :
  AddMonitorItems env m s mem nodes = (out, mem', m', s', calls) ->
  nextClientHandle m' = advance (nextClientHandle m) (length nodes) /\
  dom (handles s') =
    list_to_set (alloc_handles (nextClientHandle m) (length nodes)) ∪ dom (handles s) /\
  (NoDup (alloc_handles (nextClientHandle m) (length nodes)) ->
   (forall h, h ∈ alloc_handles (nextClientHandle m) (length nodes) -> handles s !! h = None) ->
   Subscribed s' = (Subscribed s + length nodes)%nat).
Proof.
  intros H. unfold AddMonitorItems in H.
  destruct nodes as [|node rest].
  { injection H as <- <- <- <- <-. simpl. repeat split; [set_solver|intros; lia]. }
  destruct (reserve env (nextClientHandle m) (handles s) mem (node :: rest))
    as [[[[next hs] mem1] nodes'] toAdd] eqn:E.
  pose proof (reserve_shape _ _ _ _ _ _ _ _ _ _ E) as (Hn & _ & _ & _ & _ & Hdom).
  pose proof (reserve_size _ _ _ _ _ _ _ _ _ _ E) as Hsize.
  assert (nextClientHandle m' = next /\ handles s' = hs) as [Hm Hs].
  { destruct (sub_Monitor env (map (read_create mem1) toAdd)) as [err|resp].
    - by injection H as <- <- <- <- <-.
    - destruct (negb (create_ServiceResult resp =? StatusOK)).
      + by injection H as <- <- <- <- <-.
      + destruct (negb (length (create_Results resp) =? length toAdd)%nat).
        * by injection H as <- <- <- <- <-.
        * destruct (commit 0 (create_Results resp) nodes' toAdd (itemLookup s) []) as [o il].
          by injection H as <- <- <- <- <-. }
  rewrite Hm, Hs. unfold Subscribed. rewrite Hs. repeat split; assumption.
Qed.

(** [AddMonitorItems] never panics. *)
Lemma AddMonitorItems_returns env m s mem nodes :
  exists items err mem' m' s' calls,
    AddMonitorItems env m s mem nodes = (Normal (items, err), mem', m', s', calls).
Proof.
  unfold AddMonitorItems. destruct nodes as [|node rest]; [by eauto 10|].
  destruct (reserve env (nextClientHandle m) (handles s) mem (node :: rest))
    as [[[[next hs] mem1] nodes'] toAdd] eqn:E.
  pose proof (reserve_shape _ _ _ _ _ _ _ _ _ _ E) as (_ & _ & _ & Hl1 & Hl2 & _).
  destruct (sub_Monitor env (map (read_create mem1) toAdd)) as [err|resp]; [by eauto 10|].
  destruct (negb (create_ServiceResult resp =? StatusOK)); [by eauto 10|].
  destruct (length (create_Results resp) =? length toAdd)%nat eqn:Hlen; simpl;
    [|by eauto 10].
  apply Nat.eqb_eq in Hlen.
  destruct (commit_in_range (create_Results resp) 0 nodes' toAdd (itemLookup s) [])
    as ([items err] & il & ->); [simpl; lia..|].
  eauto 10.
Qed.

(** A batch whose requests bring no parameters neither reads nor writes
    the caller's objects: the first loop returns the memory it was given,
    and what it builds does not depend on it. *)
Lemma reserve_no_parameters (env : Env) (nodes : list Request) :
  forall next hs mem mem0,
    Forall (fun node => req_MonitoringParameters node = None) nodes ->
    reserve env next hs mem nodes =
      ((reserve env next hs mem0 nodes).1.1.1.1, (reserve env next hs mem0 nodes).1.1.1.2,
       mem, (reserve env next hs mem0 nodes).1.2, (reserve env next hs mem0 nodes).2) /\
    forall mem1 mem2,
      map (read_create mem1) (reserve env next hs mem0 nodes).2
      = map (read_create mem2) (reserve env next hs mem0 nodes).2.
Proof.
  induction nodes as [|node rest IH]; intros next hs mem mem0 Hnone; [done|].
  apply Forall_cons in Hnone as [Hnode Hrest].
  simpl. rewrite Hnode.
  destruct (IH (atomic_AddUint32 next 1) (<[atomic_AddUint32 next 1 := req_NodeID node]> hs)
              mem mem0 Hrest) as [Heq Hsent].
  rewrite Heq.
  destruct (reserve env (atomic_AddUint32 next 1)
              (<[atomic_AddUint32 next 1 := req_NodeID node]> hs) mem0 rest)
    as [[[[n2 h2] mem2] ns2] ta2].
  simpl in *. split; [reflexivity|].
  intros mem1 mem3. f_equal. apply Hsent.
Qed.

(** So [AddMonitorItems] on such a batch does the same in every memory, and
    [AddNodeIDs], whose requests bring no parameters, is [AddMonitorItems]
    in whatever memory the caller has. *)
Lemma AddMonitorItems_no_parameters env m s mem mem0 nodes :
  Forall (fun node => req_MonitoringParameters node = None) nodes ->
  AddMonitorItems env m s mem nodes =
    ((AddMonitorItems env m s mem0 nodes).1.1.1.1, mem,
     (AddMonitorItems env m s mem0 nodes).1.1.2,
     (AddMonitorItems env m s mem0 nodes).1.2,
     (AddMonitorItems env m s mem0 nodes).2).
Proof.
  intros Hnone. unfold AddMonitorItems. destruct nodes as [|node rest]; [reflexivity|].
  destruct (reserve_no_parameters env (node :: rest) (nextClientHandle m) (handles s)
              mem mem0 Hnone) as [Heq Hsent].
  rewrite Heq.
  destruct (reserve env (nextClientHandle m) (handles s) mem0 (node :: rest))
    as [[[[next hs] mem1] nodes'] toAdd].
  cbn [fst snd] in *. rewrite (Hsent mem mem1).
  destruct (sub_Monitor env (map (read_create mem1) toAdd)) as [e|resp]; [reflexivity|].
  destruct (negb (create_ServiceResult resp =? StatusOK)); [reflexivity|].
  destruct (negb (length (create_Results resp) =? length toAdd)%nat); [reflexivity|].
  by destruct (commit 0 (create_Results resp) nodes' toAdd (itemLookup s) []).
Qed.

Lemma AddNodeIDs_any_memory env m s mem nodes :
  AddNodeIDs env m s nodes =
    (let r := AddMonitorItems env m s mem
                (map (fun node => {| req_NodeID := node;
                                     req_MonitoringMode := MonitoringModeReporting;
                                     req_MonitoringParameters := None;
                                     req_handle := 0 |}) nodes) in
     (match r.1.1.1.1 with
      | Normal (_, err) => Normal err
      | Panicked msg => Panicked msg
      end, r.1.1.2, r.1.2, r.2)) /\
  (AddMonitorItems env m s mem
     (map (fun node => {| req_NodeID := node;
                          req_MonitoringMode := MonitoringModeReporting;
                          req_MonitoringParameters := None;
                          req_handle := 0 |}) nodes)).1.1.1.2 = mem.
Proof.
  assert (Hnone : Forall (fun node => req_MonitoringParameters node = None)
                    (map (fun node => {| req_NodeID := node;
                                         req_MonitoringMode := MonitoringModeReporting;
                                         req_MonitoringParameters := None;
                                         req_handle := 0 |}) nodes)).
  { apply Forall_forall. intros rq Hrq. apply list_elem_of_fmap in Hrq as (node & -> & _).
    reflexivity. }
  unfold AddNodeIDs. cbv zeta.
  rewrite (AddMonitorItems_no_parameters env m s mem no_params _ Hnone).
  by destruct (AddMonitorItems env m s no_params _) as [[[[out mem'] m'] s'] calls].
Qed.

End AddFacts.

Section AddClaims.
Import SubscriptionGo.

(** A successful call returns one item per node, carrying the handles of
    the batch in order. *)
Lemma AddMonitorItems_success env m s mem nodes items mem' m' s' calls :
  AddMonitorItems env m s mem nodes = (Normal (items, None), mem', m', s', calls) ->
  map item_handle items = alloc_handles (nextClientHandle m) (length nodes).
Proof.
  intros H. unfold AddMonitorItems in H.
  destruct nodes as [|node rest].
  { by injection H as <- <- <- <- <-. }
  destruct (reserve env (nextClientHandle m) (handles s) mem (node :: rest))
    as [[[[next hs] mem1] nodes'] toAdd] eqn:E.
  pose proof (reserve_shape _ _ _ _ _ _ _ _ _ _ E) as (_ & Hh & _ & Hl1 & Hl2 & _).
  destruct (sub_Monitor env (map (read_create mem1) toAdd)) as [err|resp]; [discriminate|].
  destruct (negb (create_ServiceResult resp =? StatusOK)); [discriminate|].
  destruct (length (create_Results resp) =? length toAdd)%nat eqn:Hlen; simpl in H;
    [|discriminate].
  apply Nat.eqb_eq in Hlen.
  destruct (commit 0 (create_Results resp) nodes' toAdd (itemLookup s) []) as [o il] eqn:Ec.
  injection H as -> <- <- <- <-.
  apply commit_success in Ec as (_ & Hitems & _).
  rewrite Hitems. simpl. rewrite drop_0, take_ge by lia. exact Hh.
Qed.

Lemma remove_loop_handles (items : list Item) :
  forall hs il acc err hs' il' toRemove,
    remove_loop items hs il acc = (err, hs', il', toRemove) ->
    dom hs' ⊆ dom hs /\ dom il' ⊆ dom il.
Proof.
  induction items as [|item rest IH]; intros hs il acc err hs' il' toRemove H; simpl in H.
  - by injection H as <- <- <- <-.
  - destruct (il !! item_id item).
    + apply IH in H as [H1 H2]. split.
      * etrans; [exact H1|]. rewrite dom_delete_L. set_solver.
      * etrans; [exact H2|]. rewrite dom_delete_L. set_solver.
    + by injection H as <- <- <- <-.
Qed.

Lemma RemoveMonitorItems_handles env s items err s' calls :
  RemoveMonitorItems env s items = (err, s', calls) ->
  dom (handles s') ⊆ dom (handles s).
Proof.
  intros H. unfold RemoveMonitorItems in H.
  destruct items as [|item rest]; [by injection H as <- <- <-|].
  destruct (remove_loop (item :: rest) (handles s) (itemLookup s) [])
    as [[[e hs] il] toRemove] eqn:E.
  apply remove_loop_handles in E as [Hh _].
  destruct e; by injection H as <- <- <-.
Qed.

(** The history of a registry is 101, 102, ... taken modulo 2^32, its
    counter is the last of them, and a subscription only knows handles of
    the history. *)
Lemma reachable_invariant hist m s :
  reachable hist m s ->
  hist = alloc_handles 100 (length hist) /\
  nextClientHandle m = advance 100 (length hist) /\
  dom (handles s) ⊆ list_to_set hist.
Proof.
  induction 1 as
    [ id len
    | hist m s env mem nodes out mem' m' s' calls next' hs' mem1 nodes' toAdd
        _ (IHh & IHn & IHd) Hadd Hres
    | hist m s env other mem nodes out mem' m' other' calls next' hs' mem1 nodes' toAdd
        _ (IHh & IHn & IHd) Hadd Hres
    | hist m s env items err s' calls _ (IHh & IHn & IHd) Hrem
    | hist m s m' s' _ (IHh & IHn & IHd) Hm Hs Hi ].
  - simpl. repeat split. set_solver.
  - apply reserve_shape in Hres as (_ & Hh & _).
    apply AddMonitorItems_reserves in Hadd as (Hnext & Hdom & _).
    rewrite Hh, length_app, alloc_handles_length, alloc_handles_app, advance_add, <- IHn.
    repeat split; [by f_equal|done|].
    rewrite Hdom, list_to_set_app_L. set_solver.
  - apply reserve_shape in Hres as (_ & Hh & _).
    apply AddMonitorItems_reserves in Hadd as (Hnext & _ & _).
    rewrite Hh, length_app, alloc_handles_length, alloc_handles_app, advance_add, <- IHn.
    repeat split; [by f_equal|done|].
    rewrite list_to_set_app_L. set_solver.
  - apply RemoveMonitorItems_handles in Hrem. repeat split; [done..|set_solver].
  - rewrite Hm, Hs. done.
Qed.

(** Without wrap-around the handles of a batch are consecutive. *)
Lemma alloc_handles_consecutive (next : Z) (n : nat) :
  0 <= next -> next + Z.of_nat n < 2 ^ 32 ->
  alloc_handles next n = map (fun i => next + 1 + Z.of_nat i) (seq 0 n).
Proof.
  revert next. induction n as [|n IH]; intros next H0 H; [reflexivity|].
  simpl. unfold atomic_AddUint32. rewrite wrap32_small by lia.
  f_equal; [lia|].
  rewrite IH by lia. rewrite <- seq_shift, map_map.
  apply map_ext. intros i. lia.
Qed.

End AddClaims.

(** * The claims about adding *)

Section AddTheorems.
Import SubscriptionGo.




(** C9: on a registry that has not wrapped its 32-bit counter, a successful
    add of N nodes raises the watched-count by exactly N and returns N
    items whose handles are pairwise distinct and were never handed out
    before by the registry, removed items included: the handles of the
    registry's lifetime, in the order of allocation, are 101, 102, 103,
    ... *)
Theorem add_success_allocates_fresh_handles
    hist m s env mem nodes items mem' m' s' calls :
  reachable hist m s ->
  100 + Z.of_nat (length hist) + Z.of_nat (length nodes) < 2 ^ 32 ->
  AddMonitorItems env m s mem nodes = (Normal (items, None), mem', m', s', calls) ->
  Subscribed s' = (Subscribed s + length nodes)%nat /\
  length items = length nodes /\
  NoDup (map item_handle items) /\
  (forall h, h ∈ map item_handle items -> h ∉ hist) /\
  hist ++ map item_handle items =
    map (fun i => 101 + Z.of_nat i) (seq 0 (length hist + length nodes)).
Proof.
  intros Hreach Hbound Hadd.
  destruct (reachable_invariant _ _ _ Hreach) as (Hhist & Hnext & Hdom).
  pose proof (AddMonitorItems_success _ _ _ _ _ _ _ _ _ _ Hadd) as Hitems.
  pose proof (AddMonitorItems_reserves _ _ _ _ _ _ _ _ _ _ Hadd) as (_ & _ & Hsize).
  rewrite advance_no_wrap in Hnext by lia.
  assert (Hold : forall h, h ∈ hist -> h <= nextClientHandle m).
  { intros h Hh. rewrite Hhist in Hh. apply alloc_handles_above in Hh; lia. }
  assert (Hnew : forall h, h ∈ alloc_handles (nextClientHandle m) (length nodes) ->
                           nextClientHandle m < h).
  { intros h Hh. apply alloc_handles_above in Hh; lia. }
  assert (Hnd : NoDup (alloc_handles (nextClientHandle m) (length nodes))).
  { apply alloc_handles_NoDup; lia. }
  rewrite Hitems. repeat split.
  - apply Hsize; [exact Hnd|].
    intros h Hh. apply not_elem_of_dom. intros Hin.
    apply Hdom, elem_of_list_to_set, Hold in Hin. apply Hnew in Hh. lia.
  - rewrite <- (length_map item_handle), Hitems. apply alloc_handles_length.
  - exact Hnd.
  - intros h Hh Hin. apply Hold in Hin. apply Hnew in Hh. lia.
  - rewrite Hhist at 1. rewrite Hnext.
    rewrite <- (advance_no_wrap 100 (length hist)) by lia.
    rewrite <- alloc_handles_app.
    rewrite alloc_handles_consecutive by lia.
    apply map_ext. intros i. lia.
Qed.

(** C9 at the run "add A and B, remove B, add C": C gets handle 103, not
    the handle 102 that the removal of B freed, and the watched-count goes
    from 1 to 2. *)
Lemma add_success_allocates_fresh_handles_witness :
  Subscribed Runs.add_C.1.2 = (Subscribed Runs.remove_B.1.2 + 1)%nat /\
  NoDup [103] /\
  (forall h, h ∈ [103] -> h ∉ [101; 102]) /\
  [101; 102] ++ [103] = map (fun i => 101 + Z.of_nat i) (seq 0 3).
Proof.
  destruct (add_success_allocates_fresh_handles
              [101; 102] Runs.add_AB.1.1.2 Runs.remove_B.1.2
              (Examples.env_rejecting []) no_params [Examples.watch Examples.nodeC]
              [{| item_id := 3; item_nodeID := Examples.nodeC; item_handle := 103 |}]
              Runs.add_C.1.1.1.2 Runs.add_C.1.1.2 Runs.add_C.1.2 Runs.add_C.2)
    as (H1 & _ & H3 & H4 & H5).
  - apply (reach_remove [101; 102] Runs.add_AB.1.1.2 Runs.add_AB.1.2
             (Examples.env_rejecting [])
             (resolve_nodes (Examples.env_rejecting []) (itemLookup Runs.add_AB.1.2)
                [Examples.nodeB])
             Runs.remove_B.1.1 Runs.remove_B.1.2 Runs.remove_B.2).
    + apply (reach_add [] NewNodeMonitor Examples.sub0 (Examples.env_rejecting [])
               no_params [Examples.watch Examples.nodeA; Examples.watch Examples.nodeB]
               Runs.add_AB.1.1.1.1 Runs.add_AB.1.1.1.2 Runs.add_AB.1.1.2 Runs.add_AB.1.2
               Runs.add_AB.2
               Runs.reserve_AB.1.1.1.1 Runs.reserve_AB.1.1.1.2 Runs.reserve_AB.1.1.2
               Runs.reserve_AB.1.2 Runs.reserve_AB.2 (reach_open 7 16)).
      * vm_compute. reflexivity.
      * vm_compute. reflexivity.
    + vm_compute. reflexivity.
  - vm_compute. reflexivity.
  - vm_compute. reflexivity.
  - repeat split; assumption.
Defined.

(** C10: each of the four batch mutations, called with no item, returns
    success ([nil] error, and no items for add), makes no transport call,
    and leaves the subscription and the registry's counter as they were. *)
Theorem empty_batch_is_noop env m s mem monitoringMode :
  AddMonitorItems env m s mem [] = (Normal ([], None), mem, m, s, []) /\
  RemoveMonitorItems env s [] = (None, s, []) /\
  ModifyMonitorItems env s mem [] = (None, mem, s, []) /\
  SetMonitoringMode env s monitoringMode [] = (None, s, []).
Proof.
  split; [|split; [|split]].
  - unfold AddMonitorItems. reflexivity.
  - unfold RemoveMonitorItems. reflexivity.
  - unfold ModifyMonitorItems. reflexivity.
  - unfold SetMonitoringMode. reflexivity.
Qed.

End AddTheorems.

(** * Facts about the pump of [subscription.go] *)

Lemma bump_add (x : Z) (a b : nat) : bump x (a + b) = bump (bump x a) b.
Proof. revert x. induction a as [|a IH]; intros x; [reflexivity|]. simpl. apply IH. Qed.

Lemma bump_wrap (x : Z) (n : nat) : wrap64 (bump x n) = wrap64 (x + Z.of_nat n).
Proof.
  revert x. induction n as [|n IH]; intros x; simpl bump.
  - f_equal. lia.
  - rewrite IH. unfold atomic_AddUint64. rewrite wrap64_add_l. f_equal. lia.
Qed.

Lemma bump_no_wrap (x : Z) (n : nat) :
  0 <= x -> x + Z.of_nat n < 2 ^ 64 -> bump x n = x + Z.of_nat n.
Proof.
  revert x. induction n as [|n IH]; intros x H0 H; simpl bump.
  - lia.
  - unfold atomic_AddUint64. rewrite wrap64_small by lia. rewrite IH by lia. lia.
Qed.

Lemma total_counted_app s cb (xs ys : list PumpInput) :
  total_counted s cb (xs ++ ys) = (total_counted s cb xs + total_counted s cb ys)%nat.
Proof. induction xs as [|x xs IH]; simpl; [reflexivity|]. rewrite IH. lia. Qed.


Lemma same_frame_trans s1 s2 s3 : same_frame s1 s2 -> same_frame s2 s3 -> same_frame s1 s3.
Proof.
  intros (A1 & A2 & A3 & A4 & A5) (B1 & B2 & B3 & B4 & B5).
  repeat split; congruence.
Qed.

Lemma counted_frame s s' cb input : same_frame s s' -> counted s' cb input = counted s cb input.
Proof.
  intros (H1 & H2 & _). destruct input; try reflexivity.
  unfold counted, well_addressed, slow_consumer. by rewrite H1, H2.
Qed.

Lemma total_counted_frame s s' cb inputs :
  same_frame s s' -> total_counted s' cb inputs = total_counted s cb inputs.
Proof.
  intros H. induction inputs as [|x xs IH]; simpl; [reflexivity|].
  by rewrite IH, (counted_frame _ _ _ _ H).
Qed.

Section PumpFacts.
Import SubscriptionGo.

Lemma counts_trans s1 s2 s3 c1 c2 c3 a1 b1 a2 b2 :
  counts s1 s2 c1 c2 a1 b1 -> counts s2 s3 c2 c3 a2 b2 ->
  counts s1 s3 c1 c3 (a1 + a2) (b1 + b2).
Proof.
  intros (D1 & P1 & F1 & C1) (D2 & P2 & F2 & C2).
  split; [|split; [|split]].
  - by rewrite D2, D1, bump_add.
  - by rewrite P2, P1, bump_add.
  - exact (same_frame_trans _ _ _ F1 F2).
  - by rewrite C2.
Qed.

Lemma counts_refl s ch : counts s s ch ch 0 0.
Proof. repeat split; done. Qed.

Lemma counts_delivered s ch ch' :
  (is_Some ch' <-> is_Some ch) -> counts s (add_delivered s) ch ch' 1 0.
Proof. intros H. repeat split; try done; apply H. Qed.

Lemma counts_dropped s ch : counts s (add_dropped s) ch ch 0 1.
Proof. repeat split; done. Qed.

(** One message, delivered or dropped. *)
Lemma deliver_counts m s ch cb out :
  is_Some ch \/ cb = true ->
  exists s' ch' eff a b,
    deliver m s ch cb out = Normal (s', ch', eff) /\
    (a + b = 1)%nat /\ counts s s' ch ch' a b.
Proof.
  intros Hmode. unfold deliver.
  destruct ch as [c|].
  - destruct (try_send c out) as [c'|].
    + exists (add_delivered s), (Some c'), [ChanSent out], 1%nat, 0%nat.
      repeat split; try done; eauto.
    + exists (add_dropped s), (Some c), (sendError m (Some ErrSlowConsumer)), 0%nat, 1%nat.
      repeat split; try done.
  - destruct Hmode as [[? [=]] | ->].
    exists (add_delivered s), None, [CallbackCalled out], 1%nat, 0%nat.
    repeat split; try done.
Qed.

(** The records of one notification: each is delivered or dropped. *)
Lemma dispatch_items_counts m cb items :
  forall s ch,
    is_Some ch \/ cb = true ->
    exists s' ch' eff a b,
      dispatch_items m s ch cb items = Normal (s', ch', eff) /\
      (a + b = length items)%nat /\ counts s s' ch ch' a b.
Proof.
  induction items as [|item rest IH]; intros s ch Hmode; simpl.
  - exists s, ch, [], 0%nat, 0%nat. repeat split; done.
  - destruct (deliver_counts m s ch cb (message_of (handles s) item) Hmode)
      as (s1 & ch1 & eff1 & a1 & b1 & -> & Hab1 & Hc1).
    assert (Hmode1 : is_Some ch1 \/ cb = true).
    { destruct Hmode as [H|H]; [left; by apply Hc1|by right]. }
    destruct (IH s1 ch1 Hmode1) as (s2 & ch2 & eff2 & a2 & b2 & -> & Hab2 & Hc2).
    exists s2, ch2, (eff1 ++ eff2), (a1 + a2)%nat, (b1 + b2)%nat.
    split; [reflexivity|]. split; [lia|]. eapply counts_trans; eassumption.
Qed.

(** One notification: it adds [counted] to the two counters together. *)
Lemma pump_notification_counts m s ch cb queued msg :
  is_Some ch \/ cb = true ->
  exists s' ch' eff a b,
    pump_notification m s ch cb queued msg = Normal (s', ch', eff) /\
    (a + b = counted s cb (Notification queued msg))%nat /\ counts s s' ch ch' a b.
Proof.
  intros Hmode. unfold pump_notification, counted, well_addressed, records_of.
  destruct (pnd_Error msg) as [err|].
  { exists s, ch, (sendError m (Some err)), 0%nat, 0%nat.
    split; [reflexivity|]. split; [reflexivity|]. apply counts_refl. }
  destruct (pnd_SubscriptionID msg =? SubscriptionID s); simpl.
  2:{ eexists s, ch, _, 0%nat, 0%nat.
      split; [reflexivity|]. split; [reflexivity|]. apply counts_refl. }
  fold (slow_consumer s cb queued).
  destruct (slow_consumer s cb queued).
  { eexists (add_dropped s), ch, _, 0%nat, 1%nat.
    split; [reflexivity|]. split; [reflexivity|]. apply counts_dropped. }
  destruct (pnd_Value msg) as [items|ty].
  - apply dispatch_items_counts, Hmode.
  - eexists s, ch, _, 0%nat, 0%nat.
    split; [reflexivity|]. split; [reflexivity|]. apply counts_refl.
Qed.

(** A whole run: the pump comes back (it never panics when a channel or a
    callback is set) and the two counters together have grown by the
    [counted] of the inputs it worked through. *)
Lemma pump_counts m cb inputs :
  forall s ch,
    is_Some ch \/ cb = true ->
    exists st s' ch' eff a b,
      pump m s ch cb inputs = Normal (st, s', ch', eff) /\
      (a + b = total_counted s cb (processed inputs))%nat /\ counts s s' ch ch' a b.
Proof.
  induction inputs as [|input rest IH]; intros s ch Hmode.
  - exists Waiting, s, ch, [], 0%nat, 0%nat. repeat split; done.
  - destruct input as [| |queued msg|].
    + exists Returned, s, ch, [], 0%nat, 0%nat. repeat split; done.
    + exists Returned, s, ch, [], 0%nat, 0%nat. repeat split; done.
    + simpl pump. simpl processed.
      destruct (pump_notification_counts m s ch cb queued msg Hmode)
        as (s1 & ch1 & eff1 & a1 & b1 & -> & Hab1 & Hc1).
      assert (Hmode1 : is_Some ch1 \/ cb = true).
      { destruct Hmode as [H|H]; [left; by apply Hc1|by right]. }
      destruct (IH s1 ch1 Hmode1) as (st & s2 & ch2 & eff2 & a2 & b2 & -> & Hab2 & Hc2).
      exists st, s2, ch2, (eff1 ++ eff2), (a1 + a2)%nat, (b1 + b2)%nat.
      split; [reflexivity|]. split.
      * destruct Hc1 as (_ & _ & Hf & _).
        rewrite (total_counted_frame _ _ _ _ Hf) in Hab2.
        change (total_counted s cb (Notification queued msg :: processed rest))
          with (counted s cb (Notification queued msg) + total_counted s cb (processed rest))%nat.
        lia.
      * eapply counts_trans; eassumption.
    + simpl pump. simpl processed.
      assert (Hmode1 : is_Some (chan_receive <$> ch) \/ cb = true).
      { destruct Hmode as [[c ->]|H]; [left; by eexists|by right]. }
      destruct (IH s (chan_receive <$> ch) Hmode1)
        as (st & s2 & ch2 & eff2 & a2 & b2 & -> & Hab2 & Hc2).
      exists st, s2, ch2, eff2, a2, b2.
      split; [reflexivity|]. split; [exact Hab2|].
      destruct Hc2 as (D & P & F & C). repeat split; try done; try apply F.
      * intros H. apply C in H. destruct ch; [by eexists|]. by destruct H.
      * intros [c ->]. apply C. by eexists.
Qed.

End PumpFacts.

(** * Facts about the non-blocking send *)

Lemma try_send_free (c : Chan) (out : DataChangeMessage) :
  undrained c -> (0 < free_slots c)%nat ->
  try_send c out =
    Some {| ch_cap := ch_cap c; ch_buf := ch_buf c ++ [out]; ch_recvq := O |}.
Proof.
  unfold undrained, free_slots, try_send. intros -> Hfree.
  destruct (Nat.ltb_spec (length (ch_buf c)) (ch_cap c)); [reflexivity|lia].
Qed.

Lemma try_send_full (c : Chan) (out : DataChangeMessage) :
  undrained c -> free_slots c = O -> try_send c out = None.
Proof.
  unfold undrained, free_slots, try_send. intros -> Hfull.
  destruct (Nat.ltb_spec (length (ch_buf c)) (ch_cap c)); [lia|reflexivity].
Qed.

Lemma handler_calls_app (xs ys : list Effect) :
  handler_calls (xs ++ ys) = handler_calls xs ++ handler_calls ys.
Proof. unfold handler_calls. apply omap_app. Qed.

Lemma consumer_messages_app (xs ys : list Effect) :
  consumer_messages (xs ++ ys) = consumer_messages xs ++ consumer_messages ys.
Proof. unfold consumer_messages. apply omap_app. Qed.

Section ChannelFacts.
Import SubscriptionGo.


(** Records sent to a channel that nobody drains: the first ones fill the
    free slots and are delivered, each of the others is dropped with one
    slow-consumer error. *)
Lemma dispatch_items_undrained m cb items :
  forall s c,
    undrained c ->
    exists s' c' eff,
      dispatch_items m s (Some c) cb items = Normal (s', Some c', eff) /\
      counts s s' (Some c) (Some c')
        (Nat.min (length items) (free_slots c))
        (length items - Nat.min (length items) (free_slots c)) /\
      undrained c' /\ ch_cap c' = ch_cap c /\
      ch_buf c' =
        ch_buf c ++ take (Nat.min (length items) (free_slots c))
                         (map (message_of (handles s)) items) /\
      consumer_messages eff =
        take (Nat.min (length items) (free_slots c)) (map (message_of (handles s)) items) /\
      handler_calls eff =
        if errHandlerCB m
        then replicate (length items - Nat.min (length items) (free_slots c)) ErrSlowConsumer
        else [].
Proof.
  induction items as [|item rest IH]; intros s c Hc.
  - exists s, c, []. simpl.
    rewrite app_nil_r. repeat split; try done. by destruct (errHandlerCB m).
  - simpl dispatch_items. unfold deliver.
    destruct (Nat.eq_dec (free_slots c) 0%nat) as [Hfull|Hfree].
    + rewrite (try_send_full c _ Hc Hfull).
      destruct (IH (add_dropped s) c Hc)
        as (s2 & c2 & eff2 & -> & Hcnt & Hu & Hcap & Hbuf & Hcm & Hh).
      exists s2, c2, (sendError m (Some ErrSlowConsumer) ++ eff2).
      rewrite Hfull in *. rewrite Nat.min_0_r in *. rewrite Nat.sub_0_r in *.
      rewrite ?take_0 in *.
      split; [reflexivity|]. split.
      { change (length (item :: rest)) with (1 + length rest)%nat.
        change 0%nat with (0 + 0)%nat at 1.
        eapply counts_trans; [apply counts_dropped|exact Hcnt]. }
      rewrite consumer_messages_app, handler_calls_app, Hcm, Hh.
      unfold sendError. destruct (errHandlerCB m); repeat split; done.
    + rewrite (try_send_free c _ Hc) by lia.
      set (c1 := {| ch_cap := ch_cap c;
                    ch_buf := ch_buf c ++ [message_of (handles s) item];
                    ch_recvq := 0%nat |}).
      assert (Hfree1 : free_slots c1 = (free_slots c - 1)%nat).
      { unfold free_slots, c1. simpl. rewrite length_app. simpl. lia. }
      destruct (IH (add_delivered s) c1 eq_refl)
        as (s2 & c2 & eff2 & -> & Hcnt & Hu & Hcap & Hbuf & Hcm & Hh).
      exists s2, c2, ([ChanSent (message_of (handles s) item)] ++ eff2).
      rewrite Hfree1 in *.
      assert (Ha : Nat.min (length (item :: rest)) (free_slots c)
                   = S (Nat.min (length rest) (free_slots c - 1))).
      { simpl length. lia. }
      rewrite Ha.
      replace (length (item :: rest) - S (Nat.min (length rest) (free_slots c - 1)))%nat
        with (length rest - Nat.min (length rest) (free_slots c - 1))%nat
        by (simpl length; lia).
      split; [reflexivity|]. split.
      { change (S (Nat.min (length rest) (free_slots c - 1)))
          with (1 + Nat.min (length rest) (free_slots c - 1))%nat.
        change (length rest - Nat.min (length rest) (free_slots c - 1))%nat
          with (0 + (length rest - Nat.min (length rest) (free_slots c - 1)))%nat.
        eapply counts_trans; [apply (counts_delivered s (Some c) (Some c1)); done|].
        destruct Hcnt as (D & P & F & C). split; [exact D|]. split; [exact P|].
        split; [exact F|]. done. }
      rewrite consumer_messages_app, handler_calls_app, Hcm, Hh, Hbuf.
      simpl. rewrite <- app_assoc. repeat split; done.
Qed.



End ChannelFacts.

Section ChannelFactsV1.
Import MonitorGo.


End ChannelFactsV1.

(** * The claims about the pump *)

Section PumpTheorems.
Import SubscriptionGo.

(** In callback mode a notification of two records that arrives on a full
    internal buffer is discarded whole and [dropped] goes up by one, so
    that [delivered + dropped] is 1 after a sequence that contains 2
    records. *)
Lemma pump_full_buffer_counts_one :
  Runs.pump_full_buffer =
    Normal (Waiting, add_dropped Examples.subAB_callback, None,
            [ErrHandlerCalled ErrSlowConsumer]) /\
  total_records [Notification DefaultCallbackBufferLen Examples.notifyAB] = 2%nat /\
  Delivered Examples.subAB_callback + Dropped Examples.subAB_callback = 0 /\
  Delivered (add_dropped Examples.subAB_callback)
  + Dropped (add_dropped Examples.subAB_callback) = 1.
Proof. vm_compute. repeat split; reflexivity. Qed.

(** The accounting of the pump as the code does it: a pump that has a
    channel or a callback comes back from every sequence of inputs, and
    [delivered + dropped] has then grown, modulo 2^64, by the number of
    per-item change records of the notifications it dispatched plus one for
    each notification it discarded whole; as long as the sum stays below
    2^64 the growth is exact and neither counter decreases. *)
Lemma pump_counters_sum m s notifyCh cb inputs :
  is_Some notifyCh \/ cb = true ->
  exists st s' ch' eff,
    pump m s notifyCh cb inputs = Normal (st, s', ch', eff) /\
    let n := Z.of_nat (total_counted s cb (processed inputs)) in
    wrap64 (Delivered s' + Dropped s') = wrap64 (Delivered s + Dropped s + n) /\
    (0 <= Delivered s -> 0 <= Dropped s -> Delivered s + Dropped s + n < 2 ^ 64 ->
     Delivered s' + Dropped s' = Delivered s + Dropped s + n /\
     Delivered s <= Delivered s' /\ Dropped s <= Dropped s').
Proof.
  intros Hmode.
  destruct (pump_counts m cb inputs s notifyCh Hmode)
    as (st & s' & ch' & eff & a & b & Hrun & Hab & (Hd & Hp & _)).
  exists st, s', ch', eff. split; [exact Hrun|].
  unfold Delivered, Dropped. rewrite <- Hab, Hd, Hp. cbv zeta. split.
  - rewrite <- wrap64_add_l, <- wrap64_add_r, !bump_wrap, wrap64_add_l, wrap64_add_r.
    f_equal. lia.
  - intros H0 H1 Hlt. rewrite !bump_no_wrap by lia. lia.
Qed.

(** C2: [subscription.go] breaks the claim.  In callback mode, a
    notification for the subscription that arrives while the internal
    buffer is full is discarded whole before its payload is looked at: the
    callback is not called, the error handler is told of a slow consumer,
    [delivered] stays and [dropped] goes up by one, whatever number of
    records the notification holds, and the pump goes on with the inputs
    that follow.  The channel path of the same pump counts every record:
    on a full channel that nobody drains the same notification raises
    [dropped] by the number of its records. *)
Theorem full_buffer_discard_counts_one m s queued msg rest :
  well_addressed s msg = true ->
  slow_consumer s true queued = true ->
  pump m s None true (Notification queued msg :: rest) =
    match pump m (add_dropped s) None true rest with
    | Panicked p => Panicked p
    | Normal (st, s', ch', eff) =>
        Normal (st, s', ch', sendError m (Some ErrSlowConsumer) ++ eff)
    end /\
  Dropped (add_dropped s) = atomic_AddUint64 (Dropped s) 1 /\
  Delivered (add_dropped s) = Delivered s /\
  (forall c,
     undrained c ->
     free_slots c = O ->
     exists s' eff,
       pump_notification m s (Some c) false queued msg = Normal (s', Some c, eff) /\
       Dropped s' = bump (Dropped s) (length (records_of msg)) /\
       Delivered s' = Delivered s /\
       consumer_messages eff = []).
Proof.
  intros Hwa Hslow.
  unfold well_addressed in Hwa.
  destruct (pnd_Error msg) as [err|] eqn:Herr; [discriminate|].
  split; [|split; [reflexivity|split; [reflexivity|]]].
  - simpl pump. unfold pump_notification. rewrite Herr, Hwa. simpl negb. cbv iota.
    unfold slow_consumer in Hslow. rewrite Hslow. reflexivity.
  - intros c Hc Hfull.
    unfold pump_notification, records_of. rewrite Herr, Hwa. simpl.
    destruct (pnd_Value msg) as [items|ty].
    + destruct (dispatch_items_undrained m false items s c Hc)
        as (s' & c' & eff & Hrun & (Hd & Hp & _) & Hc' & Hcap & Hbuf & Hmsgs & _).
      rewrite Hfull, Nat.min_0_r in *. rewrite Nat.sub_0_r in Hp.
      simpl in Hbuf, Hmsgs. rewrite app_nil_r in Hbuf.
      assert (c' = c) as ->.
      { destruct c, c'. unfold undrained in *. simpl in *. congruence. }
      exists s', eff. split; [exact Hrun|]. by split_and!.
    + exists s, (sendError m (Some (ErrUnknownMessageType ty))).
      split_and!; try reflexivity.
      unfold sendError. by destruct (errHandlerCB m).
Qed.

(** C2 at a notification of two records for A and B: in callback mode on a
    full internal buffer [dropped] is 1 afterwards and no message reaches
    the callback; in channel mode on a full channel [dropped] is 2. *)
Lemma full_buffer_discard_counts_one_witness :
  Runs.pump_full_buffer =
    Normal (Waiting, add_dropped Examples.subAB_callback, None,
            [ErrHandlerCalled ErrSlowConsumer]) /\
  Dropped (add_dropped Examples.subAB_callback) = 1 /\
  Delivered (add_dropped Examples.subAB_callback) = 0 /\
  length (records_of Examples.notifyAB) = 2%nat /\
  exists s' eff,
    pump_notification Examples.monitor_with_handler Examples.subAB_callback
      (Some (make_chan 0)) false DefaultCallbackBufferLen Examples.notifyAB
      = Normal (s', Some (make_chan 0), eff) /\
    Dropped s' = 2.
Proof.
  destruct (full_buffer_discard_counts_one
              Examples.monitor_with_handler Examples.subAB_callback
              DefaultCallbackBufferLen Examples.notifyAB [])
    as (Hrun & Hp & Hd & Hchan).
  - reflexivity.
  - vm_compute. reflexivity.
  - destruct (Hchan (make_chan 0) eq_refl eq_refl) as (s' & eff & Hch & Hp' & _).
    split; [exact Hrun|]. split; [rewrite Hp; vm_compute; reflexivity|].
    split; [exact Hd|]. split; [reflexivity|].
    exists s', eff. split; [exact Hch|]. rewrite Hp'. vm_compute. reflexivity.
Defined.

(** C3: [monitor.go] breaks the claim.  A notification without transport
    error whose subscription id is not the subscription's own makes the
    pump of [monitor.go] panic, whatever follows; the pump of
    [subscription.go] gives a mismatch error to the error handler and goes
    on with the inputs that follow. *)
Theorem foreign_notification_panics_in_monitor_go
    m1 s1 m2 s2 notifyCh cb queued msg rest :
  pnd_Error msg = None ->
  pnd_SubscriptionID msg <> MonitorGo.SubscriptionID s1 ->
  pnd_SubscriptionID msg <> SubscriptionID s2 ->
  MonitorGo.pump m1 s1 (Notification queued msg :: rest) = Panicked "wtf!?" /\
  pump m2 s2 notifyCh cb (Notification queued msg :: rest) =
    match pump m2 s2 notifyCh cb rest with
    | Panicked p => Panicked p
    | Normal (st, s', ch', eff) =>
        Normal (st, s', ch',
                sendError m2 (Some (ErrSubIDMismatch (pnd_SubscriptionID msg)
                                                      (SubscriptionID s2))) ++ eff)
    end.
Proof.
  intros Herr Hid1 Hid2. split.
  - simpl. unfold MonitorGo.pump_notification. rewrite Herr.
    destruct (Z.eqb_spec (pnd_SubscriptionID msg) (MonitorGo.SubscriptionID s1));
      [contradiction|reflexivity].
  - simpl. unfold pump_notification. rewrite Herr.
    destruct (Z.eqb_spec (pnd_SubscriptionID msg) (SubscriptionID s2));
      [contradiction|reflexivity].
Qed.

(** C3 at a notification for subscription 8 received by subscription 7:
    the pump of [monitor.go] panics although a well addressed notification
    follows; the pump of [subscription.go] reports the mismatch and then
    delivers the two records of the notification that follows. *)
Lemma foreign_notification_panics_in_monitor_go_witness :
  MonitorGo.pump ExamplesV1.monitor_with_handler (ExamplesV1.subAB 2)
    [Notification 0 Examples.notify_foreign; Notification 0 Examples.notifyAB]
  = Panicked "wtf!?" /\
  exists s',
    pump Examples.monitor_with_handler Examples.subAB_callback None true
      [Notification 0 Examples.notify_foreign; Notification 0 Examples.notifyAB]
    = Normal (Waiting, s', None,
              [ErrHandlerCalled (ErrSubIDMismatch 8 7);
               CallbackCalled (hit_message Examples.nodeA (Some (mkDataValue 11)));
               CallbackCalled (hit_message Examples.nodeB (Some (mkDataValue 22)))]) /\
    Delivered s' = 2.
Proof.
  destruct (foreign_notification_panics_in_monitor_go
              ExamplesV1.monitor_with_handler (ExamplesV1.subAB 2)
              Examples.monitor_with_handler Examples.subAB_callback None true
              0%nat Examples.notify_foreign [Notification 0 Examples.notifyAB])
    as [H1 H2].
  - reflexivity.
  - vm_compute. discriminate.
  - vm_compute. discriminate.
  - split; [exact H1|].
    eexists. split; [rewrite H2; vm_compute; reflexivity|]. vm_compute. reflexivity.
Defined.








End PumpTheorems.

(** * The claims about removing, closing and opening *)

Lemma find_none_of_all {A : Type} (f : A -> bool) (l : list A) :
  (forall x, x ∈ l -> f x = false) -> find f l = None.
Proof.
  induction l as [|x l IH]; intros H; [reflexivity|].
  simpl. rewrite (H x) by by left.
  apply IH. intros y Hy. apply H. by right.
Qed.

Section LifecycleTheorems.
Import SubscriptionGo.

Lemma set_indices_same s : set_indices s (handles s) (itemLookup s) = s.
Proof. by destruct s. Qed.

Lemma set_indices_same_v1 s :
  MonitorGo.set_indices s (MonitorGo.handles s) (MonitorGo.nodeLookup s) = s.
Proof. by destruct s. Qed.

(** A node that no item of the index carries resolves to nothing. *)
Lemma find_item_unwatched env il node :
  (forall m, range_itemLookup env m ≡ₚ (map_to_list m).*2) ->
  (forall id item, il !! id = Some item ->
                   NodeID_String (item_nodeID item) <> NodeID_String node) ->
  find_item env il node = None.
Proof.
  intros Hrange Hnot. unfold find_item. apply find_none_of_all.
  intros item Hin. rewrite Hrange in Hin.
  apply list_elem_of_fmap in Hin as ([id item'] & -> & Hin).
  apply elem_of_map_to_list in Hin. apply bool_decide_eq_false.
  by apply (Hnot id).
Qed.

(** C4: [subscription.go] breaks the claim.  Removing a node that the
    subscription does not watch leaves the subscription as it was in both
    revisions; [RemoveNodeIDs] and [RemoveNodes] of [monitor.go] return a
    node-not-found error for it, but those of [subscription.go] skip the
    node, make no transport call and return no error. *)
Theorem remove_unwatched_node_returns_no_error env s node str env1 s1 :
  (forall il, range_itemLookup env il ≡ₚ (map_to_list il).*2) ->
  (forall id item, itemLookup s !! id = Some item ->
                   NodeID_String (item_nodeID item) <> NodeID_String node) ->
  ParseNodeID env str = inr node ->
  MonitorGo.nodeLookup s1 !! NodeID_String node = None ->
  MonitorGo.ParseNodeID env1 str = inr node ->
  RemoveNodeIDs env s [node] = (None, s, []) /\
  RemoveNodes env s [str] = (None, s, []) /\
  MonitorGo.RemoveNodeIDs env1 s1 [node]
    = (Some (ErrNodeNotFound (NodeID_String node)), s1, []) /\
  MonitorGo.RemoveNodes env1 s1 [str]
    = (Some (ErrNodeNotFound (NodeID_String node)), s1, []) /\
  is_not_found (ErrNodeNotFound (NodeID_String node)) = true.
Proof.
  intros Hrange Hnot Hparse Hnot1 Hparse1.
  assert (H2 : RemoveNodeIDs env s [node] = (None, s, [])).
  { unfold RemoveNodeIDs. simpl.
    by rewrite (find_item_unwatched env (itemLookup s) node Hrange Hnot). }
  assert (H1 : MonitorGo.RemoveNodeIDs env1 s1 [node]
               = (Some (ErrNodeNotFound (NodeID_String node)), s1, [])).
  { unfold MonitorGo.RemoveNodeIDs. simpl. rewrite Hnot1.
    by rewrite set_indices_same_v1. }
  repeat split.
  - exact H2.
  - unfold RemoveNodes. simpl. rewrite Hparse. exact H2.
  - exact H1.
  - unfold MonitorGo.RemoveNodes. simpl. rewrite Hparse1. exact H1.
Qed.

(** C4 at a subscription that watches A and B, asked to remove C. *)
Lemma remove_unwatched_node_returns_no_error_witness :
  RemoveNodes (Examples.env_rejecting []) Examples.subAB ["ns=2;s=C"]
    = (None, Examples.subAB, []) /\
  MonitorGo.RemoveNodes ExamplesV1.env_ok (ExamplesV1.subAB 1) ["ns=2;s=C"]
    = (Some (ErrNodeNotFound "ns=2;s=C"), ExamplesV1.subAB 1, []).
Proof.
  destruct (remove_unwatched_node_returns_no_error
              (Examples.env_rejecting []) Examples.subAB Examples.nodeC "ns=2;s=C"
              ExamplesV1.env_ok (ExamplesV1.subAB 1))
    as (_ & H2 & _ & H1 & _).
  - intros il. reflexivity.
  - intros id item Hin. apply elem_of_map_to_list in Hin.
    vm_compute in Hin.
    apply elem_of_cons in Hin as [[= _ ->]|Hin]; [discriminate|].
    apply elem_of_cons in Hin as [[= _ ->]|Hin]; [discriminate|].
    by apply elem_of_nil in Hin.
  - reflexivity.
  - reflexivity.
  - reflexivity.
  - split; [exact H2 | exact H1].
Defined.

(** C5: the code breaks the claim, in both revisions.  The first
    [Unsubscribe] closes the signal channel and cancels the transport
    subscription; a second one panics on [close(s.closed)] before it
    reaches the transport. *)
Theorem second_Unsubscribe_panics env s env1 s1 :
  closed s = false ->
  MonitorGo.closed s1 = false ->
  Unsubscribe env s = (Normal (sub_Cancel env), set_closed s, [CallCancel]) /\
  Unsubscribe env (set_closed s)
    = (Panicked "close of closed channel", set_closed s, []) /\
  MonitorGo.Unsubscribe env1 s1
    = (Normal (MonitorGo.sub_Cancel env1), MonitorGo.set_closed s1, [CallCancel]) /\
  MonitorGo.Unsubscribe env1 (MonitorGo.set_closed s1)
    = (Panicked "close of closed channel", MonitorGo.set_closed s1, []).
Proof.
  intros Hopen Hopen1. unfold Unsubscribe, MonitorGo.Unsubscribe.
  rewrite Hopen, Hopen1. simpl. repeat split.
Qed.

(** C5 at a subscription that watches A and B. *)
Lemma second_Unsubscribe_panics_witness :
  Unsubscribe (Examples.env_rejecting [])
    (Unsubscribe (Examples.env_rejecting []) Examples.subAB).1.2
  = (Panicked "close of closed channel", set_closed Examples.subAB, []) /\
  MonitorGo.Unsubscribe ExamplesV1.env_ok
    (MonitorGo.Unsubscribe ExamplesV1.env_ok (ExamplesV1.subAB 1)).1.2
  = (Panicked "close of closed channel", MonitorGo.set_closed (ExamplesV1.subAB 1), []).
Proof.
  destruct (second_Unsubscribe_panics (Examples.env_rejecting []) Examples.subAB
              ExamplesV1.env_ok (ExamplesV1.subAB 1))
    as (H1 & H2 & H3 & H4).
  - reflexivity.
  - reflexivity.
  - rewrite H1, H3. simpl. split; [exact H2 | exact H4].
Defined.

(** Adding nodes never cancels the transport subscription. *)
Lemma AddNodes_calls env m s nodes out m' s' calls :
  AddNodes env m s nodes = (out, m', s', calls) ->
  forall call, call ∈ calls -> exists toAdd, call = CallMonitor toAdd.
Proof.
  unfold AddNodes, AddNodeIDs. intros H call Hin.
  destruct (parseNodeSlice env nodes) as [nodeIDs [err|]].
  { injection H as <- <- <- <-. by apply elem_of_nil in Hin. }
  destruct (AddMonitorItems env m s no_params _) as [[[[o mem2] m2] s2] calls2] eqn:E.
  injection H as <- <- <- <-.
  unfold AddMonitorItems in E.
  destruct (map _ nodeIDs) as [|rq rest].
  { injection E as <- <- <- <- <-. by apply elem_of_nil in Hin. }
  destruct (reserve env (nextClientHandle m) (handles s) no_params (rq :: rest))
    as [[[[next hs] mem1] nodes'] toAdd].
  assert (calls2 = [CallMonitor (map (read_create mem1) toAdd)]) as ->.
  { destruct (sub_Monitor env (map (read_create mem1) toAdd)) as [e|resp];
      [by injection E as <- <- <- <- <-|].
    destruct (negb (create_ServiceResult resp =? StatusOK));
      [by injection E as <- <- <- <- <-|].
    destruct (negb (length (create_Results resp) =? length toAdd)%nat);
      [by injection E as <- <- <- <- <-|].
    destruct (commit 0 (create_Results resp) nodes' toAdd (itemLookup s) []).
    by injection E as <- <- <- <- <-. }
  apply list_elem_of_singleton in Hin. eauto.
Qed.

Lemma AddNodes_calls_v1 env m s nodes err m' s' calls :
  MonitorGo.AddNodes env m s nodes = (err, m', s', calls) ->
  forall call, call ∈ calls -> exists toAdd, call = CallMonitor toAdd.
Proof.
  unfold MonitorGo.AddNodes, MonitorGo.AddNodeIDs. intros H call Hin.
  destruct (MonitorGo.parseNodeSlice env nodes) as [nodeIDs [e|]].
  { injection H as <- <- <- <-. by apply elem_of_nil in Hin. }
  destruct (MonitorGo.reserve env (MonitorGo.nextClientHandle m) (MonitorGo.handles s)
              (MonitorGo.nodeLookup s) nodeIDs) as [[[next hs] nl] toAdd].
  injection H as <- <- <- <-.
  apply list_elem_of_singleton in Hin. eauto.
Qed.

(** C6: the code breaks the claim, in both revisions.  When the transport
    has opened the subscription and the initial add fails, the call returns
    no subscription and the error of the add, and the transport calls it
    made are the subscribe and those of the add: the subscription that was
    opened is never cancelled, and the caller holds nothing to cancel it
    with. *)
Theorem failed_initial_add_is_not_cancelled
    env m notifyChanLength cb ch nodes id err m' s' calls
    env1 m1 ch1 id1 err1 m1' s1' calls1 :
  client_Subscribe env = inr id ->
  AddNodes env m (emptySubscription id notifyChanLength) nodes
    = (Normal (Some err), m', s', calls) ->
  MonitorGo.client_Subscribe env1 = inr id1 ->
  MonitorGo.AddNodes env1 m1 (MonitorGo.emptySubscription id1 ch1) nodes
    = (Some err1, m1', s1', calls1) ->
  newSubscription env m notifyChanLength nodes
    = (Normal (None, Some err), m', CallSubscribe :: calls) /\
  CallCancel ∉ CallSubscribe :: calls /\
  (notifyChanLength = DefaultCallbackBufferLen ->
   Subscribe env m cb nodes = (Normal (None, Some err), m', CallSubscribe :: calls)) /\
  (notifyChanLength = 16%nat ->
   ChanSubscribe env m ch nodes = (Normal (None, Some err), m', CallSubscribe :: calls)) /\
  MonitorGo.ChanSubscribe env1 m1 ch1 nodes
    = ((None, Some err1), m1', CallSubscribe :: calls1) /\
  CallCancel ∉ CallSubscribe :: calls1.
Proof.
  intros Hopen Hadd Hopen1 Hadd1.
  assert (Hnew : newSubscription env m notifyChanLength nodes
                 = (Normal (None, Some err), m', CallSubscribe :: calls)).
  { unfold newSubscription. by rewrite Hopen, Hadd. }
  assert (Hno : forall cs : list Call,
             (forall call, call ∈ cs -> exists toAdd, call = CallMonitor toAdd) ->
             CallCancel ∉ CallSubscribe :: cs).
  { intros cs Hcs Hin. apply elem_of_cons in Hin as [|Hin]; [discriminate|].
    destruct (Hcs _ Hin) as [toAdd [=]]. }
  repeat split.
  - exact Hnew.
  - apply Hno. eapply AddNodes_calls. exact Hadd.
  - intros ->. unfold Subscribe. by rewrite Hnew.
  - intros ->. unfold ChanSubscribe. by rewrite Hnew.
  - unfold MonitorGo.ChanSubscribe. by rewrite Hopen1, Hadd1.
  - apply Hno. eapply AddNodes_calls_v1. exact Hadd1.
Qed.

(** C6 at a transport that opens the subscription and whose monitor RPC
    fails: the calls are the subscribe and the monitor, no cancel. *)
Lemma failed_initial_add_is_not_cancelled_witness :
  Runs.open_monitor_down.1.1 = Normal (None, Some (ErrExternal "EOF")) /\
  CallCancel ∉ Runs.open_monitor_down.2 /\
  Runs.open_monitor_down_v1.1.1 = (None, Some (ErrExternal "EOF")) /\
  CallCancel ∉ Runs.open_monitor_down_v1.2.
Proof.
  destruct (failed_initial_add_is_not_cancelled
              Examples.env_monitor_down NewNodeMonitor 16%nat false (Some (make_chan 1))
              ["ns=2;s=A"] 7 (ErrExternal "EOF")
              Runs.initial_add_monitor_down.1.1.2 Runs.initial_add_monitor_down.1.2
              Runs.initial_add_monitor_down.2
              ExamplesV1.env_monitor_down MonitorGo.New (Some (make_chan 1)) 7
              (ErrExternal "EOF")
              Runs.initial_add_monitor_down_v1.1.1.2 Runs.initial_add_monitor_down_v1.1.2
              Runs.initial_add_monitor_down_v1.2)
    as (H1 & H2 & _ & _ & H3 & H4).
  - reflexivity.
  - vm_compute. reflexivity.
  - reflexivity.
  - vm_compute. reflexivity.
  - unfold Runs.open_monitor_down, Runs.open_monitor_down_v1.
    rewrite H1, H3. simpl. split; [reflexivity|]. split; [exact H2|].
    split; [reflexivity | exact H4].
Defined.

End LifecycleTheorems.

(** * Further properties: the string forms *)

Section ParseFacts.
Import SubscriptionGo.

(** [parseNodeSlice] returns the identifiers of all the strings, in order,
    when every string parses. *)
Lemma parseNodeSlice_ok env nodes ids :
  parseNodeSlice env nodes = (ids, None) <->
  Forall2 (fun node nid => ParseNodeID env node = inr nid) nodes ids.
Proof.
  revert ids. induction nodes as [|node rest IH]; intros ids; simpl.
  - split.
    + intros [= <-]. constructor.
    + intros H. by inversion H.
  - destruct (ParseNodeID env node) as [err|nid] eqn:Hp.
    + split; [discriminate|]. intros H. inversion H; subst. congruence.
    + destruct (parseNodeSlice env rest) as [ids' [err|]] eqn:Hrest.
      * split; [discriminate|]. intros H. inversion H as [|? y ? l' Hy Hl]; subst.
        apply IH in Hl. discriminate.
      * split.
        -- intros [= <-]. constructor; [exact Hp|]. by apply IH.
        -- intros H. inversion H as [|? y ? l' Hy Hl]; subst.
           apply IH in Hl. injection Hl as <-. congruence.
Qed.

(** [parseNodeSlice] stops at the first string that does not parse, with
    its error and no identifier. *)
Lemma parseNodeSlice_error env nodes ids err :
  parseNodeSlice env nodes = (ids, Some err) <->
  ids = [] /\
  exists pre bad post,
    nodes = pre ++ bad :: post /\
    Forall (fun node => exists nid, ParseNodeID env node = inr nid) pre /\
    ParseNodeID env bad = inl err.
Proof.
  revert ids. induction nodes as [|node rest IH]; intros ids; simpl.
  - split; [discriminate|]. intros (_ & pre & bad & post & H & _). by destruct pre.
  - destruct (ParseNodeID env node) as [e|nid] eqn:Hp.
    + split.
      * intros [= <- <-]. split; [reflexivity|].
        exists [], node, rest. repeat split; [constructor|exact Hp].
      * intros (-> & pre & bad & post & H & Hpre & Hbad).
        destruct pre as [|p pre]; simpl in H; injection H as Hnode Hrest.
        -- congruence.
        -- inversion Hpre as [|? ? [nid Hn] ?]; subst. congruence.
    + destruct (parseNodeSlice env rest) as [ids' [e|]] eqn:Hrest.
      * split.
        -- intros [= <- <-]. split; [reflexivity|].
           destruct (proj1 (IH ids') eq_refl) as (_ & pre & bad & post & -> & Hpre & Hbad).
           exists (node :: pre), bad, post. repeat split; [|exact Hbad].
           constructor; eauto.
        -- intros (-> & pre & bad & post & H & Hpre & Hbad).
           destruct pre as [|p pre]; simpl in H; injection H as Hn Hr; [congruence|].
           inversion Hpre; subst.
           assert (Hr2 : (ids', Some e) = (@nil NodeID, Some err)).
           { apply IH. split; [reflexivity|]. by exists pre, bad, post. }
           congruence.
      * split; [discriminate|].
        intros (-> & pre & bad & post & H & Hpre & Hbad).
        destruct pre as [|p pre]; simpl in H; injection H as Hn Hr; [congruence|].
        inversion Hpre; subst.
        assert (Hr2 : (ids', @None error) = (@nil NodeID, Some err)).
        { apply IH. split; [reflexivity|]. by exists pre, bad, post. }
        discriminate.
Qed.

Lemma parseNodeSlice_same env env1 nodes :
  (forall str, MonitorGo.ParseNodeID env1 str = ParseNodeID env str) ->
  MonitorGo.parseNodeSlice env1 nodes = parseNodeSlice env nodes.
Proof.
  intros Hsame. induction nodes as [|node rest IH]; simpl; [reflexivity|].
  rewrite Hsame, IH. reflexivity.
Qed.

End ParseFacts.

Section ParseTheorems.
Import SubscriptionGo.

(** X1: [parseNodeSlice] is all or nothing.  It returns the identifiers of
    all the strings, in order, when every string parses; otherwise it
    returns no identifier and the error of the first string that does not
    parse.  The copy in [monitor.go] computes the same. *)
Theorem parseNodeSlice_all_or_first_error env env1 nodes :
  (forall str, MonitorGo.ParseNodeID env1 str = ParseNodeID env str) ->
  match parseNodeSlice env nodes with
  | (ids, None) => Forall2 (fun node nid => ParseNodeID env node = inr nid) nodes ids
  | (ids, Some err) =>
      ids = [] /\
      exists pre bad post,
        nodes = pre ++ bad :: post /\ Forall (parses env) pre /\
        ParseNodeID env bad = inl err
  end /\
  MonitorGo.parseNodeSlice env1 nodes = parseNodeSlice env nodes.
Proof.
  intros Hsame. split.
  - destruct (parseNodeSlice env nodes) as [ids [err|]] eqn:H.
    + by apply parseNodeSlice_error in H.
    + by apply parseNodeSlice_ok in H.
  - by apply parseNodeSlice_same.
Qed.

(** X1 at three strings of which the second is empty. *)
Lemma parseNodeSlice_all_or_first_error_witness :
  parseNodeSlice (Examples.env_rejecting []) ["ns=2;s=A"; ""; "ns=2;s=C"]
    = ([], Some (ErrExternal "invalid node id")) /\
  MonitorGo.parseNodeSlice ExamplesV1.env_ok ["ns=2;s=A"; ""; "ns=2;s=C"]
    = ([], Some (ErrExternal "invalid node id")).
Proof.
  destruct (parseNodeSlice_all_or_first_error (Examples.env_rejecting []) ExamplesV1.env_ok
              ["ns=2;s=A"; ""; "ns=2;s=C"]) as [_ H].
  - intros str. reflexivity.
  - rewrite H. split; reflexivity.
Defined.

(** X2: the string forms validate every string before they touch anything.
    When a string of the list does not parse, [AddNodes], [RemoveNodes] and
    [SetMonitoringModeForNodes] return the error of the first such string,
    make no transport call, allocate no handle and leave the subscription
    as it was, in both revisions. *)
Theorem string_forms_validate_first
    env m s monitoringMode env1 m1 s1 pre bad post err :
  (forall str, MonitorGo.ParseNodeID env1 str = ParseNodeID env str) ->
  Forall (parses env) pre ->
  ParseNodeID env bad = inl err ->
  AddNodes env m s (pre ++ bad :: post) = (Normal (Some err), m, s, []) /\
  RemoveNodes env s (pre ++ bad :: post) = (Some err, s, []) /\
  SetMonitoringModeForNodes env s monitoringMode (pre ++ bad :: post) = (Some err, s, []) /\
  MonitorGo.AddNodes env1 m1 s1 (pre ++ bad :: post) = (Some err, m1, s1, []) /\
  MonitorGo.RemoveNodes env1 s1 (pre ++ bad :: post) = (Some err, s1, []).
Proof.
  intros Hsame Hpre Hbad.
  assert (H : parseNodeSlice env (pre ++ bad :: post) = ([], Some err)).
  { apply parseNodeSlice_error. split; [reflexivity|]. by exists pre, bad, post. }
  assert (H1 : MonitorGo.parseNodeSlice env1 (pre ++ bad :: post) = ([], Some err)).
  { rewrite <- H. by apply parseNodeSlice_same. }
  unfold AddNodes, RemoveNodes, SetMonitoringModeForNodes,
    MonitorGo.AddNodes, MonitorGo.RemoveNodes.
  rewrite H, H1. repeat split.
Qed.

(** X2 at a subscription that watches A and B, given C and an empty
    string. *)
Lemma string_forms_validate_first_witness :
  AddNodes (Examples.env_rejecting []) NewNodeMonitor Examples.subAB ["ns=2;s=C"; ""]
    = (Normal (Some (ErrExternal "invalid node id")), NewNodeMonitor, Examples.subAB, []) /\
  RemoveNodes (Examples.env_rejecting []) Examples.subAB ["ns=2;s=A"; ""]
    = (Some (ErrExternal "invalid node id"), Examples.subAB, []).
Proof.
  destruct (string_forms_validate_first (Examples.env_rejecting []) NewNodeMonitor
              Examples.subAB MonitoringModeReporting ExamplesV1.env_ok MonitorGo.New
              (ExamplesV1.subAB 1) ["ns=2;s=C"] "" [] (ErrExternal "invalid node id"))
    as (H1 & _).
  - intros str. reflexivity.
  - constructor; [|constructor]. eexists. reflexivity.
  - reflexivity.
  - split; [exact H1|].
    destruct (string_forms_validate_first (Examples.env_rejecting []) NewNodeMonitor
                Examples.subAB MonitoringModeReporting ExamplesV1.env_ok MonitorGo.New
                (ExamplesV1.subAB 1) ["ns=2;s=A"] "" [] (ErrExternal "invalid node id"))
      as (_ & H2 & _).
    + intros str. reflexivity.
    + constructor; [|constructor]. eexists. reflexivity.
    + reflexivity.
    + exact H2.
Defined.

End ParseTheorems.

(** * Further properties: removing *)

Lemma lookup_delete_all {V : Type} (ks : list Z) (m : gmap Z V) (k : Z) :
  delete_all ks m !! k = if decide (k ∈ ks) then None else m !! k.
Proof.
  revert m. induction ks as [|k0 ks IH]; intros m.
  - destruct (decide (k ∈ [])) as [H|_]; [by apply elem_of_nil in H|reflexivity].
  - change (delete_all (k0 :: ks) m) with (delete_all ks (delete k0 m)).
    rewrite IH.
    destruct (decide (k ∈ ks)) as [Hin|Hnin].
    + destruct (decide (k ∈ k0 :: ks)) as [_|Hn]; [reflexivity|].
      exfalso. apply Hn. by right.
    + destruct (decide (k = k0)) as [->|Hne].
      * destruct (decide (k0 ∈ k0 :: ks)) as [_|Hn]; [apply lookup_delete_eq|].
        exfalso. apply Hn. by left.
      * destruct (decide (k ∈ k0 :: ks)) as [[?|?]%elem_of_cons|_]; [done..|].
        by apply lookup_delete_ne.
Qed.

Lemma lookup_insert_all_other {V : Type} (kvs : list (Z * V)) (m : gmap Z V) (k : Z) :
  k ∉ kvs.*1 -> insert_all kvs m !! k = m !! k.
Proof.
  revert m. induction kvs as [|[k0 v0] kvs IH]; intros m Hk; [reflexivity|].
  change (insert_all ((k0, v0) :: kvs) m) with (insert_all kvs (<[k0 := v0]> m)).
  rewrite IH.
  - apply lookup_insert_ne. intros ->. apply Hk. by left.
  - intros Hin. apply Hk. by right.
Qed.

Lemma lookup_insert_all_last {V : Type} (kvs : list (Z * V)) (m : gmap Z V) (k : Z) (v : V) :
  NoDup kvs.*1 -> (k, v) ∈ kvs -> insert_all kvs m !! k = Some v.
Proof.
  revert m. induction kvs as [|[k0 v0] kvs IH]; intros m Hnd Hin.
  - by apply elem_of_nil in Hin.
  - simpl in Hnd. apply NoDup_cons in Hnd as [Hk0 Hnd].
    change (insert_all ((k0, v0) :: kvs) m) with (insert_all kvs (<[k0 := v0]> m)).
    apply elem_of_cons in Hin as [[= -> ->]|Hin].
    + rewrite lookup_insert_all_other by done. apply lookup_insert_eq.
    + by apply IH.
Qed.

Lemma dom_delete_all {V : Type} (ks : list Z) (m : gmap Z V) :
  dom (delete_all ks m) = dom m ∖ list_to_set ks.
Proof.
  apply set_eq. intros k. rewrite elem_of_difference, !elem_of_dom, lookup_delete_all.
  rewrite elem_of_list_to_set.
  destruct (decide (k ∈ ks)); split.
  - intros H. by apply is_Some_None in H.
  - intros [_ H]. done.
  - intros H. by split.
  - by intros [H _].
Qed.

(** Deleting keys that were fresh before they were written gives the map
    back. *)
Lemma delete_all_insert_all {V : Type} (kvs : list (Z * V)) (m : gmap Z V) :
  (forall k, k ∈ kvs.*1 -> m !! k = None) ->
  delete_all kvs.*1 (insert_all kvs m) = m.
Proof.
  intros Hfresh. apply map_eq. intros k. rewrite lookup_delete_all.
  destruct (decide (k ∈ kvs.*1)) as [Hin|Hnin].
  - symmetry. by apply Hfresh.
  - by apply lookup_insert_all_other.
Qed.

Section RemoveFacts.
Import SubscriptionGo.

(** The first loop of [RemoveMonitorItems] on items that are all in the
    index, under pairwise distinct ids. *)
Lemma remove_loop_present (items : list Item) :
  forall hs il acc,
    NoDup (map item_id items) ->
    (forall item, item ∈ items -> is_Some (il !! item_id item)) ->
    remove_loop items hs il acc =
      (None, delete_all (map item_handle items) hs, delete_all (map item_id items) il,
       acc ++ map item_id items).
Proof.
  induction items as [|item rest IH]; intros hs il acc Hnd Hin; simpl.
  - by rewrite app_nil_r.
  - simpl in Hnd. apply NoDup_cons in Hnd as [Hnotin Hnd].
    destruct (Hin item) as [stored ->]; [by left|].
    rewrite IH.
    + by rewrite <- app_assoc.
    + exact Hnd.
    + intros other Hother. rewrite lookup_delete_ne.
      * apply Hin. by right.
      * intros Heq. apply Hnotin. rewrite Heq. by apply list_elem_of_fmap_2.
Qed.

(** The first loop of [RemoveMonitorItems] on a batch whose items are in
    the index up to one that is not, or that is there twice. *)
Lemma remove_loop_missing (pre : list Item) (bad : Item) (post : list Item) :
  forall hs il acc,
    NoDup (map item_id pre) ->
    (forall item, item ∈ pre -> is_Some (il !! item_id item)) ->
    il !! item_id bad = None \/ item_id bad ∈ map item_id pre ->
    remove_loop (pre ++ bad :: post) hs il acc =
      (Some (ErrItemNotFound (item_id bad)),
       delete_all (map item_handle pre) hs, delete_all (map item_id pre) il,
       acc ++ map item_id pre).
Proof.
  induction pre as [|item rest IH]; intros hs il acc Hnd Hin Hbad; simpl.
  - destruct Hbad as [->|Hbad]; [by rewrite app_nil_r|]. by apply elem_of_nil in Hbad.
  - simpl in Hnd. apply NoDup_cons in Hnd as [Hnotin Hnd].
    destruct (Hin item) as [stored ->]; [by left|].
    rewrite IH.
    + by rewrite <- app_assoc.
    + exact Hnd.
    + intros other Hother. rewrite lookup_delete_ne.
      * apply Hin. by right.
      * intros Heq. apply Hnotin. rewrite Heq. by apply list_elem_of_fmap_2.
    + destruct (decide (item_id bad = item_id item)) as [Heq|Hne].
      * left. rewrite Heq. apply lookup_delete_eq.
      * destruct Hbad as [Hnone|Hdup].
        -- left. by rewrite lookup_delete_ne.
        -- right. simpl in Hdup. apply elem_of_cons in Hdup as [|]; done.
Qed.

(** [RemoveMonitorItems] on items that are all in the index, under
    pairwise distinct ids. *)
Lemma RemoveMonitorItems_present env s items :
  items <> [] ->
  NoDup (map item_id items) ->
  (forall item, item ∈ items -> is_Some (itemLookup s !! item_id item)) ->
  RemoveMonitorItems env s items =
    (check_response "unmonitor items" (length items)
       (sub_Unmonitor env (map item_id items)),
     set_indices s (delete_all (map item_handle items) (handles s))
                   (delete_all (map item_id items) (itemLookup s)),
     [CallUnmonitor (map item_id items)]).
Proof.
  intros Hne Hnd Hin.
  unfold RemoveMonitorItems. destruct items as [|item rest]; [done|].
  rewrite (remove_loop_present (item :: rest) _ _ [] Hnd Hin).
  rewrite !app_nil_l. by rewrite length_map.
Qed.

(** Whatever the batch, the first loop of [RemoveMonitorItems] deletes the
    ids and the handles of the items it got through, and nothing else. *)
Lemma remove_loop_prefix (items : list Item) :
  forall hs il acc err hs' il' toRemove,
    remove_loop items hs il acc = (err, hs', il', toRemove) ->
    exists gone,
      gone `prefix_of` items /\
      hs' = delete_all (map item_handle gone) hs /\
      il' = delete_all (map item_id gone) il.
Proof.
  induction items as [|item rest IH]; intros hs il acc err hs' il' toRemove H; simpl in H.
  - injection H as <- <- <- <-. by exists [].
  - destruct (il !! item_id item).
    + apply IH in H as (gone & Hpre & -> & ->).
      exists (item :: gone). split; [by apply prefix_cons|done].
    + injection H as <- <- <- <-. exists []. split; [apply prefix_nil|done].
Qed.

Lemma RemoveMonitorItems_prefix env s items err s' calls :
  RemoveMonitorItems env s items = (err, s', calls) ->
  exists gone,
    gone `prefix_of` items /\
    s' = set_indices s (delete_all (map item_handle gone) (handles s))
                       (delete_all (map item_id gone) (itemLookup s)).
Proof.
  intros H. unfold RemoveMonitorItems in H.
  destruct items as [|item rest].
  { injection H as <- <- <-. exists []. split; [done|]. by destruct s. }
  destruct (remove_loop (item :: rest) (handles s) (itemLookup s) [])
    as [[[e hs] il] toRemove] eqn:E.
  apply remove_loop_prefix in E as (gone & Hpre & -> & ->).
  exists gone. split; [exact Hpre|]. by destruct e; injection H as <- <- <-.
Qed.

End RemoveFacts.

Section RemoveTheorems.
Import SubscriptionGo.

(** X3: [RemoveMonitorItems] deletes before it asks.  For a batch of items
    that are in the item index under pairwise distinct ids, it makes one
    unmonitor RPC with the ids of the items in order, and whatever the
    transport answers (an error included) the items are gone from the item
    index, which has shrunk by the size of the batch, and the handles that
    the given items name are gone from the handles index; the error
    returned is the verdict on the answer.  The watched-count is the size
    of the handles index: it drops by the size of the batch when the given
    items name pairwise distinct handles of the index, and it stays as it
    was when they name handles that are not in the index. *)
Theorem RemoveMonitorItems_deletes_before_rpc env s items :
  items <> [] ->
  NoDup (map item_id items) ->
  (forall item, item ∈ items -> is_Some (itemLookup s !! item_id item)) ->
  RemoveMonitorItems env s items =
    (check_response "unmonitor items" (length items)
       (sub_Unmonitor env (map item_id items)),
     set_indices s (delete_all (map item_handle items) (handles s))
                   (delete_all (map item_id items) (itemLookup s)),
     [CallUnmonitor (map item_id items)]) /\
  (forall item, item ∈ items ->
     itemLookup (RemoveMonitorItems env s items).1.2 !! item_id item = None /\
     handles (RemoveMonitorItems env s items).1.2 !! item_handle item = None) /\
  size (itemLookup (RemoveMonitorItems env s items).1.2)
    = (size (itemLookup s) - length items)%nat /\
  (NoDup (map item_handle items) ->
   (forall item, item ∈ items -> is_Some (handles s !! item_handle item)) ->
   Subscribed (RemoveMonitorItems env s items).1.2 = (Subscribed s - length items)%nat) /\
  ((forall item, item ∈ items -> handles s !! item_handle item = None) ->
   Subscribed (RemoveMonitorItems env s items).1.2 = Subscribed s).
Proof.
  intros Hne Hnd Hin.
  pose proof (RemoveMonitorItems_present env s items Hne Hnd Hin) as Heq.
  split; [exact Heq|]. rewrite Heq. unfold Subscribed. simpl. split_and!.
  - intros item Hitem. rewrite !lookup_delete_all.
    rewrite !decide_True; [done|by apply list_elem_of_fmap_2..].
  - rewrite <- !size_dom, dom_delete_all.
    rewrite size_difference.
    + rewrite size_list_to_set by exact Hnd. by rewrite length_map.
    + intros k Hk. apply elem_of_list_to_set, list_elem_of_fmap in Hk as (item & -> & Hitem).
      apply elem_of_dom. by apply Hin.
  - intros Hndh Hinh. rewrite <- !size_dom, dom_delete_all.
    rewrite size_difference.
    + rewrite size_list_to_set by exact Hndh. by rewrite length_map.
    + intros k Hk. apply elem_of_list_to_set, list_elem_of_fmap in Hk as (item & -> & Hitem).
      apply elem_of_dom. by apply Hinh.
  - intros Hstale. rewrite <- !size_dom, dom_delete_all. f_equal.
    apply set_eq. intros k. rewrite elem_of_difference, elem_of_list_to_set. split.
    + by intros [? _].
    + intros Hk. split; [exact Hk|].
      intros (item & -> & Hitem)%list_elem_of_fmap.
      apply elem_of_dom in Hk as [? Hk]. by rewrite (Hstale item Hitem) in Hk.
Qed.

(** X3 at the removal of the items of A and B while the unmonitor RPC is
    down: the call returns the transport error and the subscription watches
    nothing any more. *)
Lemma RemoveMonitorItems_deletes_before_rpc_witness :
  RemoveMonitorItems MoreExamples.env_unmonitor_down Examples.subAB
    [MoreExamples.itemA; MoreExamples.itemB]
  = (Some (ErrExternal "EOF"), set_indices Examples.subAB ∅ ∅, [CallUnmonitor [1; 2]]) /\
  Subscribed (RemoveMonitorItems MoreExamples.env_unmonitor_down Examples.subAB
                [MoreExamples.itemA; MoreExamples.itemB]).1.2 = 0%nat.
Proof.
  destruct (RemoveMonitorItems_deletes_before_rpc MoreExamples.env_unmonitor_down
              Examples.subAB [MoreExamples.itemA; MoreExamples.itemB])
    as (H & _ & _ & Hcount & _).
  - discriminate.
  - vm_compute. repeat constructor; set_solver.
  - intros item Hitem.
    apply elem_of_cons in Hitem as [->|Hitem]; [by eexists|].
    apply list_elem_of_singleton in Hitem as ->. by eexists.
  - split; [rewrite H; vm_compute; reflexivity|].
    rewrite Hcount.
    + vm_compute. reflexivity.
    + vm_compute. repeat constructor; set_solver.
    + intros item Hitem.
      apply elem_of_cons in Hitem as [->|Hitem]; [by eexists|].
      apply list_elem_of_singleton in Hitem as ->. by eexists.
Defined.

(** X4: an item that is not in the item index, or that the batch names a
    second time, stops [RemoveMonitorItems]: the call returns an
    item-not-found error for it and makes no transport call, but the items
    before it in the batch have already been deleted from both indices. *)
Theorem RemoveMonitorItems_stops_at_missing_item env s pre bad post :
  NoDup (map item_id pre) ->
  (forall item, item ∈ pre -> is_Some (itemLookup s !! item_id item)) ->
  itemLookup s !! item_id bad = None \/ item_id bad ∈ map item_id pre ->
  RemoveMonitorItems env s (pre ++ bad :: post) =
    (Some (ErrItemNotFound (item_id bad)),
     set_indices s (delete_all (map item_handle pre) (handles s))
                   (delete_all (map item_id pre) (itemLookup s)),
     []).
Proof.
  intros Hnd Hin Hbad. unfold RemoveMonitorItems.
  rewrite (remove_loop_missing pre bad post _ _ [] Hnd Hin Hbad).
  by destruct pre.
Qed.

(** X4 at a batch that names the item of B twice: the second mention is
    not found, and B is unwatched although the transport was never asked. *)
Lemma RemoveMonitorItems_stops_at_missing_item_witness :
  RemoveMonitorItems (Examples.env_rejecting []) Examples.subAB
    [MoreExamples.itemB; MoreExamples.itemB]
  = (Some (ErrItemNotFound 2),
     set_indices Examples.subAB (delete 102 (handles Examples.subAB))
       (delete 2 (itemLookup Examples.subAB)), []).
Proof.
  apply (RemoveMonitorItems_stops_at_missing_item (Examples.env_rejecting [])
           Examples.subAB [MoreExamples.itemB] MoreExamples.itemB []).
  - repeat constructor. set_solver.
  - intros item Hitem. apply list_elem_of_singleton in Hitem as ->. by eexists.
  - right. by left.
Defined.

End RemoveTheorems.

(** * Further properties: adding, then looking up and removing *)

Lemma lookup_insert_all_inv {V : Type} (kvs : list (Z * V)) (m : gmap Z V) (k : Z) (v : V) :
  insert_all kvs m !! k = Some v ->
  (k, v) ∈ kvs \/ (k ∉ kvs.*1 /\ m !! k = Some v).
Proof.
  revert m. induction kvs as [|[k0 v0] kvs IH]; intros m H.
  - right. split; [apply not_elem_of_nil|exact H].
  - change (insert_all ((k0, v0) :: kvs) m) with (insert_all kvs (<[k0 := v0]> m)) in H.
    apply IH in H as [Hin|[Hnin Hm]].
    + left. by right.
    + destruct (decide (k = k0)) as [->|Hne].
      * rewrite lookup_insert_eq in Hm. injection Hm as ->. left. by left.
      * rewrite lookup_insert_ne in Hm by done. right. split; [|exact Hm].
        simpl. intros [?|?]%elem_of_cons; done.
Qed.

Lemma lookup_insert_all_is_Some {V : Type} (kvs : list (Z * V)) (m : gmap Z V) (k : Z) :
  k ∈ kvs.*1 -> is_Some (insert_all kvs m !! k).
Proof.
  revert m. induction kvs as [|[k0 v0] kvs IH]; intros m Hin.
  - by apply elem_of_nil in Hin.
  - change (insert_all ((k0, v0) :: kvs) m) with (insert_all kvs (<[k0 := v0]> m)).
    destruct (decide (k ∈ kvs.*1)) as [Hk|Hk]; [by apply IH|].
    rewrite lookup_insert_all_other by done.
    simpl in Hin. apply elem_of_cons in Hin as [->|]; [|done].
    rewrite lookup_insert_eq. by eexists.
Qed.

Section AddExact.
Import SubscriptionGo.

(** The handles index after the first loop of [AddMonitorItems], write by
    write. *)
Lemma reserve_handles_exact (env : Env) (nodes : list Request) :
  forall next hs mem next' hs' mem' nodes' toAdd,
    reserve env next hs mem nodes = (next', hs', mem', nodes', toAdd) ->
    hs' = insert_all (zip (alloc_handles next (length nodes)) (map req_NodeID nodes)) hs.
Proof.
  induction nodes as [|node rest IH]; intros next hs mem next' hs' mem' nodes' toAdd H.
  - simpl in H. by injection H as <- <- <- <- <-.
  - simpl in H.
    destruct (reserve env (atomic_AddUint32 next 1)
                (<[atomic_AddUint32 next 1 := req_NodeID node]> hs) _ rest)
      as [[[[n2 h2] mem2] ns2] ta2] eqn:E.
    injection H as <- <- <- <- <-.
    by rewrite (IH _ _ _ _ _ _ _ _ E).
Qed.

(** A write through a pointer leaves the settings of every object as they
    were. *)
Lemma write_ClientHandle_settings (mem : ParamsMem) (p q : ParamsPtr) (h : Z) :
  mp_settings (write_ClientHandle mem p h q) = mp_settings (mem q).
Proof.
  unfold write_ClientHandle. destruct (Pos.eqb_spec q p) as [->|_]; reflexivity.
Qed.

(** The caller's objects after the first loop of [AddMonitorItems]: in each
    object that a request of the batch points to, the handle of the last
    such request. *)
Lemma reserve_memory (env : Env) (nodes : list Request) :
  forall next hs mem next' hs' mem' nodes' toAdd,
    reserve env next hs mem nodes = (next', hs', mem', nodes', toAdd) ->
    forall q,
      mem' q = written (zip (map req_MonitoringParameters nodes)
                            (alloc_handles next (length nodes))) mem q.
Proof.
  induction nodes as [|node rest IH]; intros next hs mem next' hs' mem' nodes' toAdd H q.
  - simpl in H. by injection H as <- <- <- <- <-.
  - simpl in H.
    destruct (reserve env (atomic_AddUint32 next 1)
                (<[atomic_AddUint32 next 1 := req_NodeID node]> hs) _ rest)
      as [[[[n2 h2] mem2] ns2] ta2] eqn:E.
    injection H as <- <- <- <- <-.
    rewrite (IH _ _ _ _ _ _ _ _ E q). unfold written. simpl.
    destruct (last_write q _) as [h'|].
    + f_equal. destruct (req_MonitoringParameters node) as [p|]; [|reflexivity].
      apply write_ClientHandle_settings.
    + destruct (req_MonitoringParameters node) as [p|].
      * unfold write_ClientHandle.
        destruct (Pos.eqb_spec q p) as [->|Hne].
        -- by rewrite decide_True.
        -- rewrite decide_False; [reflexivity|]. intros [= ->]. done.
      * by rewrite decide_False.
Qed.

(** The requests that the first loop builds: per node, in order, a request
    for the value attribute of the node, in the mode the caller asked for;
    its parameters are the caller's object when the caller gave one, and
    else an object of its own with the handle allocated for the node and
    the default settings. *)
Lemma reserve_requests (env : Env) (nodes : list Request) :
  forall next hs mem next' hs' mem' nodes' toAdd,
    reserve env next hs mem nodes = (next', hs', mem', nodes', toAdd) ->
    Forall2 (fun nh rq =>
               pcr_NodeID rq = req_NodeID nh.1 /\
               pcr_AttributeID rq = AttributeIDValue /\
               pcr_MonitoringMode rq = req_MonitoringMode nh.1 /\
               pcr_RequestedParameters rq =
                 match req_MonitoringParameters nh.1 with
                 | Some p => CallerParams p
                 | None => OwnParams {| mp_ClientHandle := nh.2;
                                        mp_settings := default_settings env |}
                 end)
            (zip nodes (alloc_handles next (length nodes))) toAdd.
Proof.
  induction nodes as [|node rest IH]; intros next hs mem next' hs' mem' nodes' toAdd H.
  - simpl in H. injection H as <- <- <- <- <-. constructor.
  - simpl in H.
    destruct (reserve env (atomic_AddUint32 next 1)
                (<[atomic_AddUint32 next 1 := req_NodeID node]> hs) _ rest)
      as [[[[n2 h2] mem2] ns2] ta2] eqn:E.
    injection H as <- <- <- <- <-.
    simpl. constructor; [|exact (IH _ _ _ _ _ _ _ _ E)].
    simpl. by split_and!.
Qed.

(** The pointers of the writes of a batch are the pointers of its
    requests. *)
Lemma writes_pointers (nodes : list Request) :
  forall hs : list Z,
    length hs = length nodes ->
    omap fst (zip (map req_MonitoringParameters nodes) hs)
    = omap req_MonitoringParameters nodes.
Proof.
  induction nodes as [|node rest IH]; intros hs Hlen; [reflexivity|].
  destruct hs as [|h hs]; [discriminate|]. simpl in Hlen.
  specialize (IH hs ltac:(lia)). simpl.
  destruct (req_MonitoringParameters node); [f_equal|]; exact IH.
Qed.

(** When no two requests of a batch hold the same pointer, the last write
    through the pointer of a request is the write of that request. *)
Lemma last_write_NoDup (writes : list (option ParamsPtr * Z)) (i : nat) (p : ParamsPtr) (h : Z) :
  NoDup (omap fst writes) ->
  writes !! i = Some (Some p, h) ->
  last_write p writes = Some h.
Proof.
  revert i. induction writes as [|[p0 h0] rest IH]; intros i Hnd Hi; [done|].
  simpl. destruct i as [|i]; simpl in Hi.
  - injection Hi as -> ->. simpl in Hnd. apply NoDup_cons in Hnd as [Hnotin _].
    assert (Hnone : last_write p rest = None).
    { clear -Hnotin. induction rest as [|[p1 h1] rest IH]; [reflexivity|].
      simpl in *. destruct p1 as [p1|]; simpl in Hnotin.
      - apply not_elem_of_cons in Hnotin as [Hne Hnotin].
        rewrite (IH Hnotin). rewrite decide_False; [reflexivity|congruence].
      - rewrite (IH Hnotin). by rewrite decide_False. }
    rewrite Hnone. by rewrite decide_True.
  - assert (Hnd' : NoDup (omap fst rest)).
    { simpl in Hnd. destruct p0; simpl in Hnd; [by apply NoDup_cons in Hnd as [_ ?]|done]. }
    by rewrite (IH i Hnd' Hi).
Qed.

(** The item index after the second loop of [AddMonitorItems], write by
    write: one item per result that was looked at and accepted, stored
    under the id of the result, with the handle and the node of the request
    at the same position. *)
Lemma commit_exact (results : list MonitoredItemCreateResult) :
  forall i nodes toAdd il acc out il',
    commit i results nodes toAdd il acc = (out, il') ->
    exists new,
      il' = insert_all (map (fun item => (item_id item, item)) new) il /\
      (length new <= length results)%nat /\
      map item_id new = map res_MonitoredItemID (take (length new) results) /\
      map item_handle new = map req_handle (take (length new) (drop i nodes)) /\
      map item_nodeID new = map pcr_NodeID (take (length new) (drop i toAdd)) /\
      (forall items, out = Normal (items, None) ->
                     items = acc ++ new /\ length new = length results).
Proof.
  induction results as [|res rest IH]; intros i nodes toAdd il acc out il' H; simpl in H.
  - injection H as <- <-. exists []. split_and!; try done.
    intros items [= <-]. by rewrite app_nil_r.
  - destruct (res_StatusCode res =? StatusOK) eqn:Hok; simpl in H.
    2:{ injection H as <- <-. exists []. split_and!; try done; simpl; lia. }
    destruct (nodes !! i) as [n|] eqn:Hn.
    2:{ injection H as <- <-. exists []. split_and!; try done; simpl; lia. }
    destruct (toAdd !! i) as [rq|] eqn:Hrq.
    2:{ injection H as <- <-. exists []. split_and!; try done; simpl; lia. }
    apply IH in H as (new & -> & Hlen & Hid & Hh & Hnid & Hout).
    exists ({| item_id := res_MonitoredItemID res; item_handle := req_handle n;
               item_nodeID := pcr_NodeID rq |} :: new).
    rewrite (drop_S _ _ _ Hn), (drop_S _ _ _ Hrq).
    simpl. rewrite Hid, Hh, Hnid.
    split_and!; try done; [lia|].
    intros items Hitems. destruct (Hout items Hitems) as [-> ->].
    by rewrite <- app_assoc.
Qed.

(** [AddMonitorItems] as writes to the two indices, whatever its outcome. *)
Lemma AddMonitorItems_exact env m s mem nodes out mem' m' s' calls :
  AddMonitorItems env m s mem nodes = (out, mem', m', s', calls) ->
  exists new,
    handles s' =
      insert_all (zip (alloc_handles (nextClientHandle m) (length nodes))
                      (map req_NodeID nodes)) (handles s) /\
    itemLookup s' = insert_all (map (fun item => (item_id item, item)) new) (itemLookup s) /\
    (length new <= length nodes)%nat /\
    map item_handle new =
      take (length new) (alloc_handles (nextClientHandle m) (length nodes)) /\
    map item_nodeID new = take (length new) (map req_NodeID nodes) /\
    (forall items, out = Normal (items, None) ->
                   items = new /\ length new = length nodes).
Proof.
  intros H. unfold AddMonitorItems in H.
  destruct nodes as [|node rest].
  { injection H as <- <- <- <- <-. exists []. split_and!; try done.
    by intros items [= <-]. }
  destruct (reserve env (nextClientHandle m) (handles s) mem (node :: rest))
    as [[[[next hs] mem1] nodes'] toAdd] eqn:E.
  pose proof (reserve_handles_exact _ _ _ _ _ _ _ _ _ _ E) as Hhs.
  pose proof (reserve_shape _ _ _ _ _ _ _ _ _ _ E) as (_ & Hh & Hnid & Hl1 & Hl2 & _).
  assert (Hnone : forall e : error,
    (Normal ([] : list Item, Some e), mem1, set_nextClientHandle m next,
     set_indices s hs (itemLookup s), [CallMonitor (map (read_create mem1) toAdd)])
    = (out, mem', m', s', calls) ->
    exists new,
      handles s' = hs /\
      itemLookup s' = insert_all (map (fun item => (item_id item, item)) new) (itemLookup s) /\
      (length new <= length (node :: rest))%nat /\
      map item_handle new =
        take (length new) (alloc_handles (nextClientHandle m) (length (node :: rest))) /\
      map item_nodeID new = take (length new) (map req_NodeID (node :: rest)) /\
      (forall items, out = Normal (items, None) ->
                     items = new /\ length new = length (node :: rest))).
  { intros e [= <- <- <- <- <-]. exists []. split_and!; try done. simpl. lia. }
  assert (Hgoal : exists new,
      handles s' = hs /\
      itemLookup s' = insert_all (map (fun item => (item_id item, item)) new) (itemLookup s) /\
      (length new <= length (node :: rest))%nat /\
      map item_handle new =
        take (length new) (alloc_handles (nextClientHandle m) (length (node :: rest))) /\
      map item_nodeID new = take (length new) (map req_NodeID (node :: rest)) /\
      (forall items, out = Normal (items, None) ->
                     items = new /\ length new = length (node :: rest))).
  { destruct (sub_Monitor env (map (read_create mem1) toAdd)) as [e|resp];
      [by eapply Hnone|].
    destruct (negb (create_ServiceResult resp =? StatusOK)); [by eapply Hnone|].
    destruct (length (create_Results resp) =? length toAdd)%nat eqn:Hlen; simpl in H;
      [|by eapply Hnone].
    apply Nat.eqb_eq in Hlen.
    destruct (commit 0 (create_Results resp) nodes' toAdd (itemLookup s) []) as [o il] eqn:Ec.
    injection H as <- <- <- <- <-.
    apply commit_exact in Ec as (new & -> & Hlen' & _ & Hnh & Hnn & Hout).
    rewrite drop_0 in Hnh. rewrite drop_0 in Hnn.
    exists new. split_and!; try done.
    - lia.
    - rewrite Hnh, <- Hh. symmetry. apply firstn_map.
    - rewrite Hnn, <- Hnid. symmetry. apply firstn_map.
    - intros items Hitems. destruct (Hout items Hitems) as [-> ->]. split; [done|lia]. }
  destruct Hgoal as (new & Hs & Hrest). exists new. split; [|exact Hrest].
  by rewrite Hs, Hhs.
Qed.

End AddExact.

Section AddLookupTheorems.
Import SubscriptionGo.

(** The pairs (handle, node) that a batch writes to the handles index. *)
Lemma batch_pair_elem (next : Z) (nodes : list Request) (i : nat) (h : Z) (node : Request) :
  alloc_handles next (length nodes) !! i = Some h ->
  nodes !! i = Some node ->
  (h, req_NodeID node) ∈ zip (alloc_handles next (length nodes)) (map req_NodeID nodes).
Proof.
  intros Hh Hn. apply list_elem_of_lookup. exists i.
  apply lookup_zip_with_Some. exists h, (req_NodeID node). split; [reflexivity|].
  split; [exact Hh|]. change (map req_NodeID nodes) with (req_NodeID <$> nodes).
  by rewrite list_lookup_fmap, Hn.
Qed.

Lemma batch_pairs_fst (next : Z) (nodes : list Request) :
  (zip (alloc_handles next (length nodes)) (map req_NodeID nodes)).*1
  = alloc_handles next (length nodes).
Proof. apply fst_zip. rewrite alloc_handles_length, length_map. lia. Qed.

(** X5: on a registry that has not wrapped its counter, the items that a
    successful add returns resolve: item [i] carries the node of request
    [i], and a change record that carries the handle of the item is turned
    by the pump into a message with that node and the value of the record. *)
Theorem added_items_resolve env m s mem nodes items mem' m' s' calls :
  0 <= nextClientHandle m ->
  nextClientHandle m + Z.of_nat (length nodes) < 2 ^ 32 ->
  AddMonitorItems env m s mem nodes = (Normal (items, None), mem', m', s', calls) ->
  Forall2 (fun node item =>
             item_nodeID item = req_NodeID node /\
             handles s' !! item_handle item = Some (req_NodeID node) /\
             forall value,
               message_of (handles s')
                 {| min_ClientHandle := item_handle item; min_Value := value |}
               = hit_message (req_NodeID node) value) nodes items.
Proof.
  intros H0 Hbound Hadd.
  destruct (AddMonitorItems_exact _ _ _ _ _ _ _ _ _ _ Hadd)
    as (new & Hhs & _ & _ & Hh & Hn & Hout).
  destruct (Hout items eq_refl) as [-> Hlen].
  rewrite Hlen in Hh, Hn.
  rewrite take_ge in Hh by (rewrite alloc_handles_length; lia).
  rewrite take_ge in Hn by (rewrite length_map; lia).
  pose proof (alloc_handles_NoDup _ _ H0 Hbound) as Hnd.
  apply Forall2_same_length_lookup_2; [lia|].
  intros i node item Hnode Hitem.
  assert (Hih : alloc_handles (nextClientHandle m) (length nodes) !! i
                = Some (item_handle item)).
  { rewrite <- Hh. change (map item_handle new) with (item_handle <$> new).
    by rewrite list_lookup_fmap, Hitem. }
  assert (Hin : item_nodeID item = req_NodeID node).
  { assert (Hl : (item_nodeID <$> new) !! i = (req_NodeID <$> nodes) !! i)
      by (by change ((map item_nodeID new) !! i = (map req_NodeID nodes) !! i); rewrite Hn).
    rewrite !list_lookup_fmap, Hitem, Hnode in Hl. by injection Hl. }
  assert (Hlook : handles s' !! item_handle item = Some (req_NodeID node)).
  { rewrite Hhs. apply lookup_insert_all_last.
    - by rewrite batch_pairs_fst.
    - by apply (batch_pair_elem _ _ i). }
  split; [exact Hin|]. split; [exact Hlook|].
  intros value. unfold message_of. simpl. by rewrite Hlook.
Qed.

(** X5 at the add of A and B to an empty subscription: a change record for
    handle 102 becomes a message for B. *)
Lemma added_items_resolve_witness :
  message_of (handles Runs.add_AB.1.2)
    {| min_ClientHandle := 102; min_Value := Some (mkDataValue 22) |}
  = hit_message Examples.nodeB (Some (mkDataValue 22)).
Proof.
  pose proof (added_items_resolve (Examples.env_rejecting []) NewNodeMonitor Examples.sub0
                no_params [Examples.watch Examples.nodeA; Examples.watch Examples.nodeB]
                [MoreExamples.itemA; MoreExamples.itemB]
                Runs.add_AB.1.1.1.2 Runs.add_AB.1.1.2 Runs.add_AB.1.2 Runs.add_AB.2) as H.
  assert (H0 : 0 <= nextClientHandle NewNodeMonitor) by (vm_compute; discriminate).
  assert (H1 : nextClientHandle NewNodeMonitor
               + Z.of_nat (length [Examples.watch Examples.nodeA;
                                   Examples.watch Examples.nodeB]) < 2 ^ 32)
    by (vm_compute; reflexivity).
  assert (H2 : AddMonitorItems (Examples.env_rejecting []) NewNodeMonitor Examples.sub0
                 no_params [Examples.watch Examples.nodeA; Examples.watch Examples.nodeB]
               = (Normal ([MoreExamples.itemA; MoreExamples.itemB], None),
                  Runs.add_AB.1.1.1.2, Runs.add_AB.1.1.2, Runs.add_AB.1.2, Runs.add_AB.2))
    by (vm_compute; reflexivity).
  specialize (H H0 H1 H2).
  apply Forall2_cons_1 in H as [_ H]. apply Forall2_cons_1 in H as [(_ & _ & H) _].
  exact (H (Some (mkDataValue 22))).
Defined.

(** X6: what a batch add sends, and what it writes into the caller's
    parameters.  Whatever the outcome, a call with at least one node makes
    exactly one monitor RPC with one request per node, in order, each for
    the value attribute of the node and in the caller's monitoring mode.
    The request of a node without parameters carries the handle reserved
    for the node and the default settings.  The request of a node with
    parameters carries the caller's object as the call leaves it: the
    caller's settings, and the handle reserved for the last node of the
    batch that points to the same object.  So every request carries the
    handle reserved for its own node when no two nodes of the batch share
    a parameters object, whatever client handle the caller had put in; a
    shared object makes its requests all carry one handle. *)
Theorem create_requests_carry_reserved_handles
    env m s mem nodes out mem' m' s' calls :
  nodes <> [] ->
  AddMonitorItems env m s mem nodes = (out, mem', m', s', calls) ->
  let reserved := alloc_handles (nextClientHandle m) (length nodes) in
  (forall q, mem' q = written (zip (map req_MonitoringParameters nodes) reserved) mem q) /\
  exists sent,
    calls = [CallMonitor sent] /\
    Forall2 (fun nh rq =>
               mcr_NodeID rq = req_NodeID nh.1 /\
               mcr_AttributeID rq = AttributeIDValue /\
               mcr_MonitoringMode rq = req_MonitoringMode nh.1 /\
               mcr_RequestedParameters rq =
                 match req_MonitoringParameters nh.1 with
                 | Some p => mem' p
                 | None => {| mp_ClientHandle := nh.2;
                              mp_settings := default_settings env |}
                 end)
            (zip nodes reserved) sent /\
    (NoDup (omap req_MonitoringParameters nodes) ->
     map (fun rq => mp_ClientHandle (mcr_RequestedParameters rq)) sent = reserved).
Proof.
  intros Hne H reserved. unfold AddMonitorItems in H.
  destruct nodes as [|node rest]; [done|].
  destruct (reserve env (nextClientHandle m) (handles s) mem (node :: rest))
    as [[[[next hs] mem1] nodes'] toAdd] eqn:E.
  pose proof (reserve_memory _ _ _ _ _ _ _ _ _ _ E) as Hmem.
  pose proof (reserve_requests _ _ _ _ _ _ _ _ _ _ E) as Hreqs.
  fold reserved in Hmem, Hreqs.
  assert (Hres : mem' = mem1 /\ calls = [CallMonitor (map (read_create mem1) toAdd)]).
  { destruct (sub_Monitor env (map (read_create mem1) toAdd)) as [e|resp];
      [by injection H as <- <- <- <- <-|].
    destruct (negb (create_ServiceResult resp =? StatusOK));
      [by injection H as <- <- <- <- <-|].
    destruct (negb (length (create_Results resp) =? length toAdd)%nat);
      [by injection H as <- <- <- <- <-|].
    destruct (commit 0 (create_Results resp) nodes' toAdd (itemLookup s) []).
    by injection H as <- <- <- <- <-. }
  destruct Hres as [-> ->]. split; [exact Hmem|].
  exists (map (read_create mem1) toAdd). split; [reflexivity|].
  assert (Hsent :
    Forall2 (fun nh rq =>
               mcr_NodeID rq = req_NodeID nh.1 /\
               mcr_AttributeID rq = AttributeIDValue /\
               mcr_MonitoringMode rq = req_MonitoringMode nh.1 /\
               mcr_RequestedParameters rq =
                 match req_MonitoringParameters nh.1 with
                 | Some p => mem1 p
                 | None => {| mp_ClientHandle := nh.2;
                              mp_settings := default_settings env |}
                 end)
            (zip (node :: rest) reserved) (map (read_create mem1) toAdd)).
  { change (map (read_create mem1) toAdd) with (read_create mem1 <$> toAdd).
    apply Forall2_fmap_r. eapply Forall2_impl; [exact Hreqs|].
    intros [n h] rq (H1 & H2 & H3 & H4). simpl in *.
    split_and!; try done. rewrite H4. by destruct (req_MonitoringParameters n). }
  split; [exact Hsent|].
  intros Hnd.
  assert (Hlen : length reserved = length (node :: rest))
    by (unfold reserved; apply alloc_handles_length).
  apply (list_eq_same_length _ _ (length reserved)); [reflexivity| |].
  { rewrite length_map. apply Forall2_length in Hsent.
    rewrite <- Hsent, length_zip_with. lia. }
  intros i x y _ Hx Hy.
  change (map ?f ?l) with (f <$> l) in Hx. rewrite list_lookup_fmap in Hx.
  destruct (map (read_create mem1) toAdd !! i) as [rq|] eqn:Hrq; simpl in Hx; [|done].
  injection Hx as <-.
  destruct (Forall2_lookup_r _ _ _ _ _ Hsent Hrq) as ([n h] & Hnh & _ & _ & _ & Hp).
  apply lookup_zip_with_Some in Hnh as (n0 & h0 & [= <- <-] & Hn & Hh).
  assert (h = y) as -> by congruence.
  simpl in Hp. rewrite Hp.
  destruct (req_MonitoringParameters n) as [p|] eqn:Hnp; [|reflexivity].
  rewrite Hmem. unfold written.
  rewrite (last_write_NoDup _ i p y); [reflexivity| |].
  - by rewrite writes_pointers.
  - apply lookup_zip_with_Some. exists (Some p), y. split; [reflexivity|].
    split; [|exact Hh].
    change (map ?f ?l) with (f <$> l). by rewrite list_lookup_fmap, Hn, <- Hnp.
Qed.

(** X6 at two requests that share one parameters object, which names
    client handle 999, sent while the monitor RPC is down: the object holds
    102 afterwards, the handle reserved for the second request, and both
    requests on the wire carry 102 and the caller's settings. *)
Lemma create_requests_carry_reserved_handles_witness :
  mp_ClientHandle (MoreRuns.add_shared_parameters.1.1.1.2 1%positive) = 102 /\
  exists sent,
    MoreRuns.add_shared_parameters.2 = [CallMonitor sent] /\
    map mcr_NodeID sent = [Examples.nodeA; Examples.nodeB] /\
    map mcr_RequestedParameters sent =
      [{| mp_ClientHandle := 102; mp_settings := 5 |};
       {| mp_ClientHandle := 102; mp_settings := 5 |}].
Proof.
  destruct (create_requests_carry_reserved_handles Examples.env_monitor_down NewNodeMonitor
              Examples.sub0 MoreRuns.params999
              [MoreRuns.watch_with Examples.nodeA 1%positive;
               MoreRuns.watch_with Examples.nodeB 1%positive]
              MoreRuns.add_shared_parameters.1.1.1.1 MoreRuns.add_shared_parameters.1.1.1.2
              MoreRuns.add_shared_parameters.1.1.2 MoreRuns.add_shared_parameters.1.2
              MoreRuns.add_shared_parameters.2)
    as (Hmem & sent & Hcalls & Hall & _).
  - discriminate.
  - vm_compute. reflexivity.
  - assert (H102 : MoreRuns.add_shared_parameters.1.1.1.2 1%positive
                   = {| mp_ClientHandle := 102; mp_settings := 5 |})
      by (rewrite Hmem; vm_compute; reflexivity).
    split; [by rewrite H102|].
    exists sent. split; [exact Hcalls|].
    apply Forall2_cons_inv_l in Hall as (rq1 & rest1 & (N1 & _ & _ & P1) & Hall & ->).
    apply Forall2_cons_inv_l in Hall as (rq2 & rest2 & (N2 & _ & _ & P2) & Hall & ->).
    apply Forall2_nil_inv_l in Hall as ->.
    change (mcr_RequestedParameters rq1 = MoreRuns.add_shared_parameters.1.1.1.2 1%positive)
      in P1.
    change (mcr_RequestedParameters rq2 = MoreRuns.add_shared_parameters.1.1.1.2 1%positive)
      in P2.
    rewrite H102 in P1, P2.
    change (mcr_NodeID rq1 = Examples.nodeA) in N1.
    change (mcr_NodeID rq2 = Examples.nodeB) in N2.
    cbn [map]. by rewrite N1, N2, P1, P2.
Defined.

(** X7: removing what was just added gives the indices back, not the
    handles.  After a successful add of at least one node whose handles and
    item ids were not in the indices and whose item ids are pairwise
    distinct, [RemoveMonitorItems] of the returned items restores the
    handles index, the item index and the watched-count to what they were
    before the add, whatever the unmonitor RPC answers; the counter stays
    advanced by the size of the batch. *)
Theorem add_then_remove_restores_indices env env' m s mem nodes items mem' m' s' calls :
  nodes <> [] ->
  AddMonitorItems env m s mem nodes = (Normal (items, None), mem', m', s', calls) ->
  (forall h, h ∈ alloc_handles (nextClientHandle m) (length nodes) -> handles s !! h = None) ->
  NoDup (map item_id items) ->
  (forall item, item ∈ items -> itemLookup s !! item_id item = None) ->
  handles (RemoveMonitorItems env' s' items).1.2 = handles s /\
  itemLookup (RemoveMonitorItems env' s' items).1.2 = itemLookup s /\
  Subscribed (RemoveMonitorItems env' s' items).1.2 = Subscribed s /\
  (RemoveMonitorItems env' s' items).2 = [CallUnmonitor (map item_id items)] /\
  nextClientHandle m' = advance (nextClientHandle m) (length nodes).
Proof.
  intros Hne Hadd Hfresh Hnd Hids.
  destruct (AddMonitorItems_exact _ _ _ _ _ _ _ _ _ _ Hadd)
    as (new & Hhs & Hil & _ & Hh & _ & Hout).
  destruct (Hout items eq_refl) as [-> Hlen].
  rewrite Hlen in Hh. rewrite take_ge in Hh by (rewrite alloc_handles_length; lia).
  destruct (AddMonitorItems_reserves _ _ _ _ _ _ _ _ _ _ Hadd) as (Hnext & _).
  assert (Hkeys : (map (fun item => (item_id item, item)) new).*1 = map item_id new).
  { clear. induction new as [|x l IH]; simpl; [reflexivity|]. f_equal. exact IH. }
  rewrite RemoveMonitorItems_present.
  - simpl. unfold Subscribed. simpl.
    assert (H1 : delete_all (map item_handle new) (handles s') = handles s).
    { rewrite Hhs, Hh. rewrite <- (batch_pairs_fst (nextClientHandle m) nodes) at 1.
      apply delete_all_insert_all. intros h Hin. apply Hfresh.
      by rewrite batch_pairs_fst in Hin. }
    assert (H2 : delete_all (map item_id new) (itemLookup s') = itemLookup s).
    { rewrite Hil, <- Hkeys. apply delete_all_insert_all.
      intros k Hk. rewrite Hkeys in Hk.
      apply list_elem_of_fmap in Hk as (item & -> & Hitem). by apply Hids. }
    rewrite H1, H2. done.
  - intros ->. destruct nodes; [done|discriminate].
  - exact Hnd.
  - intros item Hitem. rewrite Hil. apply lookup_insert_all_is_Some.
    rewrite Hkeys. by apply list_elem_of_fmap_2.
Qed.

(** X7 at the add of C to a subscription that watches A and B, followed by
    the removal of the returned item while the unmonitor RPC is down. *)
Lemma add_then_remove_restores_indices_witness :
  handles (RemoveMonitorItems MoreExamples.env_unmonitor_down MoreRuns.add_C_to_AB.1.2
             [{| item_id := 3; item_nodeID := Examples.nodeC; item_handle := 103 |}]).1.2
    = handles Examples.subAB /\
  itemLookup (RemoveMonitorItems MoreExamples.env_unmonitor_down MoreRuns.add_C_to_AB.1.2
                [{| item_id := 3; item_nodeID := Examples.nodeC; item_handle := 103 |}]).1.2
    = itemLookup Examples.subAB /\
  nextClientHandle MoreRuns.add_C_to_AB.1.1.2 = 103.
Proof.
  destruct (add_then_remove_restores_indices (Examples.env_rejecting [])
              MoreExamples.env_unmonitor_down
              (set_nextClientHandle NewNodeMonitor 102) Examples.subAB no_params
              [Examples.watch Examples.nodeC]
              [{| item_id := 3; item_nodeID := Examples.nodeC; item_handle := 103 |}]
              MoreRuns.add_C_to_AB.1.1.1.2 MoreRuns.add_C_to_AB.1.1.2
              MoreRuns.add_C_to_AB.1.2 MoreRuns.add_C_to_AB.2)
    as (H1 & H2 & _ & _ & H5).
  - discriminate.
  - vm_compute. reflexivity.
  - intros h Hh. vm_compute in Hh. apply list_elem_of_singleton in Hh as ->.
    vm_compute. reflexivity.
  - repeat constructor. set_solver.
  - intros item Hitem. apply list_elem_of_singleton in Hitem as ->.
    vm_compute. reflexivity.
  - split; [exact H1|]. split; [exact H2|]. rewrite H5. vm_compute. reflexivity.
Defined.

End AddLookupTheorems.

(** * Further properties: the two indices stay consistent *)

Section ConsistentFacts.
Import SubscriptionGo.

(** Where the items that a batch add records come from: the item at
    position [j] has the [j]-th handle of the batch and the node of the
    [j]-th request. *)
Lemma recorded_item_position (next : Z) (nodes : list Request) (new : list Item) :
  map item_handle new = take (length new) (alloc_handles next (length nodes)) ->
  map item_nodeID new = take (length new) (map req_NodeID nodes) ->
  forall j item,
    new !! j = Some item ->
    alloc_handles next (length nodes) !! j = Some (item_handle item) /\
    exists node, nodes !! j = Some node /\ item_nodeID item = req_NodeID node.
Proof.
  intros Hh Hn j item Hitem.
  assert (H1 : (item_handle <$> new) !! j = Some (item_handle item))
    by (by rewrite list_lookup_fmap, Hitem).
  assert (H2 : (item_nodeID <$> new) !! j = Some (item_nodeID item))
    by (by rewrite list_lookup_fmap, Hitem).
  change (item_handle <$> new) with (map item_handle new) in H1.
  change (item_nodeID <$> new) with (map item_nodeID new) in H2.
  rewrite Hh in H1. rewrite Hn in H2.
  apply lookup_take_Some in H1 as [H1 _]. apply lookup_take_Some in H2 as [H2 _].
  split; [exact H1|].
  change (map req_NodeID nodes) with (req_NodeID <$> nodes) in H2.
  rewrite list_lookup_fmap in H2.
  destruct (nodes !! j) as [node|]; [|discriminate].
  exists node. split; [reflexivity|]. by injection H2.
Qed.

Lemma elem_of_keyed_items (new : list Item) (id : Z) (item : Item) :
  (id, item) ∈ map (fun it => (item_id it, it)) new -> item ∈ new /\ item_id item = id.
Proof.
  intros H. apply list_elem_of_fmap in H as (it & [= -> ->] & Hin). done.
Qed.

Lemma consistent_empty id notifyChanLength :
  consistent NewNodeMonitor (emptySubscription id notifyChanLength).
Proof.
  split; [simpl; lia|]. split; [|split].
  - intros h Hh. simpl in Hh. by apply elem_of_empty in Hh.
  - intros i item H. simpl in H. by rewrite lookup_empty in H.
  - intros i1 i2 item1 item2 H. simpl in H. by rewrite lookup_empty in H.
Qed.

(** Deleting ids and handles of items of the index keeps it consistent. *)
Lemma consistent_delete_all m s gone :
  consistent m s ->
  (forall item, item ∈ gone -> itemLookup s !! item_id item = Some item) ->
  consistent m (set_indices s (delete_all (map item_handle gone) (handles s))
                              (delete_all (map item_id gone) (itemLookup s))).
Proof.
  intros (H0 & Hle & Hitems & Hinj) Hgone.
  split; [exact H0|]. split; [|split]; simpl.
  - intros h Hh. rewrite dom_delete_all in Hh. apply Hle. set_solver.
  - intros id item Hin. rewrite lookup_delete_all in Hin.
    destruct (decide (id ∈ map item_id gone)) as [|Hid]; [discriminate|].
    destruct (Hitems id item Hin) as [Hi Hlook]. split; [exact Hi|].
    rewrite lookup_delete_all.
    destruct (decide (item_handle item ∈ map item_handle gone)) as [Hh|]; [|exact Hlook].
    exfalso. apply list_elem_of_fmap in Hh as (g & Heq & Hg).
    apply Hid. rewrite (Hinj id (item_id g) item g Hin (Hgone g Hg) Heq).
    by apply list_elem_of_fmap_2.
  - intros id1 id2 item1 item2 Hin1 Hin2. rewrite lookup_delete_all in Hin1, Hin2.
    destruct (decide (id1 ∈ map item_id gone)); [discriminate|].
    destruct (decide (id2 ∈ map item_id gone)); [discriminate|].
    by apply Hinj.
Qed.

(** The items that the scan of [RemoveNodeIDs] finds are items of the
    index, stored under their own ids. *)
Lemma find_item_stored env m s node item :
  consistent m s -> walks_the_map env ->
  find_item env (itemLookup s) node = Some item ->
  itemLookup s !! item_id item = Some item /\
  NodeID_String (item_nodeID item) = NodeID_String node.
Proof.
  intros (_ & _ & Hitems & _) Hwalk Hfind. unfold find_item in Hfind.
  apply find_some in Hfind as [Hin Hmatch].
  apply list_elem_of_In in Hin. rewrite (Hwalk (itemLookup s)) in Hin.
  apply list_elem_of_fmap in Hin as ([id it] & -> & Hin).
  apply elem_of_map_to_list in Hin. simpl.
  destruct (Hitems id it Hin) as [-> _].
  split; [exact Hin|]. by apply bool_decide_eq_true in Hmatch.
Qed.

Lemma resolve_nodes_stored env m s nodes item :
  consistent m s -> walks_the_map env ->
  item ∈ resolve_nodes env (itemLookup s) nodes ->
  itemLookup s !! item_id item = Some item.
Proof.
  intros Hc Hwalk. induction nodes as [|node rest IH]; simpl; intros Hin.
  - by apply elem_of_nil in Hin.
  - destruct (find_item env (itemLookup s) node) as [found|] eqn:Hfind; [|by apply IH].
    apply elem_of_cons in Hin as [->|Hin]; [|by apply IH].
    by destruct (find_item_stored env m s node found Hc Hwalk Hfind).
Qed.

(** The example subscription that watches A and B is consistent. *)
Lemma subAB_consistent :
  consistent (set_nextClientHandle NewNodeMonitor 102) Examples.subAB.
Proof.
  assert (Hil : forall id item, itemLookup Examples.subAB !! id = Some item ->
            (id = 1 /\ item = MoreExamples.itemA) \/ (id = 2 /\ item = MoreExamples.itemB)).
  { intros id item H. apply elem_of_map_to_list in H. vm_compute in H.
    apply elem_of_cons in H as [[= -> ->]|H]; [first [by left | by right]|].
    apply elem_of_cons in H as [[= -> ->]|H]; [first [by left | by right]|].
    by apply elem_of_nil in H. }
  split; [by vm_compute|]. split; [|split].
  - intros h Hh. apply elem_of_dom in Hh as [v Hv].
    apply elem_of_map_to_list in Hv. vm_compute in Hv.
    apply elem_of_cons in Hv as [[= -> ->]|Hv]; [by vm_compute|].
    apply elem_of_cons in Hv as [[= -> ->]|Hv]; [by vm_compute|].
    by apply elem_of_nil in Hv.
  - intros id item H. destruct (Hil id item H) as [[-> ->]|[-> ->]];
      (split; [reflexivity|vm_compute; reflexivity]).
  - intros id1 id2 item1 item2 H1 H2 Heq.
    destruct (Hil id1 item1 H1) as [[-> ->]|[-> ->]];
      destruct (Hil id2 item2 H2) as [[-> ->]|[-> ->]];
      try reflexivity; discriminate.
Qed.

End ConsistentFacts.

Section ConsistentTheorems.
Import SubscriptionGo.

(** X8: a batch add keeps the indices consistent, whatever its outcome.  On
    a registry whose counter does not wrap during the call, if before the
    call every item was stored under its own id with its handle mapped to
    its node in the handles index, no two items shared a handle and no
    handle lay above the counter, then the same holds after
    [AddMonitorItems], be it successful, rejected in part or failed. *)
Theorem AddMonitorItems_keeps_indices_consistent env m s mem nodes out mem' m' s' calls :
  consistent m s ->
  nextClientHandle m + Z.of_nat (length nodes) < 2 ^ 32 ->
  AddMonitorItems env m s mem nodes = (out, mem', m', s', calls) ->
  consistent m' s'.
Proof.
  intros (H0 & Hle & Hitems & Hinj) Hbound Hadd.
  destruct (AddMonitorItems_exact _ _ _ _ _ _ _ _ _ _ Hadd)
    as (new & Hhs & Hil & _ & Hh & Hn & _).
  destruct (AddMonitorItems_reserves _ _ _ _ _ _ _ _ _ _ Hadd) as (Hnext & Hdom & _).
  rewrite advance_no_wrap in Hnext by lia.
  pose proof (alloc_handles_NoDup _ _ H0 Hbound) as Hnd.
  pose proof (recorded_item_position _ _ _ Hh Hn) as Hpos.
  assert (Habove : forall h, h ∈ alloc_handles (nextClientHandle m) (length nodes) ->
                             nextClientHandle m < h <= nextClientHandle m').
  { intros h Hin. apply alloc_handles_above in Hin; lia. }
  assert (Hnew : forall item, item ∈ new ->
             item_handle item ∈ alloc_handles (nextClientHandle m) (length nodes) /\
             handles s' !! item_handle item = Some (item_nodeID item)).
  { intros item Hin. apply list_elem_of_lookup in Hin as [j Hj].
    destruct (Hpos j item Hj) as (Hhj & node & Hnode & ->).
    split; [by eapply list_elem_of_lookup_2|].
    rewrite Hhs. apply lookup_insert_all_last.
    - by rewrite batch_pairs_fst.
    - by apply (batch_pair_elem _ _ j). }
  assert (Hold : forall id item, itemLookup s !! id = Some item ->
             item_handle item <= nextClientHandle m /\
             handles s' !! item_handle item = Some (item_nodeID item)).
  { intros id item Hin. destruct (Hitems id item Hin) as [_ Hlook].
    assert (Hh1 : item_handle item <= nextClientHandle m)
      by (apply Hle, elem_of_dom; by eexists).
    split; [exact Hh1|].
    rewrite Hhs, lookup_insert_all_other; [exact Hlook|].
    rewrite batch_pairs_fst. intros Hin'. apply Habove in Hin'. lia. }
  assert (Hcases : forall id item, itemLookup s' !! id = Some item ->
             (item ∈ new /\ item_id item = id) \/ itemLookup s !! id = Some item).
  { intros id item Hin. rewrite Hil in Hin.
    apply lookup_insert_all_inv in Hin as [Hin|[_ Hin]]; [left|by right].
    by apply elem_of_keyed_items. }
  split; [lia|]. split; [|split].
  - intros h Hin. rewrite Hdom in Hin. apply elem_of_union in Hin as [Hin|Hin].
    + apply elem_of_list_to_set, Habove in Hin. lia.
    + apply Hle in Hin. lia.
  - intros id item Hin. destruct (Hcases id item Hin) as [[Hin' Hid]|Hin'].
    + split; [exact Hid|]. by apply Hnew.
    + split; [by apply (Hitems id item)|]. by apply (Hold id item).
  - intros id1 id2 item1 item2 Hin1 Hin2 Heq.
    destruct (Hcases id1 item1 Hin1) as [[Hn1 Hid1]|Ho1];
      destruct (Hcases id2 item2 Hin2) as [[Hn2 Hid2]|Ho2].
    + apply list_elem_of_lookup in Hn1 as [j1 Hj1].
      apply list_elem_of_lookup in Hn2 as [j2 Hj2].
      destruct (Hpos j1 item1 Hj1) as (Hh1 & _).
      destruct (Hpos j2 item2 Hj2) as (Hh2 & _).
      rewrite Heq in Hh1.
      assert (j1 = j2) as -> by (eapply NoDup_lookup; eassumption).
      rewrite Hj1 in Hj2. injection Hj2 as <-. congruence.
    + destruct (Hnew item1 Hn1) as [Ha _]. apply Habove in Ha.
      destruct (Hold id2 item2 Ho2) as [Hb _]. lia.
    + destruct (Hnew item2 Hn2) as [Ha _]. apply Habove in Ha.
      destruct (Hold id1 item1 Ho1) as [Hb _]. lia.
    + by apply (Hinj id1 id2 item1 item2).
Qed.

(** X8 at the add of A, B and C of which the server rejects B: the state
    that the failed call leaves is consistent. *)
Lemma AddMonitorItems_keeps_indices_consistent_witness :
  consistent Runs.add_item2_rejected.1.1.2 Runs.add_item2_rejected.1.2.
Proof.
  apply (AddMonitorItems_keeps_indices_consistent (Examples.env_rejecting [1%nat])
           NewNodeMonitor Examples.sub0 no_params
           [Examples.watch Examples.nodeA; Examples.watch Examples.nodeB;
            Examples.watch Examples.nodeC]
           Runs.add_item2_rejected.1.1.1.1 Runs.add_item2_rejected.1.1.1.2
           Runs.add_item2_rejected.1.1.2
           Runs.add_item2_rejected.1.2 Runs.add_item2_rejected.2).
  - apply consistent_empty.
  - vm_compute. reflexivity.
  - vm_compute. reflexivity.
Defined.

(** X9: removing keeps the indices consistent, whatever its outcome.
    [RemoveMonitorItems] keeps them consistent when each item it is given
    is the item stored under its id (such as the items an add returned and
    that are still watched), also when the batch names an item twice or the
    transport fails; [RemoveNodeIDs] keeps them consistent for any list of
    nodes, because it takes its items from the index. *)
Theorem removal_keeps_indices_consistent env m s items nodes :
  consistent m s ->
  walks_the_map env ->
  (forall item, item ∈ items -> itemLookup s !! item_id item = Some item) ->
  consistent m (RemoveMonitorItems env s items).1.2 /\
  consistent m (RemoveNodeIDs env s nodes).1.2.
Proof.
  intros Hc Hwalk Hstored.
  assert (Hrem : forall batch,
             (forall item, item ∈ batch -> itemLookup s !! item_id item = Some item) ->
             consistent m (RemoveMonitorItems env s batch).1.2).
  { intros batch Hbatch.
    destruct (RemoveMonitorItems env s batch) as [[err s'] calls] eqn:E.
    apply RemoveMonitorItems_prefix in E as (gone & Hpre & ->). simpl.
    apply consistent_delete_all; [exact Hc|].
    intros item Hin. apply Hbatch. by eapply elem_of_prefix. }
  split; [by apply Hrem|].
  unfold RemoveNodeIDs. destruct nodes as [|node rest]; [exact Hc|].
  apply Hrem. intros item Hin. by eapply resolve_nodes_stored.
Qed.

(** X9 at a subscription that watches A and B: after the removal of B, and
    of B named twice, the indices are consistent. *)
Lemma removal_keeps_indices_consistent_witness :
  consistent (set_nextClientHandle NewNodeMonitor 102)
    (RemoveMonitorItems (Examples.env_rejecting []) Examples.subAB
       [MoreExamples.itemB; MoreExamples.itemB]).1.2 /\
  consistent (set_nextClientHandle NewNodeMonitor 102)
    (RemoveNodeIDs (Examples.env_rejecting []) Examples.subAB [Examples.nodeB]).1.2.
Proof.
  apply (removal_keeps_indices_consistent (Examples.env_rejecting [])
           (set_nextClientHandle NewNodeMonitor 102) Examples.subAB
           [MoreExamples.itemB; MoreExamples.itemB] [Examples.nodeB]).
  - apply subAB_consistent.
  - intros il. reflexivity.
  - intros item Hin. apply elem_of_cons in Hin as [->|Hin].
    + vm_compute. reflexivity.
    + apply list_elem_of_singleton in Hin as ->. vm_compute. reflexivity.
Defined.

End ConsistentTheorems.

(** * Further properties: removing by node, modifying, setting the mode *)

Lemma first_bad_status_None (results : list Z) :
  SubscriptionGo.first_bad_status results = None <->
  Forall (fun status => status = StatusOK) results.
Proof.
  induction results as [|res rest IH]; simpl.
  - split; [constructor|reflexivity].
  - destruct (Z.eqb_spec res StatusOK) as [->|Hne]; simpl.
    + rewrite IH. split; [by constructor|]. by inversion 1.
    + split; [discriminate|]. inversion 1; subst. contradiction.
Qed.

(** The verdict on an answer of the transport is "no error" exactly when
    the RPC came back with an OK service result and one OK status per
    item. *)
Lemma check_response_None (op : string) (expected : nat) (resp : error + StatusListResponse) :
  SubscriptionGo.check_response op expected resp = None <->
  exists r, resp = inr r /\ all_accepted expected r.
Proof.
  unfold SubscriptionGo.check_response, all_accepted. destruct resp as [e|r].
  - split; [discriminate|]. by intros (r & [=] & _).
  - destruct (Z.eqb_spec (ServiceResult r) StatusOK) as [Hs|Hs]; simpl.
    + destruct (Nat.eqb_spec (length (Results r)) expected) as [Hl|Hl]; simpl.
      * rewrite first_bad_status_None. split.
        -- intros H. by exists r.
        -- by intros (r' & [= <-] & _ & _ & H).
      * split; [discriminate|]. intros (r' & [= <-] & _ & H & _). contradiction.
    + split; [discriminate|]. intros (r' & [= <-] & H & _). contradiction.
Qed.

Section MutationFacts.
Import SubscriptionGo.

Lemma resolve_nodes_unwatched env il nodes :
  walks_the_map env ->
  (forall node id item, node ∈ nodes -> il !! id = Some item ->
                        NodeID_String (item_nodeID item) <> NodeID_String node) ->
  resolve_nodes env il nodes = [].
Proof.
  intros Hwalk. induction nodes as [|node rest IH]; intros Hnot; [reflexivity|].
  simpl. rewrite (find_item_unwatched env il node Hwalk).
  - apply IH. intros n id item Hn. apply Hnot. by right.
  - intros id item. apply Hnot. by left.
Qed.

Lemma modify_requests_unwatched env il mem nodes :
  walks_the_map env ->
  (forall node id item, node ∈ nodes -> il !! id = Some item ->
                        NodeID_String (item_nodeID item) <> NodeID_String (req_NodeID node)) ->
  modify_requests env il mem nodes = (mem, []).
Proof.
  intros Hwalk. induction nodes as [|node rest IH]; intros Hnot; [reflexivity|].
  simpl. rewrite (find_item_unwatched env il (req_NodeID node) Hwalk).
  - apply IH. intros n id item Hn. apply Hnot. by right.
  - intros id item. apply Hnot. by left.
Qed.

End MutationFacts.

Section MutationTheorems.
Import SubscriptionGo.

(** X10: [RemoveNodeIDs] of a watched node unwatches exactly one item.
    With consistent indices, removing a node that some item carries picks
    one item of that node (also when several items carry it, as after
    adding the node twice), makes one unmonitor RPC with the id of that
    item, and whatever the answer deletes the item and its handle: the
    watched-count goes down by one and a later change record for that
    handle gets the handle-not-found message. *)
Theorem RemoveNodeIDs_unwatches_one_item env m s node id0 item0 :
  consistent m s ->
  walks_the_map env ->
  itemLookup s !! id0 = Some item0 ->
  NodeID_String (item_nodeID item0) = NodeID_String node ->
  exists item,
    itemLookup s !! item_id item = Some item /\
    NodeID_String (item_nodeID item) = NodeID_String node /\
    RemoveNodeIDs env s [node] =
      (check_response "unmonitor items" 1 (sub_Unmonitor env [item_id item]),
       set_indices s (delete (item_handle item) (handles s))
                     (delete (item_id item) (itemLookup s)),
       [CallUnmonitor [item_id item]]) /\
    Subscribed (RemoveNodeIDs env s [node]).1.2 = pred (Subscribed s) /\
    forall value,
      message_of (handles (RemoveNodeIDs env s [node]).1.2)
        {| min_ClientHandle := item_handle item; min_Value := value |}
      = miss_message (item_handle item).
Proof.
  intros Hc Hwalk Hin0 Hnode0.
  destruct (find_item env (itemLookup s) node) as [item|] eqn:Hfind.
  2:{ exfalso. unfold find_item in Hfind.
      pose proof (find_none _ _ Hfind item0) as Hf.
      rewrite bool_decide_eq_false in Hf. apply Hf; [|exact Hnode0].
      apply list_elem_of_In. rewrite (Hwalk (itemLookup s)).
      apply list_elem_of_fmap. exists (id0, item0). split; [reflexivity|].
      by apply elem_of_map_to_list. }
  destruct (find_item_stored env m s node item Hc Hwalk Hfind) as [Hstored Hnode].
  destruct Hc as (_ & _ & Hitems & _).
  destruct (Hitems _ _ Hstored) as [_ Hhandle].
  assert (Heq : RemoveNodeIDs env s [node] =
      (check_response "unmonitor items" 1 (sub_Unmonitor env [item_id item]),
       set_indices s (delete (item_handle item) (handles s))
                     (delete (item_id item) (itemLookup s)),
       [CallUnmonitor [item_id item]])).
  { unfold RemoveNodeIDs. simpl. rewrite Hfind.
    unfold RemoveMonitorItems. simpl. by rewrite Hstored. }
  exists item. split; [exact Hstored|]. split; [exact Hnode|]. split; [exact Heq|].
  rewrite Heq. simpl. split.
  - unfold Subscribed. simpl. apply map_size_delete_Some. by eexists.
  - intros value. unfold message_of. simpl. by rewrite lookup_delete_eq.
Qed.

(** X10 at a subscription that watches A and B, asked to remove B. *)
Lemma RemoveNodeIDs_unwatches_one_item_witness :
  exists item,
    itemLookup Examples.subAB !! item_id item = Some item /\
    NodeID_String (item_nodeID item) = NodeID_String Examples.nodeB /\
    RemoveNodeIDs (Examples.env_rejecting []) Examples.subAB [Examples.nodeB] =
      (check_response "unmonitor items" 1
         (sub_Unmonitor (Examples.env_rejecting []) [item_id item]),
       set_indices Examples.subAB (delete (item_handle item) (handles Examples.subAB))
                     (delete (item_id item) (itemLookup Examples.subAB)),
       [CallUnmonitor [item_id item]]) /\
    Subscribed (RemoveNodeIDs (Examples.env_rejecting []) Examples.subAB
                  [Examples.nodeB]).1.2 = pred (Subscribed Examples.subAB) /\
    forall value,
      message_of (handles (RemoveNodeIDs (Examples.env_rejecting []) Examples.subAB
                             [Examples.nodeB]).1.2)
        {| min_ClientHandle := item_handle item; min_Value := value |}
      = miss_message (item_handle item).
Proof.
  apply (RemoveNodeIDs_unwatches_one_item (Examples.env_rejecting [])
           (set_nextClientHandle NewNodeMonitor 102) Examples.subAB Examples.nodeB
           2 MoreExamples.itemB).
  - apply subAB_consistent.
  - intros il. reflexivity.
  - vm_compute. reflexivity.
  - reflexivity.
Defined.

(** X11: a mutation returns no error exactly when the transport accepted
    everything.  For a non-empty batch, [SetMonitoringMode] and
    [ModifyMonitorItems] make one RPC and return [nil] if and only if the
    RPC came back without error, with an OK service result, with as many
    results as items sent and with every result OK; they never change the
    subscription. *)
Theorem mutation_succeeds_iff_all_accepted env s mem monitoringMode items nodes :
  items <> [] ->
  nodes <> [] ->
  ((SetMonitoringMode env s monitoringMode items).1.1 = None <->
   exists r, sub_SetMonitoringMode env monitoringMode (map item_id items) = inr r /\
             all_accepted (length items) r) /\
  (SetMonitoringMode env s monitoringMode items).1.2 = s /\
  (SetMonitoringMode env s monitoringMode items).2
    = [CallSetMonitoringMode monitoringMode (map item_id items)] /\
  ((ModifyMonitorItems env s mem nodes).1.1.1 = None <->
   exists r, sub_ModifyMonitoredItems env (modify_sent env (itemLookup s) mem nodes) = inr r /\
             all_accepted (length (modify_sent env (itemLookup s) mem nodes)) r) /\
  (ModifyMonitorItems env s mem nodes).1.2 = s /\
  (ModifyMonitorItems env s mem nodes).2
    = [CallModifyMonitoredItems (modify_sent env (itemLookup s) mem nodes)].
Proof.
  intros Hi Hn. destruct items as [|item rest]; [done|]. destruct nodes as [|node more]; [done|].
  unfold SetMonitoringMode, ModifyMonitorItems, modify_sent.
  destruct (modify_requests env (itemLookup s) mem (node :: more)) as [mem1 toModify].
  cbn [fst snd].
  rewrite !check_response_None, !length_map. done.
Qed.

(** X11 at a server that accepts everything and at one whose RPC fails. *)
Lemma mutation_succeeds_iff_all_accepted_witness :
  (SetMonitoringMode (Examples.env_rejecting []) Examples.subAB MonitoringModeReporting
     [MoreExamples.itemA; MoreExamples.itemB]).1.1 = None /\
  (ModifyMonitorItems (Examples.env_rejecting []) Examples.subAB MoreRuns.params999
     [MoreRuns.watchA_with_parameters]).2
    = [CallModifyMonitoredItems
         [{| mmr_MonitoredItemID := 1;
             mmr_RequestedParameters := {| mp_ClientHandle := 101; mp_settings := 5 |} |}]].
Proof.
  destruct (mutation_succeeds_iff_all_accepted (Examples.env_rejecting []) Examples.subAB
              MoreRuns.params999
              MonitoringModeReporting [MoreExamples.itemA; MoreExamples.itemB]
              [MoreRuns.watchA_with_parameters])
    as (H1 & _ & _ & _ & _ & H2).
  - discriminate.
  - discriminate.
  - split.
    + apply H1. eexists. split; [reflexivity|].
      split; [reflexivity|]. split; [reflexivity|]. repeat constructor.
    + rewrite H2. vm_compute. reflexivity.
Defined.

(** X12: nodes that the subscription does not watch are skipped in
    silence.  For a non-empty list of nodes none of which is carried by an
    item, [RemoveNodeIDs] and [SetMonitoringModeForNodeIDs] return [nil]
    without any transport call, while [ModifyMonitorItems] still makes its
    RPC, with no request in it; none of them changes the subscription. *)
Theorem unwatched_nodes_are_skipped env s mem monitoringMode nodes :
  walks_the_map env ->
  nodes <> [] ->
  (forall node id item, node ∈ nodes -> itemLookup s !! id = Some item ->
                        NodeID_String (item_nodeID item) <> NodeID_String (req_NodeID node)) ->
  RemoveNodeIDs env s (map req_NodeID nodes) = (None, s, []) /\
  SetMonitoringModeForNodeIDs env s monitoringMode (map req_NodeID nodes) = (None, s, []) /\
  ModifyMonitorItems env s mem nodes =
    (check_response "modify monitored items" 0 (sub_ModifyMonitoredItems env []),
     mem, s, [CallModifyMonitoredItems []]).
Proof.
  intros Hwalk Hne Hnot.
  assert (Hres : resolve_nodes env (itemLookup s) (map req_NodeID nodes) = []).
  { apply resolve_nodes_unwatched; [exact Hwalk|].
    intros node id item Hin. apply list_elem_of_fmap in Hin as (rq & -> & Hrq).
    by apply Hnot. }
  destruct nodes as [|node rest]; [done|].
  unfold RemoveNodeIDs, SetMonitoringModeForNodeIDs, ModifyMonitorItems.
  cbn [map]. cbn [map] in Hres. rewrite Hres.
  rewrite (modify_requests_unwatched env (itemLookup s) mem (node :: rest) Hwalk Hnot).
  done.
Qed.

(** X12 at a subscription that watches A and B, asked about C. *)
Lemma unwatched_nodes_are_skipped_witness :
  SetMonitoringModeForNodeIDs (Examples.env_rejecting []) Examples.subAB
    MonitoringModeReporting [Examples.nodeC] = (None, Examples.subAB, []) /\
  ModifyMonitorItems (Examples.env_rejecting []) Examples.subAB no_params
    [Examples.watch Examples.nodeC]
    = (None, no_params, Examples.subAB, [CallModifyMonitoredItems []]).
Proof.
  destruct (unwatched_nodes_are_skipped (Examples.env_rejecting []) Examples.subAB
              no_params MonitoringModeReporting [Examples.watch Examples.nodeC])
    as (_ & H2 & H3).
  - intros il. reflexivity.
  - discriminate.
  - intros node id item Hnode Hin. apply list_elem_of_singleton in Hnode as ->.
    apply elem_of_map_to_list in Hin. vm_compute in Hin.
    apply elem_of_cons in Hin as [[= _ ->]|Hin]; [discriminate|].
    apply elem_of_cons in Hin as [[= _ ->]|Hin]; [discriminate|].
    by apply elem_of_nil in Hin.
  - split; [exact H2|]. rewrite H3. reflexivity.
Defined.

End MutationTheorems.

(** * Further properties: the pumps *)

Section PumpMoreFacts.
Import SubscriptionGo.

(** In callback mode every record is given to the callback, in order. *)
Lemma dispatch_items_callback m items :
  forall s,
    exists s',
      dispatch_items m s None true items =
        Normal (s', None, map CallbackCalled (map (message_of (handles s)) items)) /\
      counts s s' None None (length items) 0.
Proof.
  induction items as [|item rest IH]; intros s.
  - exists s. split; [reflexivity|]. apply counts_refl.
  - simpl. destruct (IH (add_delivered s)) as (s' & -> & Hc).
    exists s'. split; [reflexivity|].
    change (S (length rest)) with (1 + length rest)%nat.
    change 0%nat with (0 + 0)%nat.
    eapply counts_trans; [apply (counts_delivered s None None); done|exact Hc].
Qed.

Lemma never_full_frame s s' input :
  same_frame s s' -> never_full s' input = never_full s input.
Proof.
  intros (_ & Hcap & _). destruct input; try reflexivity.
  unfold never_full, slow_consumer. by rewrite Hcap.
Qed.

Lemma never_full_all_frame s s' inputs :
  same_frame s s' -> forallb (never_full s') inputs = forallb (never_full s) inputs.
Proof.
  intros H. induction inputs as [|input rest IH]; simpl; [reflexivity|].
  by rewrite IH, (never_full_frame _ _ _ H).
Qed.

(** The pump of [subscription.go] stops at the first signal. *)
Lemma pump_stop m cb pre stop post :
  is_stop stop = true ->
  forall s notifyCh,
    pump m s notifyCh cb (pre ++ stop :: post) = pump m s notifyCh cb (pre ++ [stop]) /\
    (forall st s' ch' eff,
       pump m s notifyCh cb (pre ++ stop :: post) = Normal (st, s', ch', eff) ->
       st = Returned).
Proof.
  intros Hstop. induction pre as [|input rest IH]; intros s0 ch0.
  - destruct stop; try discriminate; simpl; (split; [reflexivity|]);
      by intros st s' ch' eff [= <- <- <- <-].
  - destruct input as [| |queued msg|]; simpl.
    + split; [reflexivity|]. by intros st s' ch' eff [= <- <- <- <-].
    + split; [reflexivity|]. by intros st s' ch' eff [= <- <- <- <-].
    + destruct (pump_notification m s0 ch0 cb queued msg) as [[[sa cha] effa]|];
        [|split; [reflexivity|discriminate]].
      destruct (IH sa cha) as [Heq Hret].
      split; [by rewrite Heq|].
      intros st s' ch' eff H.
      destruct (pump m sa cha cb (rest ++ stop :: post)) as [[[[stb sb] chb] effb]|] eqn:E;
        [|discriminate].
      injection H as <- <- <- <-. by eapply Hret.
    + apply IH.
Qed.

End PumpMoreFacts.

Section PumpMoreFactsV1.
Import MonitorGo.

Lemma dispatch_items_id_v1 m items :
  forall s s' eff, dispatch_items m s items = (s', eff) -> SubscriptionID s' = SubscriptionID s.
Proof.
  induction items as [|item rest IH]; intros s s' eff H; simpl in H.
  - by injection H as <- <-.
  - destruct (deliver m s (message_of (handles s) item)) as [s1 eff1] eqn:Ed.
    destruct (dispatch_items m s1 rest) as [s2 eff2] eqn:Er.
    injection H as <- <-. rewrite (IH _ _ _ Er).
    unfold deliver in Ed. destruct (notifyCh s) as [c|].
    + destruct (try_send c _); by injection Ed as <- <-.
    + by injection Ed as <- <-.
Qed.

(** The pump of [monitor.go] stops at the first signal. *)
Lemma pump_stop_v1 m pre stop post :
  is_stop stop = true ->
  forall s,
    pump m s (pre ++ stop :: post) = pump m s (pre ++ [stop]) /\
    (forall st s' eff, pump m s (pre ++ stop :: post) = Normal (st, s', eff) -> st = Returned).
Proof.
  intros Hstop. induction pre as [|input rest IH]; intros s0.
  - destruct stop; try discriminate; simpl; (split; [reflexivity|]);
      by intros st s' eff [= <- <- <-].
  - destruct input as [| |queued msg|]; simpl.
    + split; [reflexivity|]. by intros st s' eff [= <- <- <-].
    + split; [reflexivity|]. by intros st s' eff [= <- <- <-].
    + destruct (pump_notification m s0 msg) as [[sa effa]|];
        [|split; [reflexivity|discriminate]].
      destruct (IH sa) as [Heq Hret].
      split; [by rewrite Heq|].
      intros st s' eff H.
      destruct (pump m sa (rest ++ stop :: post)) as [[[stb sb] effb]|] eqn:E;
        [|discriminate].
      injection H as <- <- <-. by eapply Hret.
    + apply IH.
Qed.

End PumpMoreFactsV1.

Section PumpMoreTheorems.
Import SubscriptionGo.

(** X13: a pump stops at the first signal and looks at nothing after it.
    Whatever follows a cancelled context or a closed subscription in the
    inputs has no effect: no record of a later notification is delivered,
    dropped or counted, and a pump that comes back from inputs that hold a
    signal has returned.  This holds for the pumps of both revisions. *)
Theorem pump_stops_at_first_signal m s notifyCh cb m1 s1 pre stop post :
  is_stop stop = true ->
  pump m s notifyCh cb (pre ++ stop :: post) = pump m s notifyCh cb (pre ++ [stop]) /\
  (forall st s' ch' eff,
     pump m s notifyCh cb (pre ++ stop :: post) = Normal (st, s', ch', eff) ->
     st = Returned) /\
  MonitorGo.pump m1 s1 (pre ++ stop :: post) = MonitorGo.pump m1 s1 (pre ++ [stop]) /\
  (forall st s' eff,
     MonitorGo.pump m1 s1 (pre ++ stop :: post) = Normal (st, s', eff) -> st = Returned).
Proof.
  intros Hstop.
  destruct (pump_stop m cb pre stop post Hstop s notifyCh) as [A B].
  destruct (pump_stop_v1 m1 pre stop post Hstop s1) as [C D].
  done.
Qed.

(** X13 at a closed signal between two notifications for A and B: only the
    records of the first one reach the callback. *)
Lemma pump_stops_at_first_signal_witness :
  exists s',
    pump Examples.monitor_with_handler Examples.subAB_callback None true
      [Notification 0 Examples.notifyAB; ClosedSignal; Notification 0 Examples.notifyAB]
    = Normal (Returned, s', None,
              [CallbackCalled (hit_message Examples.nodeA (Some (mkDataValue 11)));
               CallbackCalled (hit_message Examples.nodeB (Some (mkDataValue 22)))]) /\
    Delivered s' = 2.
Proof.
  destruct (pump_stops_at_first_signal Examples.monitor_with_handler Examples.subAB_callback
              None true ExamplesV1.monitor_with_handler (ExamplesV1.subAB 1)
              [Notification 0 Examples.notifyAB] ClosedSignal
              [Notification 0 Examples.notifyAB]) as (H & _).
  - reflexivity.
  - simpl app in H. rewrite H. eexists. split; vm_compute; reflexivity.
Defined.

(** X14: in callback mode the records reach the callback in the order of
    arrival.  When the inputs are data change notifications for the
    subscription and none of them arrives on a full internal buffer, the
    pump calls the callback once per record, in the order of the
    notifications and of the records within each, with the message built
    from the handles index; it calls nothing else, [delivered] grows by the
    number of records and [dropped] stays. *)
Theorem callback_mode_delivers_in_order m s inputs :
  forallb (is_data_change (SubscriptionID s)) inputs = true ->
  forallb (never_full s) inputs = true ->
  exists s',
    pump m s None true inputs =
      Normal (Waiting, s', None,
              map CallbackCalled (map (message_of (handles s)) (all_records inputs))) /\
    Delivered s' = bump (Delivered s) (length (all_records inputs)) /\
    Dropped s' = Dropped s /\
    handles s' = handles s.
Proof.
  revert s. induction inputs as [|input rest IH]; intros s Hall Hfull.
  - exists s. by repeat split.
  - simpl in Hall, Hfull.
    apply andb_prop in Hall as [Hin Hrest]. apply andb_prop in Hfull as [Hnf Hfrest].
    destruct input as [| |queued msg|]; try discriminate.
    unfold is_data_change in Hin.
    destruct (pnd_Error msg) eqn:Herr; [discriminate|].
    destruct (pnd_Value msg) as [items|] eqn:Hval; [|discriminate].
    simpl in Hnf. apply negb_true_iff in Hnf. unfold slow_consumer in Hnf.
    simpl pump. unfold pump_notification. rewrite Herr, Hin, Hval. simpl negb.
    cbn iota. rewrite Hnf.
    destruct (dispatch_items_callback m items s) as (s1 & -> & (Hd1 & Hp1 & Hf1 & _)).
    destruct (IH s1) as (s2 & -> & Hd2 & Hp2 & Hh2).
    { destruct Hf1 as (Hid & _). by rewrite Hid. }
    { rewrite <- Hfrest. by apply never_full_all_frame. }
    destruct Hf1 as (_ & _ & _ & Hh1 & _).
    exists s2. simpl all_records. unfold records_of. rewrite Hval. rewrite Hh1.
    rewrite length_app, bump_add, !map_app.
    unfold Delivered, Dropped in *. rewrite Hd2, Hp2, Hh2, Hd1, Hp1, Hh1.
    done.
Qed.

(** X14 at two notifications for A and B. *)
Lemma callback_mode_delivers_in_order_witness :
  exists s',
    pump Examples.monitor_with_handler Examples.subAB_callback None true
      [Notification 0 Examples.notifyAB; Notification 1 Examples.notifyAB]
    = Normal (Waiting, s', None,
              map CallbackCalled
                (map (message_of (handles Examples.subAB_callback))
                   [Examples.changeA; Examples.changeB; Examples.changeA; Examples.changeB])) /\
    Delivered s' = 4 /\ Dropped s' = 0.
Proof.
  destruct (callback_mode_delivers_in_order Examples.monitor_with_handler
              Examples.subAB_callback
              [Notification 0 Examples.notifyAB; Notification 1 Examples.notifyAB])
    as (s' & H & Hd & Hp & _).
  - reflexivity.
  - vm_compute. reflexivity.
  - exists s'. split; [exact H|]. split; [exact Hd | exact Hp].
Defined.

End PumpMoreTheorems.

(** * Further properties: closing, panicking *)

Section PanicFacts.
Import SubscriptionGo.

Lemma dispatch_items_panic m cb items :
  forall s ch p,
    dispatch_items m s ch cb items = Panicked p -> p = "notifyCh or cb must be set".
Proof.
  induction items as [|item rest IH]; intros s ch p H; simpl in H; [discriminate|].
  destruct (deliver m s ch cb (message_of (handles s) item)) as [[[s1 ch1] eff1]|q] eqn:Ed.
  - destruct (dispatch_items m s1 ch1 cb rest) as [[[s2 ch2] eff2]|q] eqn:Er; [discriminate|].
    injection H as <-. by eapply IH.
  - injection H as <-. unfold deliver in Ed.
    destruct ch as [c|]; [destruct (try_send c _); discriminate|].
    destruct cb; [discriminate|]. by injection Ed as <-.
Qed.

Lemma pump_panic m cb inputs :
  forall s ch p,
    pump m s ch cb inputs = Panicked p -> p = "notifyCh or cb must be set".
Proof.
  induction inputs as [|input rest IH]; intros s ch p H; simpl in H; [discriminate|].
  destruct input as [| |queued msg|]; try discriminate.
  - destruct (pump_notification m s ch cb queued msg) as [[[s1 ch1] eff1]|q] eqn:En.
    + destruct (pump m s1 ch1 cb rest) as [[[[st s2] ch2] eff2]|q] eqn:Er; [discriminate|].
      injection H as <-. by eapply IH.
    + injection H as <-. unfold pump_notification in En.
      destruct (pnd_Error msg); [discriminate|].
      destruct (negb (pnd_SubscriptionID msg =? SubscriptionID s)); [discriminate|].
      destruct (cb && (0 <? internalNotifyCh_cap s)%nat && (queued =? internalNotifyCh_cap s)%nat);
        [discriminate|].
      destruct (pnd_Value msg); [|discriminate].
      by eapply dispatch_items_panic.
  - by eapply IH.
Qed.

End PanicFacts.

Section PanicFactsV1.
Import MonitorGo.

Lemma pump_notification_id_v1 m s msg s' eff :
  pump_notification m s msg = Normal (s', eff) -> SubscriptionID s' = SubscriptionID s.
Proof.
  unfold pump_notification. intros H.
  destruct (pnd_Error msg); [by injection H as <- <-|].
  destruct (negb (pnd_SubscriptionID msg =? SubscriptionID s)); [discriminate|].
  destruct (pnd_Value msg) as [items|ty]; [|by injection H as <- <-].
  destruct (dispatch_items m s items) as [s1 eff1] eqn:Ed.
  injection H as <- <-. by eapply dispatch_items_id_v1.
Qed.

Lemma pump_panic_v1 m inputs :
  forall s p, pump m s inputs = Panicked p -> p = "wtf!?".
Proof.
  induction inputs as [|input rest IH]; intros s p H; simpl in H; [discriminate|].
  destruct input as [| |queued msg|]; try discriminate.
  - destruct (pump_notification m s msg) as [[s1 eff1]|q] eqn:En.
    + destruct (pump m s1 rest) as [[[st s2] eff2]|q] eqn:Er; [discriminate|].
      injection H as <-. by eapply IH.
    + injection H as <-. unfold pump_notification in En.
      destruct (pnd_Error msg); [discriminate|].
      destruct (negb (pnd_SubscriptionID msg =? SubscriptionID s)); [by injection En|].
      destruct (pnd_Value msg); discriminate.
  - by eapply IH.
Qed.

Lemma pump_safe_v1 m inputs :
  forall s,
    Forall (safe_for_monitor_go (SubscriptionID s)) inputs ->
    exists st s' eff, pump m s inputs = Normal (st, s', eff).
Proof.
  induction inputs as [|input rest IH]; intros s Hsafe; simpl.
  - by eauto.
  - apply Forall_cons in Hsafe as [Hin Hrest].
    destruct input as [| |queued msg|]; [by eauto|by eauto| |].
    + assert (Hn : exists s1 eff1, pump_notification m s msg = Normal (s1, eff1)).
      { unfold pump_notification. simpl in Hin.
        destruct (pnd_Error msg); [by eauto|]. rewrite Hin, Z.eqb_refl. simpl.
        destruct (pnd_Value msg) as [items|ty]; [|by eauto].
        destruct (dispatch_items m s items) as [sd effd]. by eauto. }
      destruct Hn as (s1 & eff1 & Hn). rewrite Hn.
      destruct (IH s1) as (st & s2 & eff2 & ->); [|by eauto].
      by rewrite (pump_notification_id_v1 _ _ _ _ _ Hn).
    + apply IH. exact Hrest.
Qed.

End PanicFactsV1.

Section LifecycleMoreTheorems.
Import SubscriptionGo.

(** X15: closing does not disable the mutations.  [Unsubscribe] marks the
    subscription closed, but no mutation looks at that mark: on a closed
    subscription [AddMonitorItems] and [RemoveMonitorItems] allocate
    handles, call the transport and change the indices exactly as on an
    open one, and so do [AddNodeIDs] and [RemoveNodeIDs] of [monitor.go]. *)
Theorem mutations_ignore_closed env m s mem nodes items env1 m1 s1 nodes1 :
  AddMonitorItems env m (set_closed s) mem nodes =
    ((AddMonitorItems env m s mem nodes).1.1.1.1, (AddMonitorItems env m s mem nodes).1.1.1.2,
     (AddMonitorItems env m s mem nodes).1.1.2,
     set_closed (AddMonitorItems env m s mem nodes).1.2,
     (AddMonitorItems env m s mem nodes).2) /\
  RemoveMonitorItems env (set_closed s) items =
    ((RemoveMonitorItems env s items).1.1, set_closed (RemoveMonitorItems env s items).1.2,
     (RemoveMonitorItems env s items).2) /\
  MonitorGo.AddNodeIDs env1 m1 (MonitorGo.set_closed s1) nodes1 =
    ((MonitorGo.AddNodeIDs env1 m1 s1 nodes1).1.1.1,
     (MonitorGo.AddNodeIDs env1 m1 s1 nodes1).1.1.2,
     MonitorGo.set_closed (MonitorGo.AddNodeIDs env1 m1 s1 nodes1).1.2,
     (MonitorGo.AddNodeIDs env1 m1 s1 nodes1).2) /\
  MonitorGo.RemoveNodeIDs env1 (MonitorGo.set_closed s1) nodes1 =
    ((MonitorGo.RemoveNodeIDs env1 s1 nodes1).1.1,
     MonitorGo.set_closed (MonitorGo.RemoveNodeIDs env1 s1 nodes1).1.2,
     (MonitorGo.RemoveNodeIDs env1 s1 nodes1).2).
Proof.
  split; [|split; [|split]].
  - unfold AddMonitorItems. destruct nodes as [|node rest]; [reflexivity|].
    change (handles (set_closed s)) with (handles s).
    change (itemLookup (set_closed s)) with (itemLookup s).
    destruct (reserve env (nextClientHandle m) (handles s) mem (node :: rest))
      as [[[[next hs] mem1] nodes'] toAdd].
    destruct (sub_Monitor env (map (read_create mem1) toAdd)) as [e|resp]; [reflexivity|].
    destruct (negb (create_ServiceResult resp =? StatusOK)); [reflexivity|].
    destruct (negb (length (create_Results resp) =? length toAdd)%nat); [reflexivity|].
    by destruct (commit 0 (create_Results resp) nodes' toAdd (itemLookup s) []).
  - unfold RemoveMonitorItems. destruct items as [|item rest]; [reflexivity|].
    change (handles (set_closed s)) with (handles s).
    change (itemLookup (set_closed s)) with (itemLookup s).
    destruct (remove_loop (item :: rest) (handles s) (itemLookup s) [])
      as [[[e hs] il] toRemove].
    by destruct e.
  - unfold MonitorGo.AddNodeIDs.
    change (MonitorGo.handles (MonitorGo.set_closed s1)) with (MonitorGo.handles s1).
    change (MonitorGo.nodeLookup (MonitorGo.set_closed s1)) with (MonitorGo.nodeLookup s1).
    by destruct (MonitorGo.reserve env1 (MonitorGo.nextClientHandle m1) (MonitorGo.handles s1)
                   (MonitorGo.nodeLookup s1) nodes1) as [[[next hs] nl] toAdd].
  - unfold MonitorGo.RemoveNodeIDs.
    change (MonitorGo.handles (MonitorGo.set_closed s1)) with (MonitorGo.handles s1).
    change (MonitorGo.nodeLookup (MonitorGo.set_closed s1)) with (MonitorGo.nodeLookup s1).
    destruct (MonitorGo.remove_loop 0 nodes1 (MonitorGo.handles s1) (MonitorGo.nodeLookup s1)
                (replicate (length nodes1) 0)) as [[[e hs] nl] toRemove].
    by destruct e.
Qed.

(** X16: the pumps panic only where the code says so.  The pump of
    [monitor.go] comes back from every sequence of inputs whose
    notifications carry a transport error or the id of the subscription,
    and when it panics the message is that of the id check; the pump of
    [subscription.go] panics only with the message of the missing
    consumer, and only when it was started with neither channel nor
    callback. *)
Theorem pumps_panic_only_as_written m s notifyCh cb m1 s1 inputs :
  Forall (safe_for_monitor_go (MonitorGo.SubscriptionID s1)) inputs ->
  (exists st s' eff, MonitorGo.pump m1 s1 inputs = Normal (st, s', eff)) /\
  (forall other p, MonitorGo.pump m1 s1 other = Panicked p -> p = "wtf!?") /\
  (forall other p,
     pump m s notifyCh cb other = Panicked p ->
     p = "notifyCh or cb must be set" /\ notifyCh = None /\ cb = false).
Proof.
  intros Hsafe. split; [by apply pump_safe_v1|]. split.
  - intros other p. apply pump_panic_v1.
  - intros other p H. split; [by eapply pump_panic|].
    destruct notifyCh as [c|].
    + destruct (pump_counts m cb other s (Some c)) as (st & s' & ch' & eff & a & b & H' & _);
        [left; by eexists|congruence].
    + destruct cb; [|done].
      destruct (pump_counts m true other s None) as (st & s' & ch' & eff & a & b & H' & _);
        [by right|congruence].
Qed.

(** X16 at a pump of [monitor.go] that receives a transport error and then
    a notification for A and B. *)
Lemma pumps_panic_only_as_written_witness :
  exists st s' eff,
    MonitorGo.pump ExamplesV1.monitor_with_handler (ExamplesV1.subAB 2)
      [Notification 0 {| pnd_SubscriptionID := 8; pnd_Error := Some (ErrExternal "EOF");
                         pnd_Value := OtherNotification "nil" |};
       Notification 0 Examples.notifyAB] = Normal (st, s', eff).
Proof.
  apply (pumps_panic_only_as_written Examples.monitor_with_handler Examples.subAB None false
           ExamplesV1.monitor_with_handler (ExamplesV1.subAB 2)).
  repeat constructor.
Defined.

End LifecycleMoreTheorems.

(** * Further properties: [monitor.go] *)

Section MonitorGoFacts.
Import MonitorGo.

(** The loop of [RemoveNodeIDs] on nodes that are all in the node index,
    under pairwise distinct string forms: it fills [toRemove] from index
    [i] on with the handles of the nodes and deletes both entries of each. *)
Lemma remove_loop_present_v1 (nodes : list NodeID) :
  forall i hs nl toRemove,
    NoDup (map NodeID_String nodes) ->
    (forall node, node ∈ nodes -> is_Some (nl !! NodeID_String node)) ->
    length toRemove = (i + length nodes)%nat ->
    exists sent hs' nl',
      remove_loop i nodes hs nl toRemove = (None, hs', nl', take i toRemove ++ sent) /\
      Forall2 (fun node h => nl !! NodeID_String node = Some h) nodes sent /\
      hs' = delete_all sent hs /\
      (forall sid, nl' !! sid =
                   if decide (sid ∈ map NodeID_String nodes) then None else nl !! sid).
Proof.
  induction nodes as [|node rest IH]; intros i hs nl toRemove Hnd Hin Hlen.
  - exists [], hs, nl. simpl. rewrite app_nil_r, take_ge by (simpl in Hlen; lia).
    by split_and!.
  - simpl in Hnd. apply NoDup_cons in Hnd as [Hnotin Hnd].
    destruct (Hin node) as [h Hh]; [by left|].
    simpl remove_loop. rewrite Hh.
    destruct (IH (S i) (delete h hs) (delete (NodeID_String node) nl) (<[i:=h]> toRemove))
      as (sent & hs' & nl' & -> & Hall & -> & Hnl).
    + exact Hnd.
    + intros other Hother. rewrite lookup_delete_ne.
      * apply Hin. by right.
      * intros Heq. apply Hnotin. rewrite Heq. by apply list_elem_of_fmap_2.
    + rewrite length_insert. simpl in Hlen. lia.
    + exists (h :: sent), (delete_all sent (delete h hs)), nl'.
      split_and!.
      * f_equal. rewrite (take_S_r _ _ h).
        -- rewrite take_insert_ge by lia. by rewrite <- app_assoc.
        -- apply list_lookup_insert_eq. simpl in Hlen. lia.
      * constructor; [exact Hh|].
        eapply Forall2_impl; [exact Hall|]. intros x y Hxy. simpl in Hxy |- *.
        destruct (decide (NodeID_String x = NodeID_String node)) as [Heq|Hne].
        -- rewrite Heq, lookup_delete_eq in Hxy. discriminate.
        -- by rewrite lookup_delete_ne in Hxy.
      * reflexivity.
      * intros sid. rewrite Hnl. simpl.
        destruct (decide (sid ∈ map NodeID_String rest)) as [Hr|Hr].
        -- destruct (decide (sid ∈ NodeID_String node :: map NodeID_String rest)) as [_|Hn];
             [reflexivity|]. exfalso. apply Hn. by right.
        -- destruct (decide (sid = NodeID_String node)) as [->|Hne].
           ++ rewrite lookup_delete_eq.
              destruct (decide (NodeID_String node ∈
                                NodeID_String node :: map NodeID_String rest)) as [_|Hn];
                [reflexivity|]. exfalso. apply Hn. by left.
           ++ rewrite lookup_delete_ne by done.
              destruct (decide (sid ∈ NodeID_String node :: map NodeID_String rest))
                as [[?|?]%elem_of_cons|_]; done.
Qed.

End MonitorGoFacts.

Section MonitorGoTheorems.
Import MonitorGo.

(** X17: in [monitor.go], adding a node that is already watched orphans its
    handle.  The node index then points at the new handle only, while the
    handles index keeps the old handle too; a later [RemoveNodeIDs] of the
    node unmonitors and deletes the new handle only, after which the node
    is "not found" for any further removal although change records for the
    old handle are still turned into messages for the node. *)
Theorem readding_a_node_orphans_its_handle env env' m s node old :
  nodeLookup s !! NodeID_String node = Some old ->
  handles s !! old = Some node ->
  old <> atomic_AddUint32 (nextClientHandle m) 1 ->
  let fresh := atomic_AddUint32 (nextClientHandle m) 1 in
  let s1 := (AddNodeIDs env m s [node]).1.2 in
  let s2 := (RemoveNodeIDs env' s1 [node]).1.2 in
  nodeLookup s1 !! NodeID_String node = Some fresh /\
  handles s1 !! fresh = Some node /\
  handles s1 !! old = Some node /\
  (RemoveNodeIDs env' s1 [node]).2 = [CallUnmonitor [fresh]] /\
  nodeLookup s2 !! NodeID_String node = None /\
  handles s2 !! fresh = None /\
  handles s2 !! old = Some node /\
  (forall env'', (RemoveNodeIDs env'' s2 [node]).1.1
                 = Some (ErrNodeNotFound (NodeID_String node))) /\
  (forall value,
     message_of (handles s2) {| min_ClientHandle := old; min_Value := value |}
     = hit_message node value).
Proof.
  intros Hnl Hhs Hne fresh s1 s2.
  assert (E1 : s1 = set_indices s (<[fresh := node]> (handles s))
                      (<[NodeID_String node := fresh]> (nodeLookup s))) by reflexivity.
  assert (Hl1 : nodeLookup s1 !! NodeID_String node = Some fresh)
    by (rewrite E1; simpl; apply lookup_insert_eq).
  assert (E2 : RemoveNodeIDs env' s1 [node] =
    (match sub_Unmonitor env' [fresh] with
     | inl e => Some e
     | inr resp => if negb (ServiceResult resp =? StatusOK)
                   then Some (ErrStatus (ServiceResult resp)) else None
     end,
     set_indices s1 (delete fresh (handles s1)) (delete (NodeID_String node) (nodeLookup s1)),
     [CallUnmonitor [fresh]])).
  { unfold RemoveNodeIDs. cbn [remove_loop length replicate]. by rewrite Hl1. }
  assert (Hs2 : s2 = set_indices s1 (delete fresh (handles s1))
                       (delete (NodeID_String node) (nodeLookup s1)))
    by (unfold s2; by rewrite E2).
  assert (Hold2 : handles s2 !! old = Some node).
  { rewrite Hs2, E1. simpl. rewrite lookup_delete_ne by done.
    by rewrite lookup_insert_ne. }
  split_and!.
  - exact Hl1.
  - rewrite E1. simpl. apply lookup_insert_eq.
  - rewrite E1. simpl. by rewrite lookup_insert_ne.
  - by rewrite E2.
  - rewrite Hs2. simpl. apply lookup_delete_eq.
  - rewrite Hs2. simpl. apply lookup_delete_eq.
  - exact Hold2.
  - intros env''.
    assert (Hnone : nodeLookup s2 !! NodeID_String node = None)
      by (rewrite Hs2; simpl; apply lookup_delete_eq).
    unfold RemoveNodeIDs. cbn [remove_loop length replicate]. by rewrite Hnone.
  - intros value. unfold message_of. simpl. by rewrite Hold2.
Qed.

(** X17 at a subscription that watches A under handle 101, on a registry
    whose counter is at 102. *)
Lemma readding_a_node_orphans_its_handle_witness :
  handles (RemoveNodeIDs ExamplesV1.env_ok
             (AddNodeIDs ExamplesV1.env_ok (set_nextClientHandle New 102)
                (ExamplesV1.subAB 1) [Examples.nodeA]).1.2 [Examples.nodeA]).1.2 !! 101
    = Some Examples.nodeA /\
  nodeLookup (RemoveNodeIDs ExamplesV1.env_ok
                (AddNodeIDs ExamplesV1.env_ok (set_nextClientHandle New 102)
                   (ExamplesV1.subAB 1) [Examples.nodeA]).1.2 [Examples.nodeA]).1.2
    !! "ns=2;s=A" = None.
Proof.
  destruct (readding_a_node_orphans_its_handle ExamplesV1.env_ok ExamplesV1.env_ok
              (set_nextClientHandle New 102) (ExamplesV1.subAB 1) Examples.nodeA 101)
    as (_ & _ & _ & _ & H5 & _ & H7 & _).
  - vm_compute. reflexivity.
  - vm_compute. reflexivity.
  - vm_compute. discriminate.
  - split; [exact H7 | exact H5].
Defined.

(** X18: what [RemoveNodeIDs] of [monitor.go] sends and how it judges the
    answer.  For nodes that are all in the node index, under pairwise
    distinct string forms, it makes one unmonitor RPC that carries, in
    order, the client handles of the nodes; it deletes the nodes from the
    node index and the handles from the handles index before the RPC; and it
    returns the error of the RPC or a service result that is not OK, without
    looking at the per-item results. *)
Theorem monitor_go_RemoveNodeIDs_sends_client_handles env s nodes :
  NoDup (map NodeID_String nodes) ->
  (forall node, node ∈ nodes -> is_Some (nodeLookup s !! NodeID_String node)) ->
  exists sent,
    Forall2 (fun node h => nodeLookup s !! NodeID_String node = Some h) nodes sent /\
    RemoveNodeIDs env s nodes =
      (match sub_Unmonitor env sent with
       | inl e => Some e
       | inr resp => if negb (ServiceResult resp =? StatusOK)
                     then Some (ErrStatus (ServiceResult resp)) else None
       end,
       (RemoveNodeIDs env s nodes).1.2, [CallUnmonitor sent]) /\
    handles (RemoveNodeIDs env s nodes).1.2 = delete_all sent (handles s) /\
    (forall node, node ∈ nodes ->
       nodeLookup (RemoveNodeIDs env s nodes).1.2 !! NodeID_String node = None).
Proof.
  intros Hnd Hin.
  destruct (remove_loop_present_v1 nodes 0 (handles s) (nodeLookup s)
              (replicate (length nodes) 0) Hnd Hin)
    as (sent & hs' & nl' & Hloop & Hall & -> & Hnl).
  { by rewrite length_replicate. }
  rewrite take_0, app_nil_l in Hloop.
  exists sent. unfold RemoveNodeIDs. rewrite Hloop. simpl.
  split_and!; try done.
  intros node Hnode. rewrite Hnl.
  rewrite decide_True; [done|]. by apply list_elem_of_fmap_2.
Qed.

(** X18 at the removal of A and B from a subscription that watches them
    under handles 101 and 102. *)
Lemma monitor_go_RemoveNodeIDs_sends_client_handles_witness :
  exists sent,
    Forall2 (fun node h => nodeLookup (ExamplesV1.subAB 1) !! NodeID_String node = Some h)
      [Examples.nodeA; Examples.nodeB] sent /\
    (RemoveNodeIDs ExamplesV1.env_ok (ExamplesV1.subAB 1) [Examples.nodeA; Examples.nodeB]).2
      = [CallUnmonitor sent] /\
    sent = [101; 102].
Proof.
  destruct (monitor_go_RemoveNodeIDs_sends_client_handles ExamplesV1.env_ok
              (ExamplesV1.subAB 1) [Examples.nodeA; Examples.nodeB])
    as (sent & Hall & Heq & _).
  - vm_compute. repeat constructor; set_solver.
  - intros node Hnode.
    apply elem_of_cons in Hnode as [->|Hnode]; [by eexists|].
    apply list_elem_of_singleton in Hnode as ->. by eexists.
  - exists sent. split; [exact Hall|]. split; [by rewrite Heq|].
    apply Forall2_cons_inv_l in Hall as (h1 & rest1 & Hh1 & Hall & ->).
    apply Forall2_cons_inv_l in Hall as (h2 & rest2 & Hh2 & Hall & ->).
    apply Forall2_nil_inv_l in Hall as ->.
    vm_compute in Hh1. vm_compute in Hh2. injection Hh1 as <-. injection Hh2 as <-.
    reflexivity.
Defined.

End MonitorGoTheorems.
